(** * AI-Note-Taker: a shallow embedding of the session logic

    The development follows the TypeScript sources:

    - [types.ts]                      the data model;
    - [services/geminiService.ts]     the summarization service ([Gemini]);
    - [App.tsx]                       the top-level controller ([App]);
    - [components/SummaryView.tsx]    the clip builder ([SummaryView]);
    - [components/Recorder.tsx]       the capture session ([Recorder]).

    React state is a record, a state setter is a record update, and a
    handler is a function from state to state.  A handler created in a render
    reads the state variables of that render: the values are passed to the
    handler as its [scope].  Browser objects (media tracks, the media
    recorder, the speech recogniser, timers) are small records whose fields
    are what the code can observe of them; calls on the outside world
    (props callbacks, [track.stop()], ...) are appended to a trace. *)

From Stdlib Require Import String Ascii List Arith Bool Lia.
From stdpp Require Import base decidable gmap strings list.
Import ListNotations.

Local Open Scope string_scope.

(** ** JavaScript values *)

Module Js.

(** An [Error] object: [name] and [message]. *)
Record Error := { name : string; message : string }.

(** The outcome of a call that may throw (or of an awaited promise that may
    reject). *)
Inductive Outcome (A : Type) : Type :=
| Returned (a : A)
| Thrown (e : Error).
Arguments Returned {A} a.
Arguments Thrown {A} e.

(** Truthiness of a string: every string but the empty one. *)
Definition truthy (s : string) : bool := negb (String.eqb s "").

(** [o || d] where [o] is a possibly undefined string. *)
Definition or_string (o : option string) (d : string) : string :=
  match o with
  | Some s => if truthy s then s else d
  | None => d
  end.

(** [o || d] where [o] is a possibly undefined array: an array is always
    truthy. *)
Definition or_array {A : Type} (o : option (list A)) (d : list A) : list A :=
  match o with
  | Some l => l
  | None => d
  end.

(** [l.join(sep)] on an array of strings. *)
Definition join (sep : string) (l : list string) : string :=
  String.concat sep l.

Definition newline : string := String (ascii_of_nat 10) "".

(** [s.trim()]: white space is stripped at both ends.  Strings are ASCII
    here: tab, line feed, vertical tab, form feed, carriage return,
    space. *)
Definition isWhite (c : ascii) : bool :=
  let n := nat_of_ascii c in
  (Nat.leb 9 n && Nat.leb n 13) || Nat.eqb n 32.

Fixpoint trimStart (s : string) : string :=
  match s with
  | String c r => if isWhite c then trimStart r else s
  | EmptyString => EmptyString
  end.

Fixpoint rev_string (s acc : string) : string :=
  match s with
  | String c r => rev_string r (String c acc)
  | EmptyString => acc
  end.

Definition trim (s : string) : string :=
  rev_string (trimStart (rev_string (trimStart s) "")) "".

End Js.

(** ** types.ts *)

Inductive AppState := CALENDAR | RECORDING | PROCESSING | SUMMARY.

Record Attendee := {
  a_id : string;
  a_name : string;
  a_email : string;
  a_avatar : string
}.

Record Meeting := {
  m_id : string;
  m_title : string;
  m_platform : string;
  m_time : string;
  m_duration : string;
  m_url : string;
  m_attendees : list Attendee
}.

(** [timestamp] is in seconds from the start of the recording. *)
Record TranscriptSegment := {
  seg_timestamp : nat;
  seg_text : string;
  seg_isFinal : bool
}.

Record MeetingHighlight := {
  hl_timestamp : nat;
  hl_label : string
}.

(** [start] and [end] are positions of the player, in seconds. *)
Record VideoClip := {
  clip_id : string;
  clip_label : string;
  clip_start : nat;
  clip_end : nat
}.

Record SummaryData := {
  sd_meetingTitle : string;
  sd_date : string;
  sd_summaryText : string;
  sd_keyPoints : list string;
  sd_actionItems : list string;
  sd_attendeesDetected : list string;
  sd_sentiment : string;
  sd_followUpEmail : string;
  sd_transcript : list TranscriptSegment
}.

(** A [Blob] is its bytes; [new Blob(parts)] concatenates the parts. *)
Definition Blob := list Byte.byte.

Definition new_Blob (parts : list Blob) : Blob := concat parts.

#[global] Instance Attendee_eq_dec : EqDecision Attendee.
Proof. solve_decision. Defined.
#[global] Instance Meeting_eq_dec : EqDecision Meeting.
Proof. solve_decision. Defined.
#[global] Instance TranscriptSegment_eq_dec : EqDecision TranscriptSegment.
Proof. solve_decision. Defined.
#[global] Instance MeetingHighlight_eq_dec : EqDecision MeetingHighlight.
Proof. solve_decision. Defined.

(** ** constants.ts *)

Definition MOCK_ATTENDEES : list Attendee := [
  {| a_id := "1"; a_name := "Sarah Chen"; a_email := "sarah.c@techcorp.com";
     a_avatar := "https://picsum.photos/id/64/100/100" |};
  {| a_id := "2"; a_name := "Marcus Rodriguez"; a_email := "m.rod@techcorp.com";
     a_avatar := "https://picsum.photos/id/91/100/100" |};
  {| a_id := "3"; a_name := "Alex Kim"; a_email := "alex.k@design.io";
     a_avatar := "https://picsum.photos/id/177/100/100" |} ].

Definition UPCOMING_MEETINGS : list Meeting := [
  {| m_id := "m1"; m_title := "Q3 Product Roadmap Review";
     m_platform := "Google Meet"; m_time := "10:00 AM"; m_duration := "45 min";
     m_url := "https://meet.google.com/abc-defg-hij";
     m_attendees := firstn 2 MOCK_ATTENDEES |};
  {| m_id := "m2"; m_title := "Design Handoff Sync";
     m_platform := "Zoom"; m_time := "11:30 AM"; m_duration := "30 min";
     m_url := "https://zoom.us/j/123456789";
     m_attendees := skipn 2 MOCK_ATTENDEES |};
  {| m_id := "m3"; m_title := "Weekly Engineering Standup";
     m_platform := "Google Meet"; m_time := "2:00 PM"; m_duration := "15 min";
     m_url := "https://meet.google.com/xyz-uvwx-yz";
     m_attendees := MOCK_ATTENDEES |} ].

(** ** services/geminiService.ts *)

Module Gemini.

(** [const apiKey = process.env.API_KEY || ''], evaluated when the module is
    loaded; [API_KEY] is the environment variable, if set. *)
Definition apiKey (API_KEY : option string) : string :=
  Js.or_string API_KEY "".

(** The object the backend answers with, after [JSON.parse]: every
    property of the response schema may be missing.  [p_transcript] is a
    [transcript] property the backend might add on its own. *)
Record Parsed := {
  p_summaryText : option string;
  p_keyPoints : option (list string);
  p_actionItems : option (list string);
  p_attendeesDetected : option (list string);
  p_sentiment : option string;
  p_followUpEmail : option string;
  p_transcript : option (list TranscriptSegment)
}.

(** [JSON.parse('{}')]. *)
Definition emptyObject : Parsed :=
  {| p_summaryText := None; p_keyPoints := None; p_actionItems := None;
     p_attendeesDetected := None; p_sentiment := None;
     p_followUpEmail := None; p_transcript := None |}.

(** The value [generateMeetingSummary] returns. *)
Record Result := {
  summaryText : option string;
  keyPoints : option (list string);
  actionItems : option (list string);
  attendeesDetected : option (list string);
  sentiment : option string;
  followUpEmail : option string;
  transcript : list TranscriptSegment
}.

(** [{ ...parsed, transcript: transcript }]: the properties of [parsed],
    and then [transcript], which replaces a property of that name. *)
Definition spread (parsed : Parsed) (transcript : list TranscriptSegment) : Result :=
  {| summaryText := p_summaryText parsed;
     keyPoints := p_keyPoints parsed;
     actionItems := p_actionItems parsed;
     attendeesDetected := p_attendeesDetected parsed;
     sentiment := p_sentiment parsed;
     followUpEmail := p_followUpEmail parsed;
     transcript := transcript |}.

(** The request sent by [ai.models.generateContent].  The prompt is a fixed
    template with three holes; the request records what fills them. *)
Record Request := {
  rq_apiKey : string;
  rq_model : string;
  rq_mimeType : string;
  rq_data : string;
  rq_context : string;
  rq_highlights : string;
  rq_transcript : string
}.

(** The backend: the awaited call rejects, or resolves to a response whose
    [text] is absent (or empty), or denotes the object [JSON.parse] reads
    from it.  Text that is not JSON makes [JSON.parse] throw inside the
    same [try]: it is one more way of [Thrown]. *)
Definition Backend := Request -> Js.Outcome (option Parsed).

Definition digit (n : nat) : ascii := ascii_of_nat (48 + n).

Definition pad2 (n : nat) : string :=
  String (digit (n / 10)) (String (digit (n mod 10)) "").

(** [new Date(t * 1000).toISOString().substr(11, 8)]: the time of day
    [HH:MM:SS] (UTC) of the instant [t] seconds after the epoch, for
    instants before the year 10000 (from there on [toISOString] prints a
    longer year, and beyond the range of [Date] it throws). *)
Definition isoTime (t : nat) : string :=
  pad2 ((t / 3600) mod 24) ++ ":" ++ pad2 ((t / 60) mod 60) ++ ":" ++ pad2 (t mod 60).

Definition formatTranscript (transcript : list TranscriptSegment) : string :=
  Js.join Js.newline
    (map (fun t => "[" ++ isoTime (seg_timestamp t) ++ "] " ++ seg_text t) transcript).

Definition formatHighlights (highlights : list MeetingHighlight) : string :=
  Js.join Js.newline
    (map (fun h => "User marked important moment at: " ++ isoTime (hl_timestamp h))
         highlights).

Definition missingKey : Js.Error :=
  {| Js.name := "Error";
     Js.message := "API Key is missing. Please set process.env.API_KEY" |}.

(** [generateMeetingSummary]: the outcome, and the requests that were made
    to the backend on the way. *)
Definition generateMeetingSummary (API_KEY : option string) (backend : Backend)
    (audioBase64 context : string)
    (transcript : list TranscriptSegment) (highlights : list MeetingHighlight)
  : Js.Outcome Result * list Request :=
  if negb (Js.truthy (apiKey API_KEY)) then (Js.Thrown missingKey, [])
  else
    let formattedTranscript := formatTranscript transcript in
    let formattedHighlights := formatHighlights highlights in
    let request :=
      {| rq_apiKey := apiKey API_KEY;
         rq_model := "gemini-2.5-flash";
         rq_mimeType := "audio/mp3";
         rq_data := audioBase64;
         rq_context := context;
         rq_highlights :=
           Js.or_string (Some formattedHighlights) "None provided.";
         rq_transcript :=
           Js.or_string (Some formattedTranscript)
             "No live transcript available, rely on audio." |} in
    match backend request with
    | Js.Returned text =>
        let parsed := match text with Some p => p | None => emptyObject end in
        (Js.Returned (spread parsed transcript), [request])
    | Js.Thrown error => (Js.Thrown error, [request])
    end.

End Gemini.

(** ** App.tsx *)

Module App.

Record State := {
  state : AppState;
  activeMeeting : option Meeting;
  summaryData : option SummaryData;
  recordedVideoBlob : option Blob;
  processingError : option string;
  meetings : list Meeting;
  (** the requests made to the summarization backend so far *)
  requests : list Gemini.Request
}.

Definition initial : State :=
  {| state := CALENDAR; activeMeeting := None; summaryData := None;
     recordedVideoBlob := None; processingError := None;
     meetings := UPCOMING_MEETINGS; requests := [] |}.

(** [new Set(prev.map(m => m.id))] *)
Definition existingIds (prev : list Meeting) : gset string :=
  list_to_set (map m_id prev).

(** The updater given to [setMeetings] in the demo branch of
    [handleGoogleConnect]. *)
Definition mergeDemo (prev : list Meeting) : list Meeting :=
  let newEvents := filter (fun e => m_id e ∉ existingIds prev) UPCOMING_MEETINGS in
  prev ++ newEvents.

(** The updater given to [setMeetings] after [fetchGoogleCalendarEvents]. *)
Definition mergeCalendar (calendarEvents prev : list Meeting) : list Meeting :=
  let newEvents := filter (fun e => m_id e ∉ existingIds prev) calendarEvents in
  prev ++ newEvents.

Definition setMeetings (f : list Meeting -> list Meeting) (s : State) : State :=
  {| state := state s; activeMeeting := activeMeeting s;
     summaryData := summaryData s; recordedVideoBlob := recordedVideoBlob s;
     processingError := processingError s; meetings := f (meetings s);
     requests := requests s |}.

Definition handleJoin (meeting : Meeting) (s : State) : State :=
  {| state := RECORDING; activeMeeting := Some meeting;
     summaryData := summaryData s; recordedVideoBlob := recordedVideoBlob s;
     processingError := processingError s; meetings := meetings s;
     requests := requests s |}.

(** The context string of [handleStopRecording]; an absent meeting prints
    as [undefined]. *)
Definition contextOf (m : option Meeting) : string :=
  "Meeting Title: "
    ++ match m with Some m => m_title m | None => "undefined" end
    ++ ". Attendees: "
    ++ match m with
       | Some m => Js.join ", " (map a_name (m_attendees m))
       | None => "undefined"
       end.

(** The object given to [setSummaryData]. *)
Definition normalize (title : option string) (today : string)
    (result : Gemini.Result) : SummaryData :=
  {| sd_meetingTitle := Js.or_string title "Unknown Meeting";
     sd_date := today;
     sd_summaryText := Js.or_string (Gemini.summaryText result) "No summary generated.";
     sd_actionItems := Js.or_array (Gemini.actionItems result) [];
     sd_keyPoints := Js.or_array (Gemini.keyPoints result) [];
     sd_attendeesDetected := Js.or_array (Gemini.attendeesDetected result) [];
     sd_sentiment := Js.or_string (Gemini.sentiment result) "Neutral";
     sd_followUpEmail := Js.or_string (Gemini.followUpEmail result) "";
     sd_transcript := Js.or_array (Some (Gemini.transcript result)) [] |}.

(** [handleStopRecording] for a recording that is read, run to the end of
    its [onloadend] continuation.  [base64] is what the [FileReader] makes
    of the blob (the part of the data URL after the comma); [today] is
    [new Date().toLocaleDateString()]. *)
Definition handleStopRecording (API_KEY : option string) (backend : Gemini.Backend)
    (base64 : Blob -> string) (today : string)
    (audioVideoBlob : Blob) (videoBlob : option Blob)
    (transcript : list TranscriptSegment) (highlights : list MeetingHighlight)
    (s : State) : State :=
  let cleanBase64 := base64 audioVideoBlob in
  let '(outcome, sent) :=
    Gemini.generateMeetingSummary API_KEY backend cleanBase64
      (contextOf (activeMeeting s)) transcript highlights in
  match outcome with
  | Js.Returned result =>
      {| state := SUMMARY; activeMeeting := activeMeeting s;
         summaryData :=
           Some (normalize (option_map m_title (activeMeeting s)) today result);
         recordedVideoBlob := videoBlob;
         processingError := processingError s; meetings := meetings s;
         requests := requests s ++ sent |}
  | Js.Thrown apiError =>
      {| state := CALENDAR; activeMeeting := activeMeeting s;
         summaryData := summaryData s;
         recordedVideoBlob := videoBlob;
         processingError :=
           Some "Failed to generate summary with Gemini. Please try again.";
         meetings := meetings s;
         requests := requests s ++ sent |}
  end.

End App.


(** ** components/SummaryView.tsx: the clip builder *)

Module SummaryView.

(** [videoRef.current]: the player, of which the builder reads the position. *)
Record Video := { currentTime : nat }.

Record State := {
  clips : list VideoClip;
  newClipStart : option nat;
  newClipEnd : option nat;
  newClipLabel : string;
  videoRef : option Video
}.

Definition initial (video : option Video) : State :=
  {| clips := []; newClipStart := None; newClipEnd := None;
     newClipLabel := ""; videoRef := video |}.

Definition setClips (v : list VideoClip) (s : State) : State :=
  {| clips := v; newClipStart := newClipStart s; newClipEnd := newClipEnd s;
     newClipLabel := newClipLabel s; videoRef := videoRef s |}.

Definition setNewClipStart (v : option nat) (s : State) : State :=
  {| clips := clips s; newClipStart := v; newClipEnd := newClipEnd s;
     newClipLabel := newClipLabel s; videoRef := videoRef s |}.

Definition setNewClipEnd (v : option nat) (s : State) : State :=
  {| clips := clips s; newClipStart := newClipStart s; newClipEnd := v;
     newClipLabel := newClipLabel s; videoRef := videoRef s |}.

Definition setNewClipLabel (v : string) (s : State) : State :=
  {| clips := clips s; newClipStart := newClipStart s; newClipEnd := newClipEnd s;
     newClipLabel := v; videoRef := videoRef s |}.

(** The operator moves the player (or playback advances) to position [t]. *)
Definition seek (t : nat) (s : State) : State :=
  {| clips := clips s; newClipStart := newClipStart s; newClipEnd := newClipEnd s;
     newClipLabel := newClipLabel s;
     videoRef := match videoRef s with
                 | Some _ => Some {| currentTime := t |}
                 | None => None
                 end |}.

(** The handlers read [newClipEnd], [newClipStart], [newClipLabel] and
    [clips] of the render they belong to, which is the current one: they are
    attached to the buttons anew at every render. *)
Definition captureStart (s : State) : State :=
  match videoRef s with
  | Some video =>
      let s' := setNewClipStart (Some (currentTime video)) s in
      match newClipEnd s with
      | Some e => if (e <? currentTime video)%nat then setNewClipEnd None s' else s'
      | None => s'
      end
  | None => s
  end.

Definition captureEnd (s : State) : State :=
  match videoRef s with
  | Some video => setNewClipEnd (Some (currentTime video)) s
  | None => s
  end.

(** [now] is [Date.now().toString()]. *)
Definition saveClip (now : string) (s : State) : State :=
  match newClipStart s, newClipEnd s with
  | Some st, Some en =>
      if Js.truthy (Js.trim (newClipLabel s)) then
        let clip := {| clip_id := now; clip_label := newClipLabel s;
                       clip_start := st; clip_end := en |} in
        setNewClipLabel "" (setNewClipEnd None (setNewClipStart None
          (setClips (clips s ++ [clip]) s)))
      else s
  | _, _ => s
  end.

Definition deleteClip (id : string) (s : State) : State :=
  setClips (filter (fun c => clip_id c ≠ id) (clips s)) s.

Inductive Event :=
| Seek (t : nat)
| CaptureStart
| CaptureEnd
| TypeLabel (v : string)
| SaveClip (now : string)
| DeleteClip (id : string).

Definition step (s : State) (e : Event) : State :=
  match e with
  | Seek t => seek t s
  | CaptureStart => captureStart s
  | CaptureEnd => captureEnd s
  | TypeLabel v => setNewClipLabel v s
  | SaveClip now => saveClip now s
  | DeleteClip id => deleteClip id s
  end.

Definition run (events : list Event) (s : State) : State :=
  fold_left step events s.

End SummaryView.


(** ** components/Recorder.tsx: the capture session *)

Module Recorder.

Inductive Status := IDLE | RECORDING | PAUSED.

(** *** Browser objects *)

Inductive Kind := video | audio.

(** Where a track comes from: the display capture, the microphone, or the
    destination node of the audio graph. *)
Inductive Origin := display | microphone | destination.

Record Track := { origin : Origin; kind : Kind; index : nat }.

#[global] Instance Status_eq_dec : EqDecision Status.
Proof. solve_decision. Defined.
#[global] Instance Kind_eq_dec : EqDecision Kind.
Proof. solve_decision. Defined.
#[global] Instance Origin_eq_dec : EqDecision Origin.
Proof. solve_decision. Defined.
#[global] Instance Track_eq_dec : EqDecision Track.
Proof. solve_decision. Defined.

(** A [MediaStream] is the list of its tracks ([getTracks()]). *)
Definition MediaStream := list Track.

Definition getVideoTracks (s : MediaStream) : list Track :=
  filter (fun t => kind t = video) s.

Definition getAudioTracks (s : MediaStream) : list Track :=
  filter (fun t => kind t = audio) s.

(** The one audio track of [dest.stream]. *)
Definition destinationTrack : Track :=
  {| origin := destination; kind := audio; index := 0 |}.

(** What the platform answers during [startCapture]: the two permission
    prompts resolve to a stream or reject (a refusal rejects with
    [NotAllowedError]); speech recognition may be missing from [window];
    the [MediaRecorder] constructor throws [NotSupportedError] on a
    container it cannot encode. *)
Record Platform := {
  getDisplayMedia : Js.Outcome MediaStream;
  getUserMedia : Js.Outcome MediaStream;
  webkitSpeechRecognition : bool;
  mimeTypeSupported : bool
}.

Definition NotAllowedError : Js.Error :=
  {| Js.name := "NotAllowedError"; Js.message := "Permission denied" |}.

Definition NotSupportedError : Js.Error :=
  {| Js.name := "NotSupportedError"; Js.message := "mimeType is not supported" |}.

Definition TypeError : Js.Error :=
  {| Js.name := "TypeError";
     Js.message := "Cannot set properties of undefined (setting 'onended')" |}.

(** *** Component state *)

(** The state variables of one render: what a closure created in that render
    reads when it names [status], [duration], [transcript], ... *)
Record View := {
  status : Status;
  duration : nat;
  error : option string;
  transcript : list TranscriptSegment;
  currentText : string;
  highlights : list MeetingHighlight
}.

Inductive RecordingState := inactive | recording | paused.

#[global] Instance RecordingState_eq_dec : EqDecision RecordingState.
Proof. solve_decision. Defined.

(** The [MediaRecorder]: its [state], whether a [stop] event is queued for
    it, and the render whose [startCapture] made its [onstop] handler. *)
Record MediaRecorder := {
  mr_stream : MediaStream;
  mr_state : RecordingState;
  mr_stopQueued : bool;
  mr_scope : View
}.

(** The speech recogniser: whether it is started, and the render whose
    [initSpeechRecognition] made its handlers. *)
Record SpeechRecognition := {
  sr_started : bool;
  sr_scope : View
}.

(** The audio graph: the streams connected to the destination node. *)
Record AudioContext := {
  ac_sources : list MediaStream;
  ac_closed : bool
}.

Inductive Timer := ticking | cleared.

Record Refs := {
  streamRef : option MediaStream;
  mediaRecorderRef : option MediaRecorder;
  chunksRef : list Blob;
  intervalRef : option Timer;
  audioContextRef : option AudioContext;
  recognitionRef : option SpeechRecognition
}.

(** Calls that leave the component. *)
Inductive Effect :=
| WindowOpen (url : string)
| TrackStop (t : Track)
| RecorderStop
| RecognitionStart
| RecognitionStop
| OnStop (audioBlob : Blob) (videoBlob : option Blob)
         (transcript : list TranscriptSegment) (highlights : list MeetingHighlight)
| OnCancel.

(** [onended] is the display track that carries the termination listener. *)
Record St := {
  view : View;
  refs : Refs;
  onended : option Track;
  trace : list Effect
}.

Definition initialView : View :=
  {| status := IDLE; duration := 0; error := None; transcript := [];
     currentText := ""; highlights := [] |}.

Definition initial : St :=
  {| view := initialView;
     refs := {| streamRef := None; mediaRecorderRef := None; chunksRef := [];
                intervalRef := None; audioContextRef := None;
                recognitionRef := None |};
     onended := None;
     trace := [] |}.

(** *** Setters *)

Definition withView (f : View -> View) (s : St) : St :=
  {| view := f (view s); refs := refs s; onended := onended s; trace := trace s |}.

Definition withRefs (f : Refs -> Refs) (s : St) : St :=
  {| view := view s; refs := f (refs s); onended := onended s; trace := trace s |}.

Definition emit (e : Effect) (s : St) : St :=
  {| view := view s; refs := refs s; onended := onended s; trace := trace s ++ [e] |}.

Definition setOnended (t : Track) (s : St) : St :=
  {| view := view s; refs := refs s; onended := Some t; trace := trace s |}.

Definition setStatus (v : Status) : St -> St :=
  withView (fun w =>
    {| status := v; duration := duration w; error := error w;
       transcript := transcript w; currentText := currentText w;
       highlights := highlights w |}).

Definition setDuration (f : nat -> nat) : St -> St :=
  withView (fun w =>
    {| status := status w; duration := f (duration w); error := error w;
       transcript := transcript w; currentText := currentText w;
       highlights := highlights w |}).

Definition setError (v : option string) : St -> St :=
  withView (fun w =>
    {| status := status w; duration := duration w; error := v;
       transcript := transcript w; currentText := currentText w;
       highlights := highlights w |}).

Definition setTranscript (f : list TranscriptSegment -> list TranscriptSegment)
  : St -> St :=
  withView (fun w =>
    {| status := status w; duration := duration w; error := error w;
       transcript := f (transcript w); currentText := currentText w;
       highlights := highlights w |}).

Definition setCurrentText (v : string) : St -> St :=
  withView (fun w =>
    {| status := status w; duration := duration w; error := error w;
       transcript := transcript w; currentText := v;
       highlights := highlights w |}).

Definition setHighlights (f : list MeetingHighlight -> list MeetingHighlight)
  : St -> St :=
  withView (fun w =>
    {| status := status w; duration := duration w; error := error w;
       transcript := transcript w; currentText := currentText w;
       highlights := f (highlights w) |}).

Definition setStreamRef (v : option MediaStream) : St -> St :=
  withRefs (fun r =>
    {| streamRef := v; mediaRecorderRef := mediaRecorderRef r;
       chunksRef := chunksRef r; intervalRef := intervalRef r;
       audioContextRef := audioContextRef r; recognitionRef := recognitionRef r |}).

Definition setMediaRecorderRef (v : option MediaRecorder) : St -> St :=
  withRefs (fun r =>
    {| streamRef := streamRef r; mediaRecorderRef := v;
       chunksRef := chunksRef r; intervalRef := intervalRef r;
       audioContextRef := audioContextRef r; recognitionRef := recognitionRef r |}).

Definition setChunksRef (v : list Blob) : St -> St :=
  withRefs (fun r =>
    {| streamRef := streamRef r; mediaRecorderRef := mediaRecorderRef r;
       chunksRef := v; intervalRef := intervalRef r;
       audioContextRef := audioContextRef r; recognitionRef := recognitionRef r |}).

Definition setIntervalRef (v : option Timer) : St -> St :=
  withRefs (fun r =>
    {| streamRef := streamRef r; mediaRecorderRef := mediaRecorderRef r;
       chunksRef := chunksRef r; intervalRef := v;
       audioContextRef := audioContextRef r; recognitionRef := recognitionRef r |}).

Definition setAudioContextRef (v : option AudioContext) : St -> St :=
  withRefs (fun r =>
    {| streamRef := streamRef r; mediaRecorderRef := mediaRecorderRef r;
       chunksRef := chunksRef r; intervalRef := intervalRef r;
       audioContextRef := v; recognitionRef := recognitionRef r |}).

Definition setRecognitionRef (v : option SpeechRecognition) : St -> St :=
  withRefs (fun r =>
    {| streamRef := streamRef r; mediaRecorderRef := mediaRecorderRef r;
       chunksRef := chunksRef r; intervalRef := intervalRef r;
       audioContextRef := audioContextRef r; recognitionRef := v |}).

(** *** Speech recognition *)

(** One entry of [event.results], from [event.resultIndex] on: [isFinal] and
    the text of its first alternative. *)
Record SpeechResult := { isFinal : bool; alternative : string }.

(** [recognition.start()]: throws [InvalidStateError] when already started. *)
Definition recognition_start (r : SpeechRecognition) : Js.Outcome SpeechRecognition :=
  if sr_started r then
    Js.Thrown {| Js.name := "InvalidStateError";
                 Js.message := "recognition has already started" |}
  else Js.Returned {| sr_started := true; sr_scope := sr_scope r |}.

(** [recognitionRef.current.stop()] *)
Definition recognition_stop (r : SpeechRecognition) (s : St) : St :=
  emit RecognitionStop
    (setRecognitionRef (Some {| sr_started := false; sr_scope := sr_scope r |}) s).

(** [recognition.onresult], as made in the render [scope]. *)
Definition onresult (scope : View) (results : list SpeechResult) (s : St) : St :=
  let final :=
    fold_left (fun acc r => if isFinal r then acc ++ alternative r else acc) results "" in
  let interim :=
    fold_left (fun acc r => if isFinal r then acc else acc ++ alternative r) results "" in
  if Js.truthy final then
    setCurrentText ""
      (setTranscript
         (fun prev => (prev ++ [ {| seg_timestamp := duration scope;
                                   seg_text := final;
                                   seg_isFinal := true |} ])%list) s)
  else setCurrentText interim s.

(** [recognition.onend], as made in the render [scope]; [recognition] is the
    object held by [recognitionRef]. *)
Definition onend (scope : View) (s : St) : St :=
  if decide (status scope = RECORDING) then
    match recognitionRef (refs s) with
    | Some recognition =>
        match recognition_start recognition with
        | Js.Returned r' => emit RecognitionStart (setRecognitionRef (Some r') s)
        | Js.Thrown _ => s
        end
    | None => s
    end
  else s.

(** [initSpeechRecognition], as made in the render [scope]. *)
Definition initSpeechRecognition (scope : View) (pf : Platform) (s : St) : St :=
  if negb (webkitSpeechRecognition pf) then s
  else
    emit RecognitionStart
      (setRecognitionRef (Some {| sr_started := true; sr_scope := scope |}) s).

(** *** Stopping *)

Definition cleanup (s : St) : St :=
  let s := match intervalRef (refs s) with
           | Some _ => setIntervalRef (Some cleared) s
           | None => s
           end in
  let s := match streamRef (refs s) with
           | Some stream => fold_left (fun s track => emit (TrackStop track) s) stream s
           | None => s
           end in
  let s := match audioContextRef (refs s) with
           | Some ctx =>
               setAudioContextRef
                 (Some {| ac_sources := ac_sources ctx; ac_closed := true |}) s
           | None => s
           end in
  match recognitionRef (refs s) with
  | Some r => recognition_stop r s
  | None => s
  end.

(** [mediaRecorder.stop()] on a recorder that is not inactive: the state
    becomes [inactive] at once and the [stop] event is queued. *)
Definition recorder_stop (mr : MediaRecorder) (s : St) : St :=
  emit RecorderStop
    (setMediaRecorderRef
       (Some {| mr_stream := mr_stream mr; mr_state := inactive;
                mr_stopQueued := true; mr_scope := mr_scope mr |}) s).

(** [handleStopRecording] names refs only, so every render makes the same
    function. *)
Definition handleStopRecording (s : St) : St :=
  let s := match mediaRecorderRef (refs s) with
           | Some mr =>
               if decide (mr_state mr ≠ inactive) then recorder_stop mr s else s
           | None => s
           end in
  cleanup s.

(** [mediaRecorder.ondataavailable] *)
Definition ondataavailable (data : Blob) (s : St) : St :=
  if (0 <? length data)%nat then setChunksRef (chunksRef (refs s) ++ [data])%list s
  else s.

(** [mediaRecorder.onstop], as made in the render [scope]. *)
Definition onstop (scope : View) (s : St) : St :=
  let fullBlob := new_Blob (chunksRef (refs s)) in
  let s := match recognitionRef (refs s) with
           | Some r => recognition_stop r s
           | None => s
           end in
  emit (OnStop fullBlob (Some fullBlob) (transcript scope) (highlights scope)) s.

(** [addHighlight], as made in the render [scope]. *)
Definition addHighlight (scope : View) (s : St) : St :=
  let timestamp := duration scope in
  setHighlights
    (fun prev => (prev ++ [ {| hl_timestamp := timestamp; hl_label := "Important" |} ])%list) s.

(** *** Starting *)

(** The [catch] block of [startCapture]. *)
Definition startCapture_catch (err : Js.Error) (s : St) : St :=
  let s := setError
             (Some "Failed to access screen or microphone. Please allow permissions.") s in
  if String.eqb (Js.name err) "NotAllowedError" then emit OnCancel s else s.

(** [startCapture], as made in the render [scope].  The visualizer (canvas,
    analyser, animation frame) is left out. *)
Definition startCapture (scope : View) (meeting : Meeting) (pf : Platform) (s : St) : St :=
  let s := setError None s in
  let s := emit (WindowOpen (m_url meeting)) s in
  match getDisplayMedia pf with
  | Js.Thrown err => startCapture_catch err s
  | Js.Returned displayStream =>
  match getUserMedia pf with
  | Js.Thrown err => startCapture_catch err s
  | Js.Returned micStream =>
      let sysSource :=
        if (0 <? length (getAudioTracks displayStream))%nat then [displayStream] else [] in
      let micSource :=
        if (0 <? length (getAudioTracks micStream))%nat then [micStream] else [] in
      let audioCtx := {| ac_sources := sysSource ++ micSource; ac_closed := false |} in
      let s := setAudioContextRef (Some audioCtx) s in
      let mixedStream := (getVideoTracks displayStream ++ [destinationTrack])%list in
      let s := setStreamRef (Some mixedStream) s in
      let s := initSpeechRecognition scope pf s in
      match getVideoTracks displayStream with
      | [] => startCapture_catch TypeError s
      | track0 :: _ =>
          let s := setOnended track0 s in
          if mimeTypeSupported pf then
            let mediaRecorder :=
              {| mr_stream := mixedStream; mr_state := recording;
                 mr_stopQueued := false; mr_scope := scope |} in
            let s := setMediaRecorderRef (Some mediaRecorder) s in
            let s := setStatus RECORDING s in
            setIntervalRef (Some ticking) s
          else startCapture_catch NotSupportedError s
      end
  end
  end.

(** The effect run once when the component mounts: [startCapture] of the
    first render, run to its end in one piece (no event comes between its
    awaits). *)
Definition mount (meeting : Meeting) (pf : Platform) : St :=
  startCapture (view initial) meeting pf initial.

(** *** Events *)

Inductive Event :=
| Tick                                      (** the one-second interval fires *)
| SpeechResults (results : list SpeechResult) (** recognition delivers results *)
| SpeechEnd                                 (** the recognition stream ends on its own *)
| DataAvailable (data : Blob)               (** the encoder flushes a chunk *)
| ClickHighlight                            (** the operator marks a highlight *)
| ClickStop                                 (** the operator stops the recording *)
| DisplayEnded                              (** screen sharing is revoked *)
| StopEvent                                 (** a queued recorder [stop] event is dispatched *)
| Unmount.                                  (** the component is removed *)

Definition step (s : St) (e : Event) : St :=
  match e with
  | Tick =>
      match intervalRef (refs s) with
      | Some ticking => setDuration (fun prev => prev + 1) s
      | _ => s
      end
  | SpeechResults results =>
      match recognitionRef (refs s) with
      | Some r => if sr_started r then onresult (sr_scope r) results s else s
      | None => s
      end
  | SpeechEnd =>
      match recognitionRef (refs s) with
      | Some r =>
          if sr_started r then
            onend (sr_scope r)
              (setRecognitionRef (Some {| sr_started := false; sr_scope := sr_scope r |}) s)
          else s
      | None => s
      end
  | DataAvailable data =>
      match mediaRecorderRef (refs s) with
      | Some _ => ondataavailable data s
      | None => s
      end
  | ClickHighlight => addHighlight (view s) s
  | ClickStop => handleStopRecording s
  | DisplayEnded =>
      match onended s with
      | Some _ => handleStopRecording s
      | None => s
      end
  | StopEvent =>
      match mediaRecorderRef (refs s) with
      | Some mr =>
          if mr_stopQueued mr then
            onstop (mr_scope mr)
              (setMediaRecorderRef
                 (Some {| mr_stream := mr_stream mr; mr_state := mr_state mr;
                          mr_stopQueued := false; mr_scope := mr_scope mr |}) s)
          else s
      | None => s
      end
  | Unmount => cleanup s
  end.

Definition run (events : list Event) (s : St) : St :=
  fold_left step events s.

(** *** Observations on a session *)

(** The tracks the session acquired from the devices. *)
Definition acquired (pf : Platform) : list Track :=
  match getDisplayMedia pf with
  | Js.Returned displayStream =>
      displayStream ++
      match getUserMedia pf with
      | Js.Returned micStream => micStream
      | Js.Thrown _ => []
      end
  | Js.Thrown _ => []
  end.

(** How often [stop()] was called on a track. *)
Definition stopCalls (t : Track) (s : St) : nat :=
  length (List.filter (fun e => match e with
                                | TrackStop t' => bool_decide (t' = t)
                                | _ => false
                                end) (trace s)).

(** The [onStop] handoffs made so far. *)
Definition handoffs (s : St)
  : list (Blob * option Blob * list TranscriptSegment * list MeetingHighlight) :=
  flat_map (fun e => match e with
                     | OnStop a v t h => [(a, v, t, h)]
                     | _ => []
                     end) (trace s).

(** The effective [mediaRecorder.stop()] calls made so far. *)
Definition recorderStops (s : St) : nat :=
  length (List.filter (fun e => match e with RecorderStop => true | _ => false end)
            (trace s)).

(** The [onCancel] calls made so far. *)
Definition cancels (s : St) : nat :=
  length (List.filter (fun e => match e with OnCancel => true | _ => false end)
            (trace s)).

(** The [recognition.start()] calls that went through so far. *)
Definition recognitionStarts (s : St) : nat :=
  length (List.filter (fun e => match e with RecognitionStart => true | _ => false end)
            (trace s)).

End Recorder.


(** ** Vocabulary of the statements *)

(** The events a merge appends, said without the set: those whose id is not
    the id of a meeting of [prev], in the order of the import. *)
Definition freshEvents (prev events : list Meeting) : list Meeting :=
  List.filter (fun e => negb (existsb (String.eqb (m_id e)) (map m_id prev))) events.

(** The lifecycle of the recorder of a session that started: it records;
    a stop went through and its [stop] event is queued; the event was
    dispatched. *)
Inductive Phase := Recording | Stopping | Delivered.

#[global] Instance Phase_eq_dec : EqDecision Phase.
Proof. solve_decision. Defined.

Definition phaseOf (s : Recorder.St) : option Phase :=
  match Recorder.mediaRecorderRef (Recorder.refs s) with
  | Some mr =>
      match Recorder.mr_state mr, Recorder.mr_stopQueued mr with
      | Recorder.inactive, true => Some Stopping
      | Recorder.inactive, false => Some Delivered
      | _, false => Some Recording
      | _, true => None
      end
  | None => None
  end.

(** The two stop triggers: the operator's button and the termination
    listener of the display track. *)
Definition isStopTrigger (e : Recorder.Event) : bool :=
  match e with
  | Recorder.ClickStop | Recorder.DisplayEnded => true
  | _ => false
  end.

(** How an event moves the lifecycle. *)
Definition advance (p : Phase) (e : Recorder.Event) : Phase :=
  match p, e with
  | Recording, Recorder.ClickStop => Stopping
  | Recording, Recorder.DisplayEnded => Stopping
  | Stopping, Recorder.StopEvent => Delivered
  | _, _ => p
  end.

(** A state agrees with a phase: the recorder is in it, the termination
    listener is in place, and the trace holds the stops and handoffs the
    phase stands for. *)
Definition inPhase (p : Phase) (s : Recorder.St) : Prop :=
  phaseOf s = Some p
  ∧ is_Some (Recorder.onended s)
  ∧ Recorder.recorderStops s = match p with Recording => 0 | _ => 1 end
  ∧ length (Recorder.handoffs s) = match p with Delivered => 1 | _ => 0 end.

(** Effects that are neither a recorder stop nor a handoff. *)
Definition silent (e : Recorder.Effect) : bool :=
  match e with
  | Recorder.RecorderStop | Recorder.OnStop _ _ _ _ => false
  | _ => true
  end.

(** [s'] has the recorder and the termination listener of [s], and its
    trace goes on from the trace of [s] with silent effects only. *)
Definition sameRecorder (s s' : Recorder.St) : Prop :=
  Recorder.mediaRecorderRef (Recorder.refs s') = Recorder.mediaRecorderRef (Recorder.refs s)
  ∧ Recorder.onended s' = Recorder.onended s
  ∧ ∃ l, Recorder.trace s' = (Recorder.trace s ++ l)%list ∧ forallb silent l = true.

(** The [onStop] prop as [App] passes it to the recorder: a handoff is given
    to [handleStopRecording]. *)
Definition handOver (API_KEY : option string) (backend : Gemini.Backend)
    (base64 : Blob -> string) (today : string)
    (a : App.State)
    (h : Blob * option Blob * list TranscriptSegment * list MeetingHighlight)
  : App.State :=
  let '(audioBlob, videoBlob, transcript, highlights) := h in
  App.handleStopRecording API_KEY backend base64 today
    audioBlob videoBlob transcript highlights a.

(** A permission prompt that was granted. *)
Definition resolved {A : Type} (o : Js.Outcome A) : Prop :=
  match o with
  | Js.Returned _ => True
  | Js.Thrown _ => False
  end.

(** The renders the handlers of the recorder and of the recogniser belong
    to. *)
Definition scopes (s : Recorder.St) : list Recorder.View :=
  (match Recorder.mediaRecorderRef (Recorder.refs s) with
   | Some mr => [Recorder.mr_scope mr]
   | None => []
   end
   ++ match Recorder.recognitionRef (Recorder.refs s) with
      | Some r => [Recorder.sr_scope r]
      | None => []
      end)%list.

(** Effects a handler of the first render can have: no restart of the
    recogniser, and handoffs of the first render's lists only. *)
Definition firstRenderEffect (e : Recorder.Effect) : Prop :=
  match e with
  | Recorder.RecognitionStart => False
  | Recorder.OnStop _ _ transcript highlights => transcript = [] ∧ highlights = []
  | _ => True
  end.

(** A refusal of a permission prompt. *)
Definition denied {A : Type} (o : Js.Outcome A) : Prop :=
  match o with
  | Js.Thrown e => Js.name e = "NotAllowedError"
  | Js.Returned _ => False
  end.

(** *** Sample inputs *)

Module Sample.

Definition displayVideo : Recorder.Track :=
  {| Recorder.origin := Recorder.display; Recorder.kind := Recorder.video;
     Recorder.index := 0 |}.

Definition displayAudio : Recorder.Track :=
  {| Recorder.origin := Recorder.display; Recorder.kind := Recorder.audio;
     Recorder.index := 1 |}.

Definition micAudio : Recorder.Track :=
  {| Recorder.origin := Recorder.microphone; Recorder.kind := Recorder.audio;
     Recorder.index := 0 |}.

(** Both prompts are granted. *)
Definition granted : Recorder.Platform :=
  {| Recorder.getDisplayMedia := Js.Returned [displayVideo; displayAudio];
     Recorder.getUserMedia := Js.Returned [micAudio];
     Recorder.webkitSpeechRecognition := true;
     Recorder.mimeTypeSupported := true |}.

(** The display prompt is granted, the microphone prompt is refused. *)
Definition micDenied : Recorder.Platform :=
  {| Recorder.getDisplayMedia := Js.Returned [displayVideo; displayAudio];
     Recorder.getUserMedia := Js.Thrown Recorder.NotAllowedError;
     Recorder.webkitSpeechRecognition := true;
     Recorder.mimeTypeSupported := true |}.

Definition meeting : Meeting :=
  {| m_id := "m2"; m_title := "Design Handoff Sync";
     m_platform := "Zoom"; m_time := "11:30 AM"; m_duration := "30 min";
     m_url := "https://zoom.us/j/123456789";
     m_attendees := skipn 2 MOCK_ATTENDEES |}.

Definition hello : Recorder.SpeechResult :=
  {| Recorder.isFinal := true; Recorder.alternative := "hello" |}.

Definition hel : Recorder.SpeechResult :=
  {| Recorder.isFinal := false; Recorder.alternative := "hel" |}.

Definition chunk : Blob := [Byte.x1a; Byte.x45; Byte.xdf; Byte.xa3].

End Sample.


From Stdlib Require Import Sorted ZArith DecimalString.

(** ** Further vocabulary: what a list of events holds *)

(** The chunks the encoder delivered: [ondataavailable] keeps the non-empty
    ones. *)
Definition chunksOf (events : list Recorder.Event) : list Blob :=
  flat_map (fun e => match e with
                     | Recorder.DataAvailable data =>
                         if (0 <? length data)%nat then [data] else []
                     | _ => []
                     end) events.

(** The number of clock ticks. *)
Definition ticksOf (events : list Recorder.Event) : nat :=
  length (List.filter (fun e => match e with Recorder.Tick => true | _ => false end)
            events).

(** The events that run [cleanup]: a stop trigger or the unmount. *)
Definition isTeardown (e : Recorder.Event) : bool :=
  match e with
  | Recorder.ClickStop | Recorder.DisplayEnded | Recorder.Unmount => true
  | _ => false
  end.

Definition isStopEvent (e : Recorder.Event) : bool :=
  match e with
  | Recorder.StopEvent => true
  | _ => false
  end.

(** What the platform must grant for [startCapture] to reach its end: both
    streams, a video track on the display stream to carry the termination
    listener, and a recorder for the container. *)
Definition startable (pf : Recorder.Platform) : bool :=
  match Recorder.getDisplayMedia pf, Recorder.getUserMedia pf with
  | Js.Returned displayStream, Js.Returned _ =>
      match Recorder.getVideoTracks displayStream with
      | [] => false
      | _ :: _ => Recorder.mimeTypeSupported pf
      end
  | _, _ => false
  end.

(** The prompt that is asked and rejects does so with [NotAllowedError]. *)
Definition refused (pf : Recorder.Platform) : bool :=
  match Recorder.getDisplayMedia pf with
  | Js.Thrown e => String.eqb (Js.name e) "NotAllowedError"
  | Js.Returned _ =>
      match Recorder.getUserMedia pf with
      | Js.Thrown e => String.eqb (Js.name e) "NotAllowedError"
      | Js.Returned _ => false
      end
  end.

(** The [track.stop()] calls made so far, on any track. *)
Definition trackStops (s : Recorder.St) : nat :=
  length (List.filter (fun e => match e with Recorder.TrackStop _ => true | _ => false end)
            (Recorder.trace s)).

(** Text of ASCII characters only.  On such text the white space of
    [trim] and of the class [\s] is the six characters [Js.isWhite] knows;
    beyond ASCII the two know more (U+00A0 and others). *)
Definition isAscii (s : string) : bool :=
  forallb (fun c => (nat_of_ascii c <? 128)%nat) (list_ascii_of_string s).

(** A number of seconds that [new Date(t * 1000).toISOString()] prints with
    a year of four digits: before the year 10000.  From there on the year
    is printed with a sign and six digits, and beyond the range of [Date]
    the call throws a [RangeError]; [Gemini.isoTime] is the printed time of
    day up to that year only. *)
Definition printable (t : nat) : bool := (Z.of_nat t <? 253402300800)%Z.

(** ** components/SummaryView.tsx: the review player *)

Module Playback.

(** The clip builder together with [playingClipId] and the [paused] flag of
    the video element; [videoRef] of the builder tells whether the element
    exists and where it stands. *)
Record State := {
  builder : SummaryView.State;
  playingClipId : option string;
  paused : bool
}.

Definition withBuilder (f : SummaryView.State -> SummaryView.State) (s : State) : State :=
  {| builder := f (builder s); playingClipId := playingClipId s; paused := paused s |}.

(** [clips.find(c => c.id === id)] *)
Definition findClip (id : string) (clips : list VideoClip) : option VideoClip :=
  List.find (fun c => String.eqb (clip_id c) id) clips.

(** [handleTimeUpdate], the [onTimeUpdate] handler of the video element. *)
Definition handleTimeUpdate (s : State) : State :=
  match SummaryView.videoRef (builder s), playingClipId s with
  | Some video, Some id =>
      if Js.truthy id then
        match findClip id (SummaryView.clips (builder s)) with
        | Some activeClip =>
            if (clip_end activeClip <=? SummaryView.currentTime video)%nat then
              {| builder := builder s; playingClipId := None; paused := true |}
            else s
        | None => s
        end
      else s
  | _, _ => s
  end.

Definition jumpToTime (seconds : nat) (s : State) : State :=
  match SummaryView.videoRef (builder s) with
  | Some _ =>
      {| builder := SummaryView.seek seconds (builder s);
         playingClipId := None;
         paused := false |}
  | None => s
  end.

Definition playClip (clip : VideoClip) (s : State) : State :=
  match SummaryView.videoRef (builder s) with
  | Some _ =>
      {| builder := SummaryView.seek (clip_start clip) (builder s);
         playingClipId := Some (clip_id clip);
         paused := false |}
  | None => s
  end.

(** The [disabled] attribute of the save button. *)
Definition saveDisabled (s : SummaryView.State) : bool :=
  match SummaryView.newClipStart s, SummaryView.newClipEnd s with
  | Some _, Some _ => negb (Js.truthy (SummaryView.newClipLabel s))
  | _, _ => true
  end.

Inductive Event :=
| TimeUpdate (t : nat)          (** the player reports the position [t] *)
| JumpToTime (seconds : nat)    (** a transcript line is clicked *)
| PlayClip (clip : VideoClip)   (** the play button of a clip *)
| Builder (e : SummaryView.Event).

Definition step (s : State) (e : Event) : State :=
  match e with
  | TimeUpdate t => handleTimeUpdate (withBuilder (SummaryView.seek t) s)
  | JumpToTime seconds => jumpToTime seconds s
  | PlayClip clip => playClip clip s
  | Builder e => withBuilder (fun b => SummaryView.step b e) s
  end.

Definition run (events : list Event) (s : State) : State :=
  fold_left step events s.

End Playback.

(** ** services/geminiService.ts: questions about a meeting *)

Module Chat.

(** The request of [askMeetingQuestion]: the prompt is a fixed text around
    the question and the fields of the summary. *)
Record Request := {
  rq_apiKey : string;
  rq_model : string;
  rq_meetingTitle : string;
  rq_date : string;
  rq_summaryText : string;
  rq_keyPoints : string;
  rq_actionItems : string;
  rq_transcript : string;
  rq_question : string
}.

(** The backend: the call rejects, or resolves to a response whose [text] is
    a string or undefined. *)
Definition Backend := Request -> Js.Outcome (option string).

(** [askMeetingQuestion]: the answer, and the requests made on the way. *)
Definition askMeetingQuestion (API_KEY : option string) (backend : Backend)
    (question : string) (summaryData : SummaryData) : string * list Request :=
  if negb (Js.truthy (Gemini.apiKey API_KEY)) then ("Error: API Key missing.", [])
  else
    let request :=
      {| rq_apiKey := Gemini.apiKey API_KEY;
         rq_model := "gemini-2.5-flash";
         rq_meetingTitle := sd_meetingTitle summaryData;
         rq_date := sd_date summaryData;
         rq_summaryText := sd_summaryText summaryData;
         rq_keyPoints := Js.join "; " (sd_keyPoints summaryData);
         rq_actionItems := Js.join "; " (sd_actionItems summaryData);
         rq_transcript := Js.join " " (map seg_text (sd_transcript summaryData));
         rq_question := question |} in
    match backend request with
    | Js.Returned text =>
        (Js.or_string text "I couldn't generate an answer.", [request])
    | Js.Thrown error =>
        ("Sorry, I encountered an error while processing your question.", [request])
    end.

End Chat.

(** ** App.tsx: leaving the summary *)

(** [resetApp] *)
Definition resetApp (s : App.State) : App.State :=
  {| App.state := CALENDAR; App.activeMeeting := None; App.summaryData := None;
     App.recordedVideoBlob := None; App.processingError := None;
     App.meetings := App.meetings s; App.requests := App.requests s |}.

(** ** App.tsx: reading the recording *)

Module Processing.

(** What the [FileReader] does with the recording: [readAsDataURL] throws;
    or the read fails and [loadend] finds [reader.result] null; or the read
    ends with a data URL, whose part after the comma is the [payload]. *)
Inductive FileReader :=
| Throws
| Fails
| Loads (payload : string).

(** [handleStopRecording] from its first line, run as far as it gets.  A
    failed read makes [split] throw inside [onloadend], outside the inner
    [try]: nothing more is set. *)
Definition handleStopRecording (API_KEY : option string) (backend : Gemini.Backend)
    (reader : Blob -> FileReader) (today : string)
    (audioVideoBlob : Blob) (videoBlob : option Blob)
    (transcript : list TranscriptSegment) (highlights : list MeetingHighlight)
    (s : App.State) : App.State :=
  let s := {| App.state := PROCESSING; App.activeMeeting := App.activeMeeting s;
              App.summaryData := App.summaryData s;
              App.recordedVideoBlob := videoBlob;
              App.processingError := App.processingError s;
              App.meetings := App.meetings s; App.requests := App.requests s |} in
  match reader audioVideoBlob with
  | Loads payload =>
      App.handleStopRecording API_KEY backend (fun _ => payload) today
        audioVideoBlob videoBlob transcript highlights s
  | Fails => s
  | Throws =>
      {| App.state := CALENDAR; App.activeMeeting := App.activeMeeting s;
         App.summaryData := App.summaryData s;
         App.recordedVideoBlob := App.recordedVideoBlob s;
         App.processingError := Some "Failed to process recording file.";
         App.meetings := App.meetings s; App.requests := App.requests s |}
  end.

End Processing.

(** ** Times on screen *)

Module Display.

(** [n.toString()] of a natural number. *)
Definition toString (n : nat) : string := NilZero.string_of_uint (Nat.to_uint n).

(** [s.padStart(2, '0')] *)
Definition padStart2 (s : string) : string :=
  match String.length s with
  | 0 => "00" ++ s
  | 1 => "0" ++ s
  | _ => s
  end.

(** [formatTime] of the recorder: minutes and seconds, two digits each at
    least. *)
Definition recorderFormatTime (seconds : nat) : string :=
  let mins := seconds / 60 in
  let secs := seconds mod 60 in
  padStart2 (toString mins) ++ ":" ++ padStart2 (toString secs).

(** [formatTime] of the summary view: the minutes are not padded. *)
Definition summaryFormatTime (seconds : nat) : string :=
  let mins := seconds / 60 in
  let secs := seconds mod 60 in
  toString mins ++ ":" ++ padStart2 (toString secs).

End Display.

(** ** More JavaScript strings *)

Module JsString.

(** [s.includes(sub)] *)
Fixpoint includes (sub s : string) : bool :=
  String.prefix sub s
  || match s with
     | String _ rest => includes sub rest
     | EmptyString => false
     end.

(** [s.split(sep)[0]] for a one-character separator: the part before its
    first occurrence, the whole string when it does not occur. *)
Fixpoint beforeFirst (sep : ascii) (s : string) : string :=
  match s with
  | String c rest => if Ascii.eqb c sep then "" else String c (beforeFirst sep rest)
  | EmptyString => ""
  end.

(** The longest prefix without white space: what [[^\s]*] takes. *)
Fixpoint takeNonWhite (s : string) : string :=
  match s with
  | String c rest => if Js.isWhite c then "" else String c (takeNonWhite rest)
  | EmptyString => ""
  end.

Fixpoint drop (n : nat) (s : string) : string :=
  match n, s with
  | S n', String _ rest => drop n' rest
  | _, _ => s
  end.

(** [z.toString()] of an integer. *)
Definition ofZ (z : Z) : string := NilZero.string_of_int (Z.to_int z).

(** [Math.round(a / b)] for integers [a] and [b > 0]: the nearest integer,
    halves upwards. *)
Definition roundDiv (a b : Z) : Z := ((2 * a + b) / (2 * b))%Z.

(** [l.map(f)] where the callback [f] takes the element and its index and
    may throw: the first throw ends the call. *)
Fixpoint mapFrom {A B : Type} (f : nat -> A -> Js.Outcome B) (index : nat) (l : list A)
  : Js.Outcome (list B) :=
  match l with
  | [] => Js.Returned []
  | a :: rest =>
      match f index a with
      | Js.Thrown e => Js.Thrown e
      | Js.Returned b =>
          match mapFrom f (S index) rest with
          | Js.Thrown e => Js.Thrown e
          | Js.Returned bs => Js.Returned (b :: bs)
          end
      end
  end.

End JsString.

(** ** services/googleService.ts *)

Module Google.

(** The module's variables. *)
Record Service := {
  clientId : string;
  tokenClientMade : bool;
  accessToken : option string
}.

(** The module as loaded: [GOOGLE_CLIENT_ID] is the environment variable. *)
Definition load (GOOGLE_CLIENT_ID : option string) : Service :=
  {| clientId := Js.or_string GOOGLE_CLIENT_ID "";
     tokenClientMade := false;
     accessToken := None |}.

Definition setGoogleClientId (id : string) (g : Service) : Service :=
  {| clientId := Js.trim id; tokenClientMade := false; accessToken := accessToken g |}.

Definition hasGoogleClientId (g : Service) : bool := Js.truthy (clientId g).

(** [initTokenClient]: [google] tells whether the Google script is loaded
    and, when it is, whether its [initTokenClient] throws. *)
Definition initTokenClient (google : option (option Js.Error)) (g : Service)
  : Js.Outcome unit * Service :=
  match google with
  | None =>
      (Js.Thrown {| Js.name := "Error";
                    Js.message := "Google Identity Services script not loaded" |}, g)
  | Some fails =>
      if negb (Js.truthy (clientId g)) then
        (Js.Thrown {| Js.name := "Error"; Js.message := "GOOGLE_CLIENT_ID_MISSING" |}, g)
      else if tokenClientMade g then (Js.Returned tt, g)
      else
        match fails with
        | Some e => (Js.Thrown e, g)
        | None =>
            (Js.Returned tt,
             {| clientId := clientId g; tokenClientMade := true;
                accessToken := accessToken g |})
        end
  end.

(** [extractUrl]: the first match of [/(https?:\/\/[^\s]+)/], or the empty
    string.  Strings are ASCII. *)
Definition matchHere (s : string) : option string :=
  if String.prefix "https://" s then
    match JsString.takeNonWhite (JsString.drop 8 s) with
    | EmptyString => None
    | body => Some ("https://" ++ body)
    end
  else if String.prefix "http://" s then
    match JsString.takeNonWhite (JsString.drop 7 s) with
    | EmptyString => None
    | body => Some ("http://" ++ body)
    end
  else None.

Fixpoint firstMatch (s : string) : option string :=
  match matchHere s with
  | Some m => Some m
  | None =>
      match s with
      | String _ rest => firstMatch rest
      | EmptyString => None
      end
  end.

Definition extractUrl (text : string) : string :=
  if negb (Js.truthy text) then ""
  else match firstMatch text with
       | Some m => m
       | None => ""
       end.

(** An attendee of a calendar event, as far as the mapping reads it; the
    [email] and the [displayName] may be missing. *)
Record GAttendee := {
  ga_email : option string;
  ga_displayName : option string;
  ga_resource : bool
}.

(** A calendar event, as far as the mapping reads it.  [ev_start] and
    [ev_end] are the instants of
    [new Date(event.start.dateTime || event.start.date)] and of the same for
    [end], in milliseconds. *)
Record GEvent := {
  ev_id : string;
  ev_status : option string;
  ev_summary : option string;
  ev_hangoutLink : option string;
  ev_location : option string;
  ev_description : option string;
  ev_start : Z;
  ev_end : Z;
  ev_attendees : option (list GAttendee)
}.

(** A mapped meeting: the [Meeting] and its [source] property. *)
Record CalendarMeeting := {
  cm_meeting : Meeting;
  cm_source : string
}.

(** [o && o.includes(sub)] *)
Definition mentions (sub : string) (o : option string) : bool :=
  match o with
  | Some s => Js.truthy s && JsString.includes sub s
  | None => false
  end.

Definition text (o : option string) : string :=
  match o with
  | Some s => s
  | None => ""
  end.

(** Step 1 of the mapping: platform and URL. *)
Definition platformAndUrl (event : GEvent) : string * string :=
  let '(platform, meetingUrl) :=
    if Js.truthy (text (ev_hangoutLink event)) then
      ("Google Meet", text (ev_hangoutLink event))
    else if mentions "zoom.us" (ev_location event) then
      ("Zoom", extractUrl (text (ev_location event)))
    else if mentions "zoom.us" (ev_description event) then
      ("Zoom", extractUrl (text (ev_description event)))
    else if mentions "teams.microsoft.com" (ev_location event) then
      ("Microsoft Teams", extractUrl (text (ev_location event)))
    else if mentions "teams.microsoft.com" (ev_description event) then
      ("Microsoft Teams", extractUrl (text (ev_description event)))
    else ("Google Meet", "") in
  (platform,
   if negb (Js.truthy meetingUrl) then Js.or_string (ev_location event) "#"
   else meetingUrl).

(** What [a.email.split] throws when [a.email] is [undefined]; the message
    is the engine's, here V8's. *)
Definition splitOfUndefined : Js.Error :=
  {| Js.name := "TypeError";
     Js.message := "Cannot read properties of undefined (reading 'split')" |}.

(** Step 2 of the mapping: the duration. *)
Definition durationStr (event : GEvent) : string :=
  let diffMs := (ev_end event - ev_start event)%Z in
  let diffMins := JsString.roundDiv diffMs 60000 in
  JsString.ofZ diffMins ++ " min".

(** Step 3 of the mapping: the attendees.  [encodeURIComponent] is given.
    The name of an attendee without display name is read off the email,
    which throws when there is none.  [Attendee] keeps a missing [email] as
    the empty string. *)
Definition mapAttendee (encodeURIComponent : string -> string)
    (index : nat) (a : GAttendee) : Js.Outcome Attendee :=
  let id := Js.or_string (ga_email a) ("att-" ++ Display.toString index) in
  match (if Js.truthy (text (ga_displayName a)) then Some (text (ga_displayName a))
         else option_map (JsString.beforeFirst "@") (ga_email a)) with
  | None => Js.Thrown splitOfUndefined
  | Some name =>
      Js.Returned
        {| a_id := id;
           a_name := name;
           a_email := text (ga_email a);
           a_avatar := "https://ui-avatars.com/api/?name="
                       ++ encodeURIComponent
                            (Js.or_string (ga_displayName a) (text (ga_email a)))
                       ++ "&background=random" |}
  end.

Definition mapAttendees (encodeURIComponent : string -> string)
    (attendees : option (list GAttendee)) : Js.Outcome (list Attendee) :=
  JsString.mapFrom (mapAttendee encodeURIComponent) 0
    (List.filter (fun a => negb (ga_resource a)) (Js.or_array attendees [])).

(** The mapping of one event.  [toLocaleTimeString] prints the start in the
    user's locale and time zone. *)
Definition mapEvent (toLocaleTimeString : Z -> string)
    (encodeURIComponent : string -> string) (event : GEvent)
  : Js.Outcome CalendarMeeting :=
  let '(platform, meetingUrl) := platformAndUrl event in
  let timeStr := toLocaleTimeString (ev_start event) in
  match mapAttendees encodeURIComponent (ev_attendees event) with
  | Js.Thrown e => Js.Thrown e
  | Js.Returned attendees =>
      Js.Returned
        {| cm_meeting :=
             {| m_id := ev_id event;
                m_title := Js.or_string (ev_summary event) "(No Title)";
                m_platform := platform;
                m_time := timeStr;
                m_duration := durationStr event;
                m_url := meetingUrl;
                m_attendees := attendees |};
           cm_source := "GOOGLE_CALENDAR" |}
  end.

(** The calendar request and its response. *)
Record Request := {
  rq_timeMin : string;
  rq_timeMax : string;
  rq_authorization : string
}.

Record Response := {
  ok : bool;
  statusText : string;
  items : option (list GEvent)
}.

(** [fetchGoogleCalendarEvents]: [timeMin] is [now.toISOString()] and
    [timeMax] the same seven days later; [fetch] rejects or resolves to a
    response.  The outcome, and the requests made. *)
Definition fetchGoogleCalendarEvents (timeMin timeMax : string)
    (fetch : Request -> Js.Outcome Response)
    (toLocaleTimeString : Z -> string) (encodeURIComponent : string -> string)
    (g : Service) : Js.Outcome (list CalendarMeeting) * list Request :=
  match accessToken g with
  | Some token =>
      if negb (Js.truthy token) then
        (Js.Thrown {| Js.name := "Error";
                      Js.message := "No access token available. User must sign in first." |},
         [])
      else
        let request := {| rq_timeMin := timeMin; rq_timeMax := timeMax;
                          rq_authorization := "Bearer " ++ token |} in
        match fetch request with
        | Js.Thrown e => (Js.Thrown e, [request])
        | Js.Returned response =>
            if negb (ok response) then
              (Js.Thrown {| Js.name := "Error";
                            Js.message := "Failed to fetch calendar events: "
                                          ++ statusText response |},
               [request])
            else
              let items := Js.or_array (items response) [] in
              (JsString.mapFrom
                 (fun _ => mapEvent toLocaleTimeString encodeURIComponent) 0
                 (List.filter
                    (fun event =>
                       negb (match ev_status event with
                             | Some st => String.eqb st "cancelled"
                             | None => false
                             end)) items),
               [request])
        end
  | None =>
      (Js.Thrown {| Js.name := "Error";
                    Js.message := "No access token available. User must sign in first." |},
       [])
  end.

End Google.



(** An event the calendar marks as cancelled. *)
Definition cancelled (event : Google.GEvent) : bool :=
  match Google.ev_status event with
  | Some st => String.eqb st "cancelled"
  | None => false
  end.

(** The attendees of an event that the mapping keeps: all but the room
    resources. *)
Definition guests (attendees : option (list Google.GAttendee)) : list Google.GAttendee :=
  List.filter (fun a => negb (Google.ga_resource a)) (Js.or_array attendees []).

(** An attendee with neither a display name nor an email. *)
Definition nameless (a : Google.GAttendee) : bool :=
  negb (Js.truthy (Google.text (Google.ga_displayName a)))
  && match Google.ga_email a with
     | Some _ => false
     | None => true
     end.

(** An event none of whose kept attendees is nameless. *)
Definition mappable (event : Google.GEvent) : bool :=
  negb (existsb nameless (guests (Google.ev_attendees event))).

(** The events of a response that are not cancelled. *)
Definition live (response : Google.Response) : list Google.GEvent :=
  List.filter (fun event => negb (cancelled event))
    (Js.or_array (Google.items response) []).

(** *** Sample inputs of the import *)

Module SampleImport.

Definition standup : Google.GEvent :=
  {| Google.ev_id := "e1"; Google.ev_status := Some "confirmed";
     Google.ev_summary := Some "Standup";
     Google.ev_hangoutLink := Some "https://meet.google.com/abc-defg-hij";
     Google.ev_location := Some "Room 4 / zoom.us";
     Google.ev_description := None;
     Google.ev_start := 0; Google.ev_end := 900000;
     Google.ev_attendees :=
       Some [ {| Google.ga_email := Some "sarah.c@techcorp.com";
                 Google.ga_displayName := None; Google.ga_resource := false |};
              {| Google.ga_email := None;
                 Google.ga_displayName := None; Google.ga_resource := true |};
              {| Google.ga_email := None;
                 Google.ga_displayName := Some "Alex Kim"; Google.ga_resource := false |} ] |}.

(** An event with an attendee that has neither email nor display name. *)
Definition anonymous : Google.GEvent :=
  {| Google.ev_id := "e5"; Google.ev_status := Some "confirmed";
     Google.ev_summary := Some "Review"; Google.ev_hangoutLink := None;
     Google.ev_location := None; Google.ev_description := None;
     Google.ev_start := 0; Google.ev_end := 1800000;
     Google.ev_attendees :=
       Some [ {| Google.ga_email := Some "sarah.c@techcorp.com";
                 Google.ga_displayName := None; Google.ga_resource := false |};
              {| Google.ga_email := None;
                 Google.ga_displayName := Some ""; Google.ga_resource := false |} ] |}.

Definition dropped : Google.GEvent :=
  {| Google.ev_id := "e2"; Google.ev_status := Some "cancelled";
     Google.ev_summary := Some "Retro"; Google.ev_hangoutLink := None;
     Google.ev_location := None; Google.ev_description := None;
     Google.ev_start := 0; Google.ev_end := 3600000;
     Google.ev_attendees := None |}.

Definition untitled : Google.GEvent :=
  {| Google.ev_id := "e3"; Google.ev_status := None;
     Google.ev_summary := None; Google.ev_hangoutLink := None;
     Google.ev_location := None;
     Google.ev_description := Some "Join https://teams.microsoft.com/l/meetup-join/1 now";
     Google.ev_start := 60000; Google.ev_end := 150000;
     Google.ev_attendees := None |}.

Definition signedIn : Google.Service :=
  {| Google.clientId := "id.apps.googleusercontent.com";
     Google.tokenClientMade := true;
     Google.accessToken := Some "ya29.token" |}.


Definition answer : Google.Response :=
  {| Google.ok := true; Google.statusText := "OK";
     Google.items := Some [standup; dropped; untitled] |}.

Definition broken : Google.Response :=
  {| Google.ok := true; Google.statusText := "OK";
     Google.items := Some [standup; anonymous; untitled] |}.

End SampleImport.

(** ** components/GoogleConnect.tsx *)

Module GoogleConnect.

(** The component's state, together with what its handlers reach: the
    variables of the Google service, the [google_client_id] item of
    [localStorage], and the calls of the [onConnect] prop (with [isDemo]). *)
Record State := {
  missingClientId : bool;
  tempClientId : string;
  showConfig : bool;
  service : Google.Service;
  stored : option string;
  connects : list bool
}.

(** The first render and its effect; [service] is the Google module as it
    stands and [stored] the item of [localStorage]. *)
Definition mount (service : Google.Service) (stored : option string) : State :=
  if negb (Google.hasGoogleClientId service) then
    match stored with
    | Some saved =>
        if Js.truthy saved then
          {| missingClientId := false; tempClientId := saved; showConfig := false;
             service := Google.setGoogleClientId saved service;
             stored := stored; connects := [] |}
        else
          {| missingClientId := true; tempClientId := ""; showConfig := false;
             service := service; stored := stored; connects := [] |}
    | None =>
        {| missingClientId := true; tempClientId := ""; showConfig := false;
           service := service; stored := stored; connects := [] |}
    end
  else
    {| missingClientId := false; tempClientId := Js.or_string stored "";
       showConfig := false; service := service; stored := stored; connects := [] |}.

Definition setTempClientId (v : string) (s : State) : State :=
  {| missingClientId := missingClientId s; tempClientId := v;
     showConfig := showConfig s; service := service s; stored := stored s;
     connects := connects s |}.

Definition handleSaveClientId (s : State) : State :=
  if Js.truthy (Js.trim (tempClientId s)) then
    {| missingClientId := false; tempClientId := tempClientId s;
       showConfig := false;
       service := Google.setGoogleClientId (Js.trim (tempClientId s)) (service s);
       stored := Some (Js.trim (tempClientId s));
       connects := connects s |}
  else s.

Definition handleEditSettings (s : State) : State :=
  {| missingClientId := true; tempClientId := tempClientId s;
     showConfig := true; service := service s; stored := stored s;
     connects := connects s |}.

Definition handleConnectClick (s : State) : State :=
  if negb (Google.hasGoogleClientId (service s)) then
    {| missingClientId := true; tempClientId := tempClientId s;
       showConfig := showConfig s; service := service s; stored := stored s;
       connects := connects s |}
  else
    {| missingClientId := missingClientId s; tempClientId := tempClientId s;
       showConfig := showConfig s; service := service s; stored := stored s;
       connects := connects s ++ [false] |}.

Definition handleDemoMode (s : State) : State :=
  {| missingClientId := missingClientId s; tempClientId := tempClientId s;
     showConfig := showConfig s; service := service s; stored := stored s;
     connects := connects s ++ [true] |}.

End GoogleConnect.

(** Dropping leading white space, on lists of characters. *)
Fixpoint dropWhite (l : list ascii) : list ascii :=
  match l with
  | c :: rest => if Js.isWhite c then dropWhite rest else l
  | [] => []
  end.

(** ** Signing in and importing: App.tsx with services/googleService.ts *)

Module Connect.

Record UserProfile := {
  u_name : string;
  u_email : string;
  u_avatar : string
}.

Definition MOCK_USER_PROFILE : UserProfile :=
  {| u_name := "Demo User";
     u_email := "demo.user@example.com";
     u_avatar := "https://ui-avatars.com/api/?name=Demo+User&background=0D8ABC&color=fff" |}.

(** What the consent popup answers, as far as the code reads it; [tr_json]
    is what [JSON.stringify] prints for it. *)
Record TokenResponse := {
  tr_error : option string;
  tr_type : option string;
  tr_access_token : option string;
  tr_json : string
}.

(** The response of the user-info endpoint. *)
Record UserInfo := {
  ui_ok : bool;
  ui_name : string;
  ui_email : string;
  ui_picture : string
}.

(** What [requestAccessToken] leads to: the popup answers through the
    callback, the call itself throws, or no answer ever comes (the popup is
    closed or blocked; the code sets no [error_callback]). *)
Inductive Popup :=
| Answers (resp : TokenResponse)
| Throws (e : Js.Error)
| Silent.

(** What a rejected promise carries: an [Error], or the popup's answer. *)
Inductive Rejection :=
| RejectedError (e : Js.Error)
| RejectedResponse (resp : TokenResponse).

(** A promise, as the attempt leaves it. *)
Inductive Promise (A : Type) : Type :=
| Resolved (a : A)
| Rejected (r : Rejection)
| Pending.
Arguments Resolved {A} a.
Arguments Rejected {A} r.
Arguments Pending {A}.

(** The outside world of one connection attempt. *)
Record World := {
  google : option (option Js.Error);
  popup : Popup;
  fetchUserInfo : string -> Js.Outcome UserInfo;
  timeMin : string;
  timeMax : string;
  fetchCalendar : Google.Request -> Js.Outcome Google.Response;
  toLocaleTimeString : Z -> string;
  encodeURIComponent : string -> string
}.

(** [signInWithGoogle] with [fetchUserInfo]; the template prints a missing
    token as [undefined]. *)
Definition signInWithGoogle (w : World) (g : Google.Service)
  : Promise UserProfile * Google.Service :=
  match Google.initTokenClient (google w) g with
  | (Js.Thrown error, g) => (Rejected (RejectedError error), g)
  | (Js.Returned _, g) =>
      match popup w with
      | Throws error => (Rejected (RejectedError error), g)
      | Silent => (Pending, g)
      | Answers resp =>
          if Js.truthy (Google.text (tr_error resp)) then
            (Rejected (RejectedResponse resp), g)
          else
            let g := {| Google.clientId := Google.clientId g;
                        Google.tokenClientMade := Google.tokenClientMade g;
                        Google.accessToken := tr_access_token resp |} in
            let token := match tr_access_token resp with
                         | Some t => t
                         | None => "undefined"
                         end in
            match fetchUserInfo w ("Bearer " ++ token) with
            | Js.Thrown err => (Rejected (RejectedError err), g)
            | Js.Returned response =>
                if negb (ui_ok response) then
                  (Rejected (RejectedError
                               {| Js.name := "Error";
                                  Js.message := "Failed to fetch user info" |}), g)
                else
                  (Resolved {| u_name := ui_name response;
                               u_email := ui_email response;
                               u_avatar := ui_picture response |}, g)
            end
      end
  end.

(** The state of [App] that connecting touches. *)
Record State := {
  app : App.State;
  user : option UserProfile;
  isGoogleLoading : bool;
  googleError : option string
}.

Definition setProcessingError (v : option string) (a : App.State) : App.State :=
  {| App.state := App.state a; App.activeMeeting := App.activeMeeting a;
     App.summaryData := App.summaryData a;
     App.recordedVideoBlob := App.recordedVideoBlob a;
     App.processingError := v; App.meetings := App.meetings a;
     App.requests := App.requests a |}.

(** What the [catch] block reads of the rejection. *)
Definition message (r : Rejection) : option string :=
  match r with
  | RejectedError e => Some (Js.message e)
  | RejectedResponse _ => None
  end.

Definition stringify (r : Rejection) : string :=
  match r with
  | RejectedError _ => "{}"
  | RejectedResponse resp => tr_json resp
  end.

Definition eqText (o : option string) (v : string) : bool :=
  match o with
  | Some s => String.eqb s v
  | None => false
  end.

(** The [catch] block of [handleGoogleConnect], with the [finally]. *)
Definition handleGoogleConnect_catch (error : Rejection) (s : State) : State :=
  if eqText (message error) "GOOGLE_CLIENT_ID_MISSING" then
    {| app := app s; user := user s; isGoogleLoading := false;
       googleError := googleError s |}
  else
    let errorMessage := Js.or_string (message error) (stringify error) in
    let isInvalidRequest :=
      match error with
      | RejectedResponse resp =>
          eqText (tr_type resp) "token_failed" || eqText (tr_error resp) "invalid_request"
      | RejectedError _ => false
      end
      || JsString.includes "invalid_request" errorMessage
      || JsString.includes "access_denied" errorMessage in
    if isInvalidRequest then
      {| app := app s; user := user s; isGoogleLoading := false;
         googleError :=
           Some "Error 400: invalid_request. Preview URL blocked by Google Policy." |}
    else
      {| app := setProcessingError
                  (Some "Could not connect to Google Calendar. Check if popups are blocked.")
                  (app s);
         user := user s; isGoogleLoading := false;
         googleError := Some (Js.or_string (Some errorMessage) "Connection failed.") |}.

(** [handleGoogleConnect], run as far as it gets (in demo mode: to the end
    of the timeout; with a silent popup: to the [await] it never leaves). *)
Definition handleGoogleConnect (isDemo : bool) (w : World)
    (s : State) (g : Google.Service) : State * Google.Service :=
  let s := {| app := setProcessingError None (app s); user := user s;
              isGoogleLoading := true; googleError := None |} in
  if isDemo then
    ({| app := App.setMeetings App.mergeDemo (app s);
        user := Some MOCK_USER_PROFILE;
        isGoogleLoading := false; googleError := googleError s |}, g)
  else
    match signInWithGoogle w g with
    | (Pending, g) => (s, g)
    | (Rejected error, g) => (handleGoogleConnect_catch error s, g)
    | (Resolved userProfile, g) =>
        let s := {| app := app s; user := Some userProfile;
                    isGoogleLoading := isGoogleLoading s;
                    googleError := googleError s |} in
        match fst (Google.fetchGoogleCalendarEvents (timeMin w) (timeMax w)
                     (fetchCalendar w) (toLocaleTimeString w) (encodeURIComponent w) g) with
        | Js.Thrown error => (handleGoogleConnect_catch (RejectedError error) s, g)
        | Js.Returned calendarEvents =>
            ({| app := App.setMeetings
                         (App.mergeCalendar (map Google.cm_meeting calendarEvents))
                         (app s);
                user := user s; isGoogleLoading := false;
                googleError := googleError s |}, g)
        end
    end.

(** The attempt never ends: outside demo mode, the token client is there
    and the popup stays silent. *)
Definition hangs (isDemo : bool) (w : World) (g : Google.Service) : bool :=
  negb isDemo
  && match fst (Google.initTokenClient (google w) g), popup w with
     | Js.Returned _, Silent => true
     | _, _ => false
     end.

End Connect.

(** *** Sample inputs of a connection attempt *)

Module SampleConnect.

(** The Google script is loaded; every request fails. *)
Definition offline : Connect.World :=
  {| Connect.google := Some None;
     Connect.popup := Connect.Silent;
     Connect.fetchUserInfo := fun _ => Js.Thrown Recorder.TypeError;
     Connect.timeMin := "2026-01-02T09:00:00.000Z";
     Connect.timeMax := "2026-01-09T09:00:00.000Z";
     Connect.fetchCalendar := fun _ => Js.Thrown Recorder.TypeError;
     Connect.toLocaleTimeString := fun _ => "10:00 AM";
     Connect.encodeURIComponent := fun s => s |}.

Definition before : Connect.State :=
  {| Connect.app := App.initial; Connect.user := None;
     Connect.isGoogleLoading := false; Connect.googleError := Some "old" |}.

End SampleConnect.


(** * Properties *)

(** ** The model at work *)

Example trim_label : Js.trim "  Budget Discussion  " = "Budget Discussion".
Proof. reflexivity. Qed.

Example trim_blank : Js.truthy (Js.trim "   ") = false.
Proof. reflexivity. Qed.

Example isoTime_3725 : Gemini.isoTime 3725 = "01:02:05".
Proof. reflexivity. Qed.

Example formatTranscript_two :
  Gemini.formatTranscript
    [ {| seg_timestamp := 5; seg_text := "hello"; seg_isFinal := true |};
      {| seg_timestamp := 62; seg_text := "bye"; seg_isFinal := true |} ]
  = "[00:00:05] hello" ++ Js.newline ++ "[00:01:02] bye".
Proof. reflexivity. Qed.

(** Start at 12 s, end at 47 s, label "Budget Discussion": the clip is
    committed and the form is reset. *)
Example saveClip_commits :
  SummaryView.run
    [ SummaryView.Seek 12; SummaryView.CaptureStart;
      SummaryView.Seek 47; SummaryView.CaptureEnd;
      SummaryView.TypeLabel "Budget Discussion"; SummaryView.SaveClip "1767312000000" ]
    (SummaryView.initial (Some {| SummaryView.currentTime := 0 |}))
  = {| SummaryView.clips :=
         [ {| clip_id := "1767312000000"; clip_label := "Budget Discussion";
              clip_start := 12; clip_end := 47 |} ];
       SummaryView.newClipStart := None;
       SummaryView.newClipEnd := None;
       SummaryView.newClipLabel := "";
       SummaryView.videoRef := Some {| SummaryView.currentTime := 47 |} |}.
Proof. reflexivity. Qed.

(** Without a label nothing is saved. *)
Example saveClip_without_label :
  SummaryView.clips
    (SummaryView.run
       [ SummaryView.Seek 3; SummaryView.CaptureStart; SummaryView.CaptureEnd;
         SummaryView.SaveClip "1767312000000" ]
       (SummaryView.initial (Some {| SummaryView.currentTime := 0 |})))
  = [].
Proof. reflexivity. Qed.

(** A session with both grants: the graph mixes the two streams, the
    recorder records the display video and the mixed audio. *)
Example mount_granted :
  let s := Recorder.mount Sample.meeting Sample.granted in
  Recorder.status (Recorder.view s) = Recorder.RECORDING
  ∧ option_map Recorder.ac_sources (Recorder.audioContextRef (Recorder.refs s))
    = Some [ [Sample.displayVideo; Sample.displayAudio]; [Sample.micAudio] ]
  ∧ Recorder.streamRef (Recorder.refs s)
    = Some [ Sample.displayVideo; Recorder.destinationTrack ]
  ∧ Recorder.trace s
    = [ Recorder.WindowOpen "https://zoom.us/j/123456789"; Recorder.RecognitionStart ].
Proof. vm_compute. repeat split; reflexivity. Qed.

(** ** The summarization service *)

Lemma apiKey_absent (API_KEY : option string) :
  API_KEY = None ∨ API_KEY = Some "" → Gemini.apiKey API_KEY = "".
Proof. intros [-> | ->]; reflexivity. Qed.

Lemma apiKey_truthy (API_KEY : option string) :
  Js.truthy (Gemini.apiKey API_KEY) = true →
  API_KEY = Some (Gemini.apiKey API_KEY) ∧ Gemini.apiKey API_KEY ≠ "".
Proof.
  unfold Gemini.apiKey, Js.or_string.
  destruct API_KEY as [k|]; [|discriminate].
  destruct (Js.truthy k) eqn:Hk; [|discriminate].
  intros _. split; [reflexivity|].
  intros ->. discriminate.
Qed.

(** C10: when the API key was absent at module load ([process.env.API_KEY]
    unset or empty), [generateMeetingSummary] throws
    "API Key is missing. Please set process.env.API_KEY" for every input and
    makes no request; every request that is made carries the key that was
    present, which is not empty. *)
Theorem generateMeetingSummary_key_guard
    (API_KEY : option string) (backend : Gemini.Backend) (audioBase64 context : string)
    (transcript : list TranscriptSegment) (highlights : list MeetingHighlight) :
  let out :=
    Gemini.generateMeetingSummary API_KEY backend audioBase64 context transcript highlights in
  (API_KEY = None ∨ API_KEY = Some "" →
     out = (Js.Thrown
              {| Js.name := "Error";
                 Js.message := "API Key is missing. Please set process.env.API_KEY" |},
            []))
  ∧ (∀ rq, In rq (snd out) →
       API_KEY = Some (Gemini.rq_apiKey rq) ∧ Gemini.rq_apiKey rq ≠ "").
Proof.
  cbv zeta. split.
  - intros Habs. unfold Gemini.generateMeetingSummary.
    rewrite (apiKey_absent _ Habs). reflexivity.
  - intros rq. unfold Gemini.generateMeetingSummary.
    destruct (Js.truthy (Gemini.apiKey API_KEY)) eqn:Hk; cbn [negb].
    + destruct (apiKey_truthy _ Hk) as [Hsome Hne].
      destruct (backend _); cbn [snd]; intros [<- | []]; cbn; auto.
    + intros [].
Qed.

Lemma generateMeetingSummary_key_guard_witness :
  Gemini.generateMeetingSummary None (fun _ => Js.Returned None) "QUJD" "ctx"
    [ {| seg_timestamp := 2; seg_text := "hello"; seg_isFinal := true |} ] []
  = (Js.Thrown Gemini.missingKey, []).
Proof.
  apply (proj1 (generateMeetingSummary_key_guard None (fun _ => Js.Returned None)
                  "QUJD" "ctx"
                  [ {| seg_timestamp := 2; seg_text := "hello"; seg_isFinal := true |} ] [])).
  left. reflexivity.
Defined.

(** ** Normalization of the summary *)

Lemma generateMeetingSummary_transcript
    (API_KEY : option string) (backend : Gemini.Backend) (audioBase64 context : string)
    (transcript : list TranscriptSegment) (highlights : list MeetingHighlight)
    (result : Gemini.Result) :
  fst (Gemini.generateMeetingSummary API_KEY backend audioBase64 context transcript highlights)
    = Js.Returned result →
  Gemini.transcript result = transcript.
Proof.
  unfold Gemini.generateMeetingSummary.
  destruct (negb _); [discriminate|].
  destruct (backend _) as [text|err]; cbn [fst]; [|discriminate].
  intros [= <-]. reflexivity.
Qed.

(** C6, as stated, fails: with every optional field omitted by the backend
    the normalized [summaryText] is the placeholder, not the empty string. *)
Lemma normalize_empty_summaryText_is_placeholder :
  sd_summaryText
    (App.normalize (Some "Design Handoff Sync") "1/2/2026"
       (Gemini.spread Gemini.emptyObject
          [ {| seg_timestamp := 0; seg_text := "hello"; seg_isFinal := true |} ]))
  ≠ "".
Proof. discriminate. Qed.

(** C6, amended: normalizing a result in which the backend omitted every
    optional field yields summaryText "No summary generated.", empty
    keyPoints, actionItems and attendeesDetected, sentiment "Neutral", an
    empty followUpEmail and the transcript of the request (next to the
    meeting title and the date); and whatever the backend answers, the
    transcript shown is the one supplied in the request. *)
Theorem normalize_defaults
    (title : option string) (today : string) (transcript : list TranscriptSegment) :
  App.normalize title today (Gemini.spread Gemini.emptyObject transcript)
  = {| sd_meetingTitle := Js.or_string title "Unknown Meeting";
       sd_date := today;
       sd_summaryText := "No summary generated.";
       sd_keyPoints := [];
       sd_actionItems := [];
       sd_attendeesDetected := [];
       sd_sentiment := "Neutral";
       sd_followUpEmail := "";
       sd_transcript := transcript |}
  ∧ (∀ parsed,
       sd_transcript (App.normalize title today (Gemini.spread parsed transcript))
       = transcript)
  ∧ (∀ API_KEY backend audioBase64 context highlights result,
       fst (Gemini.generateMeetingSummary API_KEY backend audioBase64 context
              transcript highlights) = Js.Returned result →
       sd_transcript (App.normalize title today result) = transcript).
Proof.
  split; [reflexivity|]. split; [reflexivity|].
  intros API_KEY backend audioBase64 context highlights result Hres.
  cbn. eapply generateMeetingSummary_transcript, Hres.
Qed.

Lemma normalize_defaults_witness :
  sd_transcript
    (App.normalize None "1/2/2026"
       (Gemini.spread
          {| Gemini.p_summaryText := Some "s"; Gemini.p_keyPoints := None;
             Gemini.p_actionItems := None; Gemini.p_attendeesDetected := None;
             Gemini.p_sentiment := None; Gemini.p_followUpEmail := None;
             Gemini.p_transcript := Some [] |}
          [ {| seg_timestamp := 0; seg_text := "hello"; seg_isFinal := true |} ]))
  = [ {| seg_timestamp := 0; seg_text := "hello"; seg_isFinal := true |} ].
Proof.
  apply (proj2 (proj2 (normalize_defaults None "1/2/2026"
           [ {| seg_timestamp := 0; seg_text := "hello"; seg_isFinal := true |} ]))
         (Some "key")
         (fun _ => Js.Returned
            (Some {| Gemini.p_summaryText := Some "s"; Gemini.p_keyPoints := None;
                     Gemini.p_actionItems := None; Gemini.p_attendeesDetected := None;
                     Gemini.p_sentiment := None; Gemini.p_followUpEmail := None;
                     Gemini.p_transcript := Some [] |}))
         "QUJD" "ctx" []).
  reflexivity.
Defined.

(** ** Merging imported meetings *)

Lemma existingIds_spec (prev : list Meeting) (i : string) :
  i ∈ App.existingIds prev ↔ In i (map m_id prev).
Proof.
  unfold App.existingIds. rewrite elem_of_list_to_set. apply list_elem_of_In.
Qed.

Lemma existsb_eqb_In (i : string) (l : list string) :
  existsb (String.eqb i) l = true ↔ In i l.
Proof.
  rewrite existsb_exists. split.
  - intros (x & Hx & Heq). apply String.eqb_eq in Heq. now subst.
  - intros Hin. exists i. split; [assumption | apply String.eqb_refl].
Qed.

Lemma filter_fresh (prev events : list Meeting) :
  filter (fun e => m_id e ∉ App.existingIds prev) events = freshEvents prev events.
Proof.
  unfold freshEvents.
  induction events as [|e events IH]; [reflexivity|].
  rewrite filter_cons. cbn [List.filter]. rewrite IH.
  destruct (existsb (String.eqb (m_id e)) (map m_id prev)) eqn:Hex; cbn [negb].
  - apply existsb_eqb_In, existingIds_spec in Hex.
    destruct (decide (m_id e ∉ App.existingIds prev)); [contradiction | reflexivity].
  - destruct (decide (m_id e ∉ App.existingIds prev)) as [|Hin]; [reflexivity|].
    exfalso. apply dec_stable in Hin.
    apply existingIds_spec, existsb_eqb_In in Hin. congruence.
Qed.

Lemma freshEvents_sound (prev events : list Meeting) :
  Forall (fun e => In e events ∧ ¬ In (m_id e) (map m_id prev)) (freshEvents prev events).
Proof.
  apply List.Forall_forall. intros e He.
  apply filter_In in He as [Hin Hb]. split; [assumption|].
  intros Hid. apply existsb_eqb_In in Hid. rewrite Hid in Hb. discriminate.
Qed.

(** C9: in the demo branch and after a calendar fetch alike, the merged list
    starts with the existing meetings, unchanged and in their order, and
    goes on with exactly the imported events whose id is the id of no
    existing meeting (in the order of the import); so every appended meeting
    is an imported one with an id that does not occur in the existing list. *)
Theorem merge_keeps_existing_appends_fresh (prev calendarEvents : list Meeting) :
  (take (length prev) (App.mergeCalendar calendarEvents prev) = prev
   ∧ drop (length prev) (App.mergeCalendar calendarEvents prev)
     = freshEvents prev calendarEvents
   ∧ Forall (fun e => In e calendarEvents ∧ ¬ In (m_id e) (map m_id prev))
       (drop (length prev) (App.mergeCalendar calendarEvents prev)))
  ∧ (take (length prev) (App.mergeDemo prev) = prev
     ∧ drop (length prev) (App.mergeDemo prev) = freshEvents prev UPCOMING_MEETINGS
     ∧ Forall (fun e => In e UPCOMING_MEETINGS ∧ ¬ In (m_id e) (map m_id prev))
         (drop (length prev) (App.mergeDemo prev))).
Proof.
  unfold App.mergeCalendar, App.mergeDemo. cbv zeta.
  rewrite !filter_fresh, !take_app_length, !drop_app_length.
  repeat split; auto using freshEvents_sound.
Qed.

(** An import that repeats [m2] and brings [g1]: only [g1] is appended. *)
Lemma merge_keeps_existing_appends_fresh_witness :
  drop (length UPCOMING_MEETINGS)
    (App.mergeCalendar
       [ {| m_id := "m2"; m_title := "Design Handoff Sync (moved)";
            m_platform := "Zoom"; m_time := "1:00 PM"; m_duration := "30 min";
            m_url := "https://zoom.us/j/123456789"; m_attendees := [] |};
         {| m_id := "g1"; m_title := "Budget Review";
            m_platform := "Google Meet"; m_time := "3:00 PM"; m_duration := "60 min";
            m_url := "https://meet.google.com/aaa-bbbb-ccc"; m_attendees := [] |} ]
       UPCOMING_MEETINGS)
  = freshEvents UPCOMING_MEETINGS
      [ {| m_id := "m2"; m_title := "Design Handoff Sync (moved)";
           m_platform := "Zoom"; m_time := "1:00 PM"; m_duration := "30 min";
           m_url := "https://zoom.us/j/123456789"; m_attendees := [] |};
        {| m_id := "g1"; m_title := "Budget Review";
           m_platform := "Google Meet"; m_time := "3:00 PM"; m_duration := "60 min";
           m_url := "https://meet.google.com/aaa-bbbb-ccc"; m_attendees := [] |} ].
Proof.
  apply (proj1 (proj2 (proj1 (merge_keeps_existing_appends_fresh UPCOMING_MEETINGS _)))).
Defined.

(** The demo import over the initial list adds nothing. *)
Example mergeDemo_initial :
  App.meetings (App.setMeetings App.mergeDemo App.initial) = UPCOMING_MEETINGS.
Proof. vm_compute. reflexivity. Qed.

(** ** The clip builder *)

(** C7 fails on the code: [captureStart] drops a pending end that lies before
    the new start, but [captureEnd] takes an end that lies before the pending
    start, and [saveClip] commits the pair as it is.  Start captured at 50 s,
    end captured at 30 s, label "Budget": the clip 50..30 is committed. *)
Theorem saveClip_commits_inverted_clip :
  SummaryView.clips
    (SummaryView.run
       [ SummaryView.Seek 50; SummaryView.CaptureStart;
         SummaryView.Seek 30; SummaryView.CaptureEnd;
         SummaryView.TypeLabel "Budget"; SummaryView.SaveClip "1767312000000" ]
       (SummaryView.initial (Some {| SummaryView.currentTime := 0 |})))
  = [ {| clip_id := "1767312000000"; clip_label := "Budget";
         clip_start := 50; clip_end := 30 |} ]
  ∧ SummaryView.newClipEnd
      (SummaryView.run
         [ SummaryView.Seek 30; SummaryView.CaptureEnd;
           SummaryView.Seek 50; SummaryView.CaptureStart ]
         (SummaryView.initial (Some {| SummaryView.currentTime := 0 |})))
    = None.
Proof. split; reflexivity. Qed.

(** ** The capture session: how the handlers touch the trace *)

(** ** The capture session: how the handlers touch the trace *)

Lemma stopTracks_eq (stream : Recorder.MediaStream) (s : Recorder.St) :
  fold_left (fun s track => Recorder.emit (Recorder.TrackStop track) s) stream s
  = {| Recorder.view := Recorder.view s; Recorder.refs := Recorder.refs s;
       Recorder.onended := Recorder.onended s;
       Recorder.trace := (Recorder.trace s ++ map Recorder.TrackStop stream)%list |}.
Proof.
  revert s. induction stream as [|t stream IH]; intros s; cbn.
  - rewrite app_nil_r. destruct s; reflexivity.
  - rewrite IH. cbn. rewrite <- app_assoc. reflexivity.
Qed.

(** What [cleanup] leaves behind. *)
Lemma cleanup_eq (s : Recorder.St) :
  Recorder.view (Recorder.cleanup s) = Recorder.view s
  ∧ Recorder.mediaRecorderRef (Recorder.refs (Recorder.cleanup s))
    = Recorder.mediaRecorderRef (Recorder.refs s)
  ∧ Recorder.onended (Recorder.cleanup s) = Recorder.onended s
  ∧ Recorder.trace (Recorder.cleanup s)
    = (Recorder.trace s
       ++ map Recorder.TrackStop
            (match Recorder.streamRef (Recorder.refs s) with
             | Some stream => stream
             | None => []
             end)
       ++ match Recorder.recognitionRef (Recorder.refs s) with
          | Some _ => [Recorder.RecognitionStop]
          | None => []
          end)%list.
Proof.
  destruct s as [w [sr mr ch iv ac rc] oe tr].
  unfold Recorder.cleanup.
  destruct iv, sr, ac, rc; cbn; rewrite ?stopTracks_eq; cbn;
    rewrite ?app_nil_r, <- ?app_assoc; auto.
Qed.

Lemma silent_counts (tr l : list Recorder.Effect) :
  forallb silent l = true →
  length (List.filter (fun e => match e with Recorder.RecorderStop => true | _ => false end)
            (tr ++ l))
  = length (List.filter (fun e => match e with Recorder.RecorderStop => true | _ => false end)
              tr)
  ∧ flat_map (fun e => match e with
                       | Recorder.OnStop a v t h => [(a, v, t, h)]
                       | _ => []
                       end) (tr ++ l)
    = flat_map (fun e => match e with
                         | Recorder.OnStop a v t h => [(a, v, t, h)]
                         | _ => []
                         end) tr.
Proof.
  intros Hl. rewrite List.filter_app, length_app, flat_map_app.
  assert (List.filter (fun e => match e with Recorder.RecorderStop => true | _ => false end) l
          = []
          ∧ flat_map (fun e => match e with
                               | Recorder.OnStop a v t h => [(a, v, t, h)]
                               | _ => []
                               end) l = []) as [-> ->].
  { induction l as [|e l IH]; [split; reflexivity|].
    cbn in Hl. apply andb_prop in Hl as [He Hl]. specialize (IH Hl).
    destruct e; try discriminate; cbn; exact IH. }
  rewrite app_nil_r. cbn. split; [lia | reflexivity].
Qed.

(** Closes [sameRecorder s s'] when [s'] is [s] up to state variables and
    refs other than the recorder. *)
Ltac untouched :=
  split; [reflexivity|]; split; [reflexivity|];
  exists []; rewrite app_nil_r; split; reflexivity.

Lemma sameRecorder_refl (s : Recorder.St) : sameRecorder s s.
Proof. untouched. Qed.

Lemma sameRecorder_trans (s1 s2 s3 : Recorder.St) :
  sameRecorder s1 s2 → sameRecorder s2 s3 → sameRecorder s1 s3.
Proof.
  intros (Hm1 & Ho1 & l1 & Ht1 & Hl1) (Hm2 & Ho2 & l2 & Ht2 & Hl2).
  split; [congruence|]. split; [congruence|].
  exists (l1 ++ l2)%list. rewrite Ht2, Ht1, <- app_assoc, forallb_app, Hl1, Hl2.
  split; reflexivity.
Qed.

Lemma sameRecorder_inPhase (p : Phase) (s s' : Recorder.St) :
  sameRecorder s s' → inPhase p s → inPhase p s'.
Proof.
  intros (Hm & Ho & l & Ht & Hl) (Hp & Hon & Hst & Hho).
  destruct (silent_counts (Recorder.trace s) l Hl) as [Hc Hf].
  unfold inPhase, phaseOf, Recorder.recorderStops, Recorder.handoffs in *.
  rewrite Hm, Ho, Ht, Hc, Hf. auto.
Qed.

Lemma sameRecorder_withView (f : Recorder.View → Recorder.View) (s : Recorder.St) :
  sameRecorder s (Recorder.withView f s).
Proof. untouched. Qed.

Lemma sameRecorder_cleanup (s : Recorder.St) : sameRecorder s (Recorder.cleanup s).
Proof.
  destruct (cleanup_eq s) as (_ & Hm & Ho & Ht).
  split; [assumption|]. split; [assumption|].
  eexists. split; [exact Ht|].
  rewrite forallb_app. apply andb_true_intro. split.
  - destruct (Recorder.streamRef (Recorder.refs s)) as [stream|]; [|reflexivity].
    clear. induction stream as [|t stream IH]; cbn; auto.
  - destruct (Recorder.recognitionRef (Recorder.refs s)); reflexivity.
Qed.

Lemma sameRecorder_recognition_stop (r : Recorder.SpeechRecognition) (s : Recorder.St) :
  sameRecorder s (Recorder.recognition_stop r s).
Proof.
  split; [reflexivity|]. split; [reflexivity|].
  exists [Recorder.RecognitionStop]. split; reflexivity.
Qed.

Lemma sameRecorder_onresult scope results s :
  sameRecorder s (Recorder.onresult scope results s).
Proof.
  unfold Recorder.onresult. destruct (Js.truthy _); untouched.
Qed.

Lemma sameRecorder_onend scope s :
  sameRecorder s (Recorder.onend scope s).
Proof.
  unfold Recorder.onend.
  destruct (decide _); [|untouched].
  destruct (Recorder.recognitionRef _) as [r|]; [|untouched].
  destruct (Recorder.recognition_start r); [|untouched].
  split; [reflexivity|]. split; [reflexivity|].
  exists [Recorder.RecognitionStart]. split; reflexivity.
Qed.

(** Every event but a stop trigger and the dispatch of the [stop] event
    leaves the recorder, the listener, the stops and the handoffs alone. *)
Lemma step_sameRecorder (s : Recorder.St) (e : Recorder.Event) :
  isStopTrigger e = false → e ≠ Recorder.StopEvent →
  sameRecorder s (Recorder.step s e).
Proof.
  intros Htr Hne. destruct e; try discriminate; try congruence; cbn [Recorder.step].
  - destruct (Recorder.intervalRef _) as [[|]|]; untouched.
  - destruct (Recorder.recognitionRef _) as [r|]; [|untouched].
    destruct (Recorder.sr_started r);
      [apply sameRecorder_onresult | untouched].
  - destruct (Recorder.recognitionRef _) as [r|]; [|untouched].
    destruct (Recorder.sr_started r); [|untouched].
    eapply sameRecorder_trans; [|apply sameRecorder_onend].
    untouched.
  - destruct (Recorder.mediaRecorderRef _); [|untouched].
    unfold Recorder.ondataavailable.
    destruct (_ <? _)%nat; untouched.
  - untouched.
  - apply sameRecorder_cleanup.
Qed.

Lemma recorder_stop_inPhase (s : Recorder.St) (mr : Recorder.MediaRecorder) :
  Recorder.mediaRecorderRef (Recorder.refs s) = Some mr →
  inPhase Recording s → inPhase Stopping (Recorder.recorder_stop mr s).
Proof.
  intros Hmr (Hp & Hon & Hst & Hho).
  unfold inPhase, phaseOf, Recorder.recorderStops, Recorder.handoffs in *.
  cbn. rewrite List.filter_app, flat_map_app, !length_app, Hst, Hho. cbn.
  repeat split; assumption.
Qed.

(** A stop trigger: the first one stops the recorder, later ones find it
    inactive. *)
Lemma handleStopRecording_inPhase (p : Phase) (s : Recorder.St) :
  inPhase p s →
  inPhase (advance p Recorder.ClickStop) (Recorder.handleStopRecording s).
Proof.
  intros Hin. unfold Recorder.handleStopRecording.
  eapply sameRecorder_inPhase; [apply sameRecorder_cleanup|].
  pose proof Hin as (Hp & _). unfold phaseOf in Hp.
  destruct (Recorder.mediaRecorderRef (Recorder.refs s)) as [mr|] eqn:Hmr;
    [|discriminate].
  destruct (Recorder.mr_state mr) eqn:Hst, (Recorder.mr_stopQueued mr) eqn:Hq;
    try discriminate; injection Hp as <-;
    destruct (decide _) as [Hne|He]; try congruence; cbn [advance];
    try exact Hin; try (now apply recorder_stop_inPhase);
    exfalso; apply He; discriminate.
Qed.

(** The dispatch of the [stop] event: it hands the artifact over when a
    stop is queued and does nothing otherwise. *)
Lemma stopEvent_inPhase (p : Phase) (s : Recorder.St) :
  inPhase p s →
  inPhase (advance p Recorder.StopEvent) (Recorder.step s Recorder.StopEvent).
Proof.
  intros (Hp & Hon & Hst & Hho).
  destruct s as [w [sr [[ms mst mq msc]|] ch iv ac rc] oe tr];
    unfold inPhase, phaseOf, Recorder.recorderStops, Recorder.handoffs in *;
    cbn in *; [|discriminate].
  destruct mst, mq; try discriminate; injection Hp as <-; cbn; auto.
  unfold Recorder.onstop. destruct rc as [r|]; cbn;
    rewrite ?List.filter_app, ?flat_map_app, ?length_app; cbn;
    rewrite ?length_app, ?Nat.add_0_r, Hst, Hho; cbn; auto.
Qed.

Lemma step_inPhase (p : Phase) (s : Recorder.St) (e : Recorder.Event) :
  inPhase p s → inPhase (advance p e) (Recorder.step s e).
Proof.
  intros Hin.
  destruct e;
    try (eapply sameRecorder_inPhase;
         [apply step_sameRecorder; [reflexivity | discriminate]
         | destruct p; exact Hin]).
  - now apply handleStopRecording_inPhase.
  - replace (advance p Recorder.DisplayEnded) with (advance p Recorder.ClickStop)
      by (destruct p; reflexivity).
    cbn [Recorder.step]. destruct Hin as (Hp & [t Ht] & Hrest). rewrite Ht.
    apply handleStopRecording_inPhase.
    split; [exact Hp|]. split; [eauto | exact Hrest].
  - now apply stopEvent_inPhase.
Qed.

Lemma run_inPhase (events : list Recorder.Event) (p : Phase) (s : Recorder.St) :
  inPhase p s → inPhase (fold_left advance events p) (Recorder.run events s).
Proof.
  revert p s. induction events as [|e events IH]; intros p s Hin; [exact Hin|].
  cbn. apply IH, step_inPhase, Hin.
Qed.

Lemma mount_inPhase (meeting : Meeting) (pf : Recorder.Platform) :
  Recorder.status (Recorder.view (Recorder.mount meeting pf)) = Recorder.RECORDING →
  inPhase Recording (Recorder.mount meeting pf).
Proof.
  unfold Recorder.mount, Recorder.startCapture, Recorder.startCapture_catch,
    Recorder.initSpeechRecognition.
  destruct (Recorder.getDisplayMedia pf) as [ds|e1]; cbn.
  2: { destruct (String.eqb _ _); discriminate. }
  destruct (Recorder.getUserMedia pf) as [ms|e2]; cbn.
  2: { destruct (String.eqb _ _); discriminate. }
  destruct (Recorder.getVideoTracks ds) as [|t0 vs]; cbn.
  { destruct (Recorder.webkitSpeechRecognition pf); discriminate. }
  destruct (Recorder.mimeTypeSupported pf); cbn.
  2: { destruct (Recorder.webkitSpeechRecognition pf); discriminate. }
  intros _. unfold inPhase, phaseOf.
  destruct (Recorder.webkitSpeechRecognition pf); cbn; repeat split; eauto.
Qed.

Lemma advance_Delivered (events : list Recorder.Event) :
  fold_left advance events Delivered = Delivered.
Proof. induction events as [|e events IH]; [reflexivity|]. destruct e; exact IH. Qed.

Lemma advance_Stopping (mid post : list Recorder.Event) :
  fold_left advance (mid ++ Recorder.StopEvent :: post) Stopping = Delivered.
Proof.
  induction mid as [|e mid IH]; cbn.
  - apply advance_Delivered.
  - destruct e; cbn; try exact IH. rewrite advance_Delivered. reflexivity.
Qed.

Lemma advance_trigger (pre mid post : list Recorder.Event) (t : Recorder.Event) :
  isStopTrigger t = true →
  fold_left advance (pre ++ t :: mid ++ Recorder.StopEvent :: post) Recording = Delivered.
Proof.
  intros Ht. induction pre as [|e pre IH]; cbn.
  - destruct t; try discriminate; cbn; apply advance_Stopping.
  - destruct e; cbn; try exact IH;
      change (pre ++ t :: mid ++ Recorder.StopEvent :: post)%list
        with (pre ++ (t :: mid) ++ Recorder.StopEvent :: post)%list;
      rewrite app_assoc; apply advance_Stopping.
Qed.

(** ** Stopping once

    C8: in a session that started, whatever the events and however they are
    interleaved, the recorder is stopped at most once and at most one
    artifact is handed to [onStop]; and as soon as some stop trigger (the
    operator's button or the termination listener of the display track) is
    followed by the dispatch of the recorder's [stop] event, there is exactly
    one effective stop and exactly one handoff, however many more triggers
    and dispatches occur: a trigger that finds the recorder inactive does not
    stop it again. *)
Theorem stop_is_idempotent
    (meeting : Meeting) (pf : Recorder.Platform) (events : list Recorder.Event) :
  Recorder.status (Recorder.view (Recorder.mount meeting pf)) = Recorder.RECORDING →
  (Recorder.recorderStops (Recorder.run events (Recorder.mount meeting pf)) ≤ 1)%nat
  ∧ (length (Recorder.handoffs (Recorder.run events (Recorder.mount meeting pf))) ≤ 1)%nat
  ∧ (∀ pre trigger mid post,
       events = (pre ++ trigger :: mid ++ Recorder.StopEvent :: post)%list →
       isStopTrigger trigger = true →
       Recorder.recorderStops (Recorder.run events (Recorder.mount meeting pf)) = 1
       ∧ length (Recorder.handoffs (Recorder.run events (Recorder.mount meeting pf))) = 1).
Proof.
  intros Hstart.
  pose proof (run_inPhase events _ _ (mount_inPhase meeting pf Hstart))
    as (_ & _ & Hst & Hho).
  split; [rewrite Hst; destruct (fold_left _ _ _); lia|].
  split; [rewrite Hho; destruct (fold_left _ _ _); lia|].
  intros pre trigger mid post -> Htr.
  rewrite Hst, Hho, advance_trigger by exact Htr. split; reflexivity.
Qed.

(** Stop pressed, sharing revoked, stop pressed again: one stop, one
    artifact. *)
Lemma stop_is_idempotent_witness :
  Recorder.recorderStops
    (Recorder.run
       [Recorder.Tick; Recorder.ClickStop; Recorder.DisplayEnded; Recorder.StopEvent;
        Recorder.ClickStop; Recorder.StopEvent]
       (Recorder.mount Sample.meeting Sample.granted)) = 1
  ∧ length (Recorder.handoffs
      (Recorder.run
         [Recorder.Tick; Recorder.ClickStop; Recorder.DisplayEnded; Recorder.StopEvent;
          Recorder.ClickStop; Recorder.StopEvent]
         (Recorder.mount Sample.meeting Sample.granted))) = 1.
Proof.
  apply (proj2 (proj2 (stop_is_idempotent Sample.meeting Sample.granted
                         [Recorder.Tick; Recorder.ClickStop; Recorder.DisplayEnded;
                          Recorder.StopEvent; Recorder.ClickStop; Recorder.StopEvent]
                         eq_refl))
           [Recorder.Tick] Recorder.ClickStop [Recorder.DisplayEnded]
           [Recorder.ClickStop; Recorder.StopEvent]);
    reflexivity.
Defined.

(** ** Refused permissions *)

Lemma step_no_recorder (s : Recorder.St) (e : Recorder.Event) :
  Recorder.mediaRecorderRef (Recorder.refs s) = None →
  sameRecorder s (Recorder.step s e).
Proof.
  intros Hno.
  destruct e; try (apply step_sameRecorder; [reflexivity | discriminate]);
    cbn [Recorder.step]; unfold Recorder.handleStopRecording; rewrite ?Hno.
  - apply sameRecorder_cleanup.
  - destruct (Recorder.onended s); [apply sameRecorder_cleanup | apply sameRecorder_refl].
  - apply sameRecorder_refl.
Qed.

Lemma run_no_recorder (events : list Recorder.Event) (s : Recorder.St) :
  Recorder.mediaRecorderRef (Recorder.refs s) = None →
  Recorder.handoffs (Recorder.run events s) = Recorder.handoffs s.
Proof.
  revert s. induction events as [|e events IH]; intros s Hno; [reflexivity|].
  cbn. destruct (step_no_recorder s e Hno) as (Hm & _ & l & Ht & Hl).
  rewrite IH by congruence.
  unfold Recorder.handoffs. rewrite Ht.
  apply (silent_counts (Recorder.trace s) l Hl).
Qed.

(** C4, amended: a refusal of the microphone prompt ends the start sequence
    even though the display was granted, just as a refusal of the display
    prompt does: the error message is set, [onCancel] is called once, the
    status stays [IDLE], no audio graph and no recorder exist, and no event
    that follows makes a handoff: no artifact is produced. *)
Theorem denied_permission_fails_start (meeting : Meeting) (pf : Recorder.Platform) :
  denied (Recorder.getDisplayMedia pf)
  ∨ (resolved (Recorder.getDisplayMedia pf) ∧ denied (Recorder.getUserMedia pf)) →
  Recorder.status (Recorder.view (Recorder.mount meeting pf)) = Recorder.IDLE
  ∧ Recorder.error (Recorder.view (Recorder.mount meeting pf))
    = Some "Failed to access screen or microphone. Please allow permissions."
  ∧ Recorder.cancels (Recorder.mount meeting pf) = 1
  ∧ Recorder.audioContextRef (Recorder.refs (Recorder.mount meeting pf)) = None
  ∧ Recorder.mediaRecorderRef (Recorder.refs (Recorder.mount meeting pf)) = None
  ∧ (∀ events,
       Recorder.handoffs (Recorder.run events (Recorder.mount meeting pf)) = []).
Proof.
  intros Hden.
  assert (Recorder.status (Recorder.view (Recorder.mount meeting pf)) = Recorder.IDLE
          ∧ Recorder.error (Recorder.view (Recorder.mount meeting pf))
            = Some "Failed to access screen or microphone. Please allow permissions."
          ∧ Recorder.cancels (Recorder.mount meeting pf) = 1
          ∧ Recorder.audioContextRef (Recorder.refs (Recorder.mount meeting pf)) = None
          ∧ Recorder.mediaRecorderRef (Recorder.refs (Recorder.mount meeting pf)) = None
          ∧ Recorder.handoffs (Recorder.mount meeting pf) = [])
    as (H1 & H2 & H3 & H4 & H5 & H6).
  { unfold Recorder.mount, Recorder.startCapture, Recorder.startCapture_catch,
      denied, resolved in *.
    destruct (Recorder.getDisplayMedia pf) as [ds|e1].
    - destruct Hden as [[]|[_ Hmic]].
      destruct (Recorder.getUserMedia pf) as [ms|e2]; [destruct Hmic|].
      rewrite Hmic. repeat split; reflexivity.
    - destruct Hden as [Hd|[[] _]].
      rewrite Hd. repeat split; reflexivity. }
  repeat split; try assumption.
  intros events. rewrite run_no_recorder; assumption.
Qed.

(** The display is granted and the microphone refused. *)
Lemma denied_permission_fails_start_witness :
  Recorder.cancels (Recorder.mount Sample.meeting Sample.micDenied) = 1
  ∧ Recorder.handoffs
      (Recorder.run [Recorder.ClickStop; Recorder.StopEvent; Recorder.Unmount]
         (Recorder.mount Sample.meeting Sample.micDenied)) = [].
Proof.
  pose proof (denied_permission_fails_start Sample.meeting Sample.micDenied
                (or_intror (conj I eq_refl)))
    as (_ & _ & Hc & _ & _ & Hh).
  split; [exact Hc | apply Hh].
Defined.

(** C4, as stated, fails: with the display granted and the microphone
    refused the session does not reach [RECORDING] with an audio graph fed
    by the display stream alone. *)
Lemma mic_denied_start_does_not_succeed :
  ¬ (Recorder.status (Recorder.view (Recorder.mount Sample.meeting Sample.micDenied))
     = Recorder.RECORDING
     ∧ option_map Recorder.ac_sources
         (Recorder.audioContextRef
            (Recorder.refs (Recorder.mount Sample.meeting Sample.micDenied)))
       = Some [[Sample.displayVideo; Sample.displayAudio]]).
Proof. intros [H _]. discriminate H. Qed.

(** ** Handlers made at mount

    The handlers of the recogniser and of the recorder are made once, by the
    [startCapture] of the first render, so the [transcript], [highlights],
    [duration] and [status] they name are those of the first render. *)

Lemma cleanup_scopes (s : Recorder.St) : scopes (Recorder.cleanup s) = scopes s.
Proof.
  destruct s as [w [sr mr ch iv ac rc] oe tr].
  unfold Recorder.cleanup, scopes.
  destruct iv, sr, ac, rc; cbn; rewrite ?stopTracks_eq; reflexivity.
Qed.

Lemma cleanup_effects (s : Recorder.St) :
  ∃ l, Recorder.trace (Recorder.cleanup s) = (Recorder.trace s ++ l)%list
       ∧ Forall firstRenderEffect l.
Proof.
  destruct (cleanup_eq s) as (_ & _ & _ & Ht).
  eexists. split; [exact Ht|].
  apply Forall_app. split.
  - apply Forall_map, Forall_true. intros t. exact I.
  - destruct (Recorder.recognitionRef _); repeat constructor.
Qed.

Lemma handleStopRecording_first_render (s : Recorder.St) :
  scopes (Recorder.handleStopRecording s) = scopes s
  ∧ Recorder.view (Recorder.handleStopRecording s) = Recorder.view s
  ∧ ∃ l, Recorder.trace (Recorder.handleStopRecording s) = (Recorder.trace s ++ l)%list
         ∧ Forall firstRenderEffect l.
Proof.
  unfold Recorder.handleStopRecording.
  set (s1 := match Recorder.mediaRecorderRef (Recorder.refs s) with
             | Some mr =>
                 if decide (Recorder.mr_state mr ≠ Recorder.inactive)
                 then Recorder.recorder_stop mr s else s
             | None => s
             end).
  assert (scopes s1 = scopes s ∧ Recorder.view s1 = Recorder.view s
          ∧ ∃ l, Recorder.trace s1 = (Recorder.trace s ++ l)%list
                 ∧ Forall firstRenderEffect l) as (Hsc & Hv & l1 & Ht1 & Hl1).
  { subst s1. unfold scopes.
    destruct (Recorder.mediaRecorderRef (Recorder.refs s)) as [mr|] eqn:Hmr.
    - destruct (decide _); cbn.
      + split; [reflexivity|]. split; [reflexivity|].
        exists [Recorder.RecorderStop]. split; [reflexivity | repeat constructor].
      + rewrite Hmr. split; [reflexivity|]. split; [reflexivity|].
        exists []. rewrite app_nil_r. split; [reflexivity | constructor].
    - rewrite Hmr. split; [reflexivity|]. split; [reflexivity|].
      exists []. rewrite app_nil_r. split; [reflexivity | constructor]. }
  rewrite cleanup_scopes. destruct (cleanup_eq s1) as (-> & _).
  destruct (cleanup_effects s1) as (l2 & Ht2 & Hl2).
  split; [exact Hsc|]. split; [exact Hv|].
  exists (l1 ++ l2)%list. rewrite Ht2, Ht1, <- app_assoc.
  split; [reflexivity | now apply Forall_app].
Qed.

Lemma step_first_render (s : Recorder.St) (e : Recorder.Event) :
  Forall (fun scope => scope = Recorder.initialView) (scopes s) →
  Forall (fun seg => seg_timestamp seg = 0) (Recorder.transcript (Recorder.view s)) →
  scopes (Recorder.step s e) = scopes s
  ∧ Forall (fun seg => seg_timestamp seg = 0)
      (Recorder.transcript (Recorder.view (Recorder.step s e)))
  ∧ ∃ l, Recorder.trace (Recorder.step s e) = (Recorder.trace s ++ l)%list
         ∧ Forall firstRenderEffect l.
Proof.
  intros Hsc Htr.
  assert (Hnil : ∃ l, Recorder.trace s = (Recorder.trace s ++ l)%list
                      ∧ Forall firstRenderEffect l)
    by (exists []; rewrite app_nil_r; split; [reflexivity | constructor]).
  destruct e; cbn [Recorder.step].
  - destruct (Recorder.intervalRef _) as [[|]|]; auto.
  - destruct (Recorder.recognitionRef (Recorder.refs s)) as [r|] eqn:Hr; auto.
    destruct (Recorder.sr_started r); auto.
    assert (Recorder.sr_scope r = Recorder.initialView) as ->.
    { unfold scopes in Hsc. rewrite Hr in Hsc.
      apply Forall_app in Hsc as [_ Hsc]. now inversion Hsc. }
    unfold Recorder.onresult. destruct (Js.truthy _); cbn; auto.
    split; [reflexivity|]. split; [|exact Hnil].
    apply Forall_app. split; [exact Htr | repeat constructor].
  - destruct (Recorder.recognitionRef (Recorder.refs s)) as [r|] eqn:Hr; auto.
    destruct (Recorder.sr_started r); auto.
    assert (Recorder.sr_scope r = Recorder.initialView) as Hscope.
    { unfold scopes in Hsc. rewrite Hr in Hsc.
      apply Forall_app in Hsc as [_ Hsc]. now inversion Hsc. }
    rewrite Hscope. unfold Recorder.onend. cbn.
    split; [|auto]. unfold scopes. cbn. rewrite Hr, Hscope. reflexivity.
  - destruct (Recorder.mediaRecorderRef _); auto.
    unfold Recorder.ondataavailable. destruct (_ <? _)%nat; auto.
  - auto.
  - destruct (handleStopRecording_first_render s) as (-> & -> & Hl). auto.
  - destruct (Recorder.onended s); auto.
    destruct (handleStopRecording_first_render s) as (-> & -> & Hl). auto.
  - destruct (Recorder.mediaRecorderRef (Recorder.refs s)) as [mr|] eqn:Hmr; auto.
    destruct (Recorder.mr_stopQueued mr); auto.
    assert (Recorder.mr_scope mr = Recorder.initialView) as Hscope.
    { unfold scopes in Hsc. rewrite Hmr in Hsc.
      apply Forall_app in Hsc as [Hsc _]. now inversion Hsc. }
    rewrite Hscope. unfold Recorder.onstop, scopes. cbn.
    destruct (Recorder.recognitionRef (Recorder.refs s)) as [r|] eqn:Hr; cbn;
      rewrite Hmr, ?Hr, ?Hscope; (split; [reflexivity|]); (split; [exact Htr|]).
    + eexists [_; _]. rewrite <- app_assoc. split; [reflexivity|].
      repeat constructor.
    + eexists [_]. split; [reflexivity|]. repeat constructor.
  - rewrite cleanup_scopes. destruct (cleanup_eq s) as (-> & _).
    auto using cleanup_effects.
Qed.

Lemma run_first_render (events : list Recorder.Event) (s : Recorder.St) :
  Forall (fun scope => scope = Recorder.initialView) (scopes s) →
  Forall (fun seg => seg_timestamp seg = 0) (Recorder.transcript (Recorder.view s)) →
  Forall (fun seg => seg_timestamp seg = 0)
    (Recorder.transcript (Recorder.view (Recorder.run events s)))
  ∧ ∃ l, Recorder.trace (Recorder.run events s) = (Recorder.trace s ++ l)%list
         ∧ Forall firstRenderEffect l.
Proof.
  revert s. induction events as [|e events IH]; intros s Hsc Htr.
  - split; [exact Htr|]. exists []. rewrite app_nil_r. split; [reflexivity | constructor].
  - destruct (step_first_render s e Hsc Htr) as (Hsc' & Htr' & l1 & Ht1 & Hl1).
    rewrite <- Hsc' in Hsc.
    destruct (IH _ Hsc Htr') as (Htr'' & l2 & Ht2 & Hl2).
    split; [exact Htr''|].
    exists (l1 ++ l2)%list.
    change (Recorder.run (e :: events) s) with (Recorder.run events (Recorder.step s e)).
    rewrite Ht2, Ht1, <- app_assoc.
    split; [reflexivity | now apply Forall_app].
Qed.

Lemma first_render_effects (tr l : list Recorder.Effect) :
  Forall firstRenderEffect l →
  Forall (fun h => snd (fst h) = [] ∧ snd h = [])
    (flat_map (fun e => match e with
                        | Recorder.OnStop a v t h => [(a, v, t, h)]
                        | _ => []
                        end) l)
  ∧ length (List.filter
              (fun e => match e with Recorder.RecognitionStart => true | _ => false end)
              (tr ++ l))
    = length (List.filter
                (fun e => match e with Recorder.RecognitionStart => true | _ => false end)
                tr).
Proof.
  intros Hl. rewrite List.filter_app, length_app.
  induction Hl as [|e l He Hl [IH1 IH2]]; cbn.
  - split; [constructor | lia].
  - destruct e; cbn in *; try (split; [exact IH1 | exact IH2]).
    + destruct He.
    + split; [constructor; [exact He | exact IH1] | exact IH2].
Qed.

(** In every session, whatever happens: every segment of the transcript is
    stamped 0, every handoff carries an empty transcript and no highlights,
    and the recogniser is never started again after the start. *)
Lemma handlers_belong_to_first_render
    (meeting : Meeting) (pf : Recorder.Platform) (events : list Recorder.Event) :
  Forall (fun seg => seg_timestamp seg = 0)
    (Recorder.transcript (Recorder.view (Recorder.run events (Recorder.mount meeting pf))))
  ∧ Forall (fun h => snd (fst h) = [] ∧ snd h = [])
      (Recorder.handoffs (Recorder.run events (Recorder.mount meeting pf)))
  ∧ Recorder.recognitionStarts (Recorder.run events (Recorder.mount meeting pf))
    = Recorder.recognitionStarts (Recorder.mount meeting pf).
Proof.
  assert (Forall (fun scope => scope = Recorder.initialView)
            (scopes (Recorder.mount meeting pf))
          ∧ Recorder.transcript (Recorder.view (Recorder.mount meeting pf)) = []
          ∧ Recorder.handoffs (Recorder.mount meeting pf) = []) as (Hsc & Htr & Hho).
  { unfold Recorder.mount, Recorder.startCapture, Recorder.startCapture_catch,
      Recorder.initSpeechRecognition, scopes.
    destruct (Recorder.getDisplayMedia pf) as [ds|e1]; cbn.
    2: { destruct (String.eqb _ _); repeat constructor. }
    destruct (Recorder.getUserMedia pf) as [ms|e2]; cbn.
    2: { destruct (String.eqb _ _); repeat constructor. }
    destruct (Recorder.getVideoTracks ds) as [|t0 vs],
      (Recorder.webkitSpeechRecognition pf), (Recorder.mimeTypeSupported pf); cbn;
      repeat constructor. }
  destruct (run_first_render events _ Hsc) as (Hts & l & Ht & Hl).
  { rewrite Htr. constructor. }
  destruct (first_render_effects (Recorder.trace (Recorder.mount meeting pf)) l Hl)
    as [Hh Hs].
  split; [exact Hts|].
  unfold Recorder.handoffs, Recorder.recognitionStarts in *. rewrite Ht.
  split; [|exact Hs].
  rewrite flat_map_app, Hho. exact Hh.
Qed.

(** C1 fails on the code.  One segment is finalized, one highlight is marked
    and a chunk is recorded before the operator stops: the component holds
    one segment and one highlight, but [onStop] receives an empty transcript
    and no highlights, and the request built from the handoff carries the
    texts that stand for "no transcript" and "no highlights". *)
Theorem onStop_handoff_is_stale :
  let s :=
    Recorder.run
      [Recorder.SpeechResults [Sample.hello]; Recorder.Tick; Recorder.Tick;
       Recorder.ClickHighlight; Recorder.DataAvailable Sample.chunk;
       Recorder.ClickStop; Recorder.StopEvent]
      (Recorder.mount Sample.meeting Sample.granted) in
  Recorder.transcript (Recorder.view s)
  = [ {| seg_timestamp := 0; seg_text := "hello"; seg_isFinal := true |} ]
  ∧ Recorder.highlights (Recorder.view s)
    = [ {| hl_timestamp := 2; hl_label := "Important" |} ]
  ∧ Recorder.handoffs s = [ (Sample.chunk, Some Sample.chunk, [], []) ]
  ∧ map (fun rq => (Gemini.rq_transcript rq, Gemini.rq_highlights rq))
      (App.requests
         (fold_left
            (handOver (Some "key") (fun _ => Js.Returned None) (fun _ => "GkXfow==")
               "1/2/2026")
            (Recorder.handoffs s)
            (App.handleJoin Sample.meeting App.initial)))
    = [ ("No live transcript available, rely on audio.", "None provided.") ].
Proof. vm_compute. repeat split; reflexivity. Qed.

(** C2 fails on the code.  After three ticks the clock reads 3; the segment
    appended for a result finalized then is stamped 0.  The rest of the
    claim holds there: the final result clears the partial text, and an
    interim result replaces the partial text and appends nothing. *)
Theorem final_result_is_stamped_zero :
  let s :=
    Recorder.run [Recorder.Tick; Recorder.Tick; Recorder.Tick]
      (Recorder.mount Sample.meeting Sample.granted) in
  Recorder.duration (Recorder.view s) = 3
  ∧ Recorder.transcript
      (Recorder.view (Recorder.step s (Recorder.SpeechResults [Sample.hello])))
    = [ {| seg_timestamp := 0; seg_text := "hello"; seg_isFinal := true |} ]
  ∧ Recorder.currentText
      (Recorder.view
         (Recorder.run [Recorder.SpeechResults [Sample.hel];
                        Recorder.SpeechResults [Sample.hello]] s))
    = ""
  ∧ Recorder.transcript
      (Recorder.view (Recorder.step s (Recorder.SpeechResults [Sample.hel])))
    = []
  ∧ Recorder.currentText
      (Recorder.view (Recorder.step s (Recorder.SpeechResults [Sample.hel])))
    = "hel".
Proof. vm_compute. repeat split; reflexivity. Qed.

(** C5 fails on the code.  The session records and the recogniser is
    started; when the recognition stream ends on its own, no
    [recognition.start()] follows: the recogniser stays stopped while the
    session goes on recording. *)
Theorem recognition_end_is_not_restarted :
  let s := Recorder.mount Sample.meeting Sample.granted in
  Recorder.status (Recorder.view s) = Recorder.RECORDING
  ∧ option_map Recorder.sr_started (Recorder.recognitionRef (Recorder.refs s)) = Some true
  ∧ Recorder.recognitionStarts s = 1
  ∧ Recorder.recognitionStarts (Recorder.step s Recorder.SpeechEnd) = 1
  ∧ option_map Recorder.sr_started
      (Recorder.recognitionRef (Recorder.refs (Recorder.step s Recorder.SpeechEnd)))
    = Some false
  ∧ Recorder.status (Recorder.view (Recorder.step s Recorder.SpeechEnd))
    = Recorder.RECORDING.
Proof. vm_compute. repeat split; reflexivity. Qed.

(** ** Releasing the devices

    C3 fails on the code.  [cleanup] stops the tracks of the mixed stream: the
    display video track and the track of the destination node.  After an
    operator stop and the unmount the display audio track and the microphone
    track were never stopped (and the display video track was stopped
    twice); when the microphone is refused after the display was granted,
    nothing is held in [streamRef] and no display track is stopped at all. *)
Theorem cleanup_misses_device_audio_tracks :
  let s :=
    Recorder.run [Recorder.ClickStop; Recorder.StopEvent; Recorder.Unmount]
      (Recorder.mount Sample.meeting Sample.granted) in
  let s' := Recorder.run [Recorder.Unmount] (Recorder.mount Sample.meeting Sample.micDenied) in
  Recorder.acquired Sample.granted
  = [Sample.displayVideo; Sample.displayAudio; Sample.micAudio]
  ∧ Recorder.stopCalls Sample.displayVideo s = 2
  ∧ Recorder.stopCalls Sample.displayAudio s = 0
  ∧ Recorder.stopCalls Sample.micAudio s = 0
  ∧ Recorder.acquired Sample.micDenied = [Sample.displayVideo; Sample.displayAudio]
  ∧ Recorder.cancels s' = 1
  ∧ Recorder.stopCalls Sample.displayVideo s' = 0
  ∧ Recorder.stopCalls Sample.displayAudio s' = 0.
Proof. vm_compute. repeat split; reflexivity. Qed.

(** * Further properties of the code *)

(** ** The capture session: the state variables *)

(** What one event does to the state variables: [status] and [error] stay,
    the clock does not go back, the transcript and the highlights grow at
    the end. *)
Lemma step_view (s : Recorder.St) (e : Recorder.Event) :
  Recorder.status (Recorder.view (Recorder.step s e)) = Recorder.status (Recorder.view s)
  ∧ Recorder.error (Recorder.view (Recorder.step s e)) = Recorder.error (Recorder.view s)
  ∧ (Recorder.duration (Recorder.view s)
     ≤ Recorder.duration (Recorder.view (Recorder.step s e)))%nat
  ∧ Recorder.transcript (Recorder.view s)
      `prefix_of` Recorder.transcript (Recorder.view (Recorder.step s e))
  ∧ Recorder.highlights (Recorder.view s)
      `prefix_of` Recorder.highlights (Recorder.view (Recorder.step s e)).
Proof.
  assert (Hsame : ∀ s', Recorder.view s' = Recorder.view s →
    Recorder.status (Recorder.view s') = Recorder.status (Recorder.view s)
    ∧ Recorder.error (Recorder.view s') = Recorder.error (Recorder.view s)
    ∧ (Recorder.duration (Recorder.view s) ≤ Recorder.duration (Recorder.view s'))%nat
    ∧ Recorder.transcript (Recorder.view s)
        `prefix_of` Recorder.transcript (Recorder.view s')
    ∧ Recorder.highlights (Recorder.view s)
        `prefix_of` Recorder.highlights (Recorder.view s')).
  { intros s' ->. repeat split; reflexivity. }
  destruct e; cbn [Recorder.step].
  - destruct (Recorder.intervalRef _) as [[|]|]; try (apply Hsame; reflexivity).
    cbn. repeat split; try reflexivity. lia.
  - destruct (Recorder.recognitionRef _) as [r|]; [|apply Hsame; reflexivity].
    destruct (Recorder.sr_started r); [|apply Hsame; reflexivity].
    unfold Recorder.onresult. destruct (Js.truthy _); cbn;
      repeat split; try reflexivity. apply prefix_app_r. reflexivity.
  - destruct (Recorder.recognitionRef _) as [r|] eqn:Hr; [|apply Hsame; reflexivity].
    destruct (Recorder.sr_started r); [|apply Hsame; reflexivity].
    apply Hsame. unfold Recorder.onend.
    destruct (decide _); reflexivity.
  - destruct (Recorder.mediaRecorderRef _); [|apply Hsame; reflexivity].
    unfold Recorder.ondataavailable. destruct (_ <? _)%nat; apply Hsame; reflexivity.
  - cbn. repeat split; try reflexivity. apply prefix_app_r. reflexivity.
  - apply Hsame. apply handleStopRecording_first_render.
  - destruct (Recorder.onended s); apply Hsame;
      [apply handleStopRecording_first_render | reflexivity].
  - destruct (Recorder.mediaRecorderRef _) as [mr|]; [|apply Hsame; reflexivity].
    destruct (Recorder.mr_stopQueued mr); apply Hsame; [|reflexivity].
    unfold Recorder.onstop. cbn. destruct (Recorder.recognitionRef _); reflexivity.
  - apply Hsame. apply cleanup_eq.
Qed.

(** X1: whatever happens in a session, the transcript and the list of
    highlights only grow at the end (what was appended stays, in place and
    unchanged), the clock never goes back, and [status] and [error] keep the
    value the start gave them: in particular a stop does not reset
    [status]. *)
Theorem session_is_append_only (events : list Recorder.Event) (s : Recorder.St) :
  Recorder.transcript (Recorder.view s)
    `prefix_of` Recorder.transcript (Recorder.view (Recorder.run events s))
  ∧ Recorder.highlights (Recorder.view s)
      `prefix_of` Recorder.highlights (Recorder.view (Recorder.run events s))
  ∧ (Recorder.duration (Recorder.view s)
     ≤ Recorder.duration (Recorder.view (Recorder.run events s)))%nat
  ∧ Recorder.status (Recorder.view (Recorder.run events s))
    = Recorder.status (Recorder.view s)
  ∧ Recorder.error (Recorder.view (Recorder.run events s))
    = Recorder.error (Recorder.view s).
Proof.
  revert s. induction events as [|e events IH]; intros s.
  - repeat split; reflexivity.
  - change (Recorder.run (e :: events) s) with (Recorder.run events (Recorder.step s e)).
    destruct (step_view s e) as (Hst & Her & Hd & Ht & Hh).
    destruct (IH (Recorder.step s e)) as (Ht' & Hh' & Hd' & Hst' & Her').
    repeat split.
    + etrans; eassumption.
    + etrans; eassumption.
    + lia.
    + congruence.
    + congruence.
Qed.

(** ** The capture session: the clock *)

(** The refs [cleanup] leaves behind. *)
Lemma cleanup_refs (s : Recorder.St) :
  Recorder.refs (Recorder.cleanup s)
  = {| Recorder.streamRef := Recorder.streamRef (Recorder.refs s);
       Recorder.mediaRecorderRef := Recorder.mediaRecorderRef (Recorder.refs s);
       Recorder.chunksRef := Recorder.chunksRef (Recorder.refs s);
       Recorder.intervalRef :=
         match Recorder.intervalRef (Recorder.refs s) with
         | Some _ => Some Recorder.cleared
         | None => None
         end;
       Recorder.audioContextRef :=
         match Recorder.audioContextRef (Recorder.refs s) with
         | Some ctx =>
             Some {| Recorder.ac_sources := Recorder.ac_sources ctx;
                     Recorder.ac_closed := true |}
         | None => None
         end;
       Recorder.recognitionRef :=
         match Recorder.recognitionRef (Recorder.refs s) with
         | Some r =>
             Some {| Recorder.sr_started := false;
                     Recorder.sr_scope := Recorder.sr_scope r |}
         | None => None
         end |}.
Proof.
  destruct s as [w [sr mr ch iv ac rc] oe tr].
  unfold Recorder.cleanup.
  destruct iv, sr, ac, rc; cbn; rewrite ?stopTracks_eq; reflexivity.
Qed.

Lemma handleStopRecording_interval (s : Recorder.St) :
  Recorder.intervalRef (Recorder.refs (Recorder.handleStopRecording s))
  = match Recorder.intervalRef (Recorder.refs s) with
    | Some _ => Some Recorder.cleared
    | None => None
    end.
Proof.
  unfold Recorder.handleStopRecording. rewrite cleanup_refs. cbn.
  destruct (Recorder.mediaRecorderRef _) as [mr|]; [|reflexivity].
  destruct (decide _); reflexivity.
Qed.

(** An event other than a teardown leaves the timer as it is. *)
Lemma step_interval (s : Recorder.St) (e : Recorder.Event) :
  isTeardown e = false →
  Recorder.intervalRef (Recorder.refs (Recorder.step s e))
  = Recorder.intervalRef (Recorder.refs s).
Proof.
  intros He. destruct e; try discriminate; cbn [Recorder.step].
  - destruct (Recorder.intervalRef (Recorder.refs s)) as [[|]|] eqn:Hi;
      cbn; rewrite ?Hi; reflexivity.
  - destruct (Recorder.recognitionRef _) as [r|]; [|reflexivity].
    destruct (Recorder.sr_started r); [|reflexivity].
    unfold Recorder.onresult. destruct (Js.truthy _); reflexivity.
  - destruct (Recorder.recognitionRef _) as [r|]; [|reflexivity].
    destruct (Recorder.sr_started r); [|reflexivity].
    unfold Recorder.onend. destruct (decide _); reflexivity.
  - destruct (Recorder.mediaRecorderRef _); [|reflexivity].
    unfold Recorder.ondataavailable. destruct (_ <? _)%nat; reflexivity.
  - reflexivity.
  - destruct (Recorder.mediaRecorderRef _) as [mr|]; [|reflexivity].
    destruct (Recorder.mr_stopQueued mr); [|reflexivity].
    unfold Recorder.onstop. cbn. destruct (Recorder.recognitionRef _); reflexivity.
Qed.

(** Once the timer is not ticking it never ticks again, and the clock
    stands. *)
Lemma step_clock_stopped (s : Recorder.St) (e : Recorder.Event) :
  Recorder.intervalRef (Recorder.refs s) ≠ Some Recorder.ticking →
  Recorder.intervalRef (Recorder.refs (Recorder.step s e)) ≠ Some Recorder.ticking
  ∧ Recorder.duration (Recorder.view (Recorder.step s e))
    = Recorder.duration (Recorder.view s).
Proof.
  intros Hi. split.
  - destruct (isTeardown e) eqn:He; [|now rewrite step_interval].
    destruct e; try discriminate; cbn [Recorder.step].
    + rewrite handleStopRecording_interval. now destruct (Recorder.intervalRef _).
    + destruct (Recorder.onended s); [|exact Hi].
      rewrite handleStopRecording_interval. now destruct (Recorder.intervalRef _).
    + rewrite cleanup_refs. cbn. now destruct (Recorder.intervalRef _).
  - destruct e; cbn [Recorder.step].
    + destruct (Recorder.intervalRef (Recorder.refs s)) as [[|]|];
        [congruence | reflexivity..].
    + destruct (Recorder.recognitionRef _) as [r|]; [|reflexivity].
      destruct (Recorder.sr_started r); [|reflexivity].
      unfold Recorder.onresult. destruct (Js.truthy _); reflexivity.
    + destruct (Recorder.recognitionRef _) as [r|]; [|reflexivity].
      destruct (Recorder.sr_started r); [|reflexivity].
      unfold Recorder.onend. destruct (decide _); reflexivity.
    + destruct (Recorder.mediaRecorderRef _); [|reflexivity].
      unfold Recorder.ondataavailable. destruct (_ <? _)%nat; reflexivity.
    + reflexivity.
    + destruct (handleStopRecording_first_render s) as (_ & -> & _). reflexivity.
    + destruct (Recorder.onended s); [|reflexivity].
      destruct (handleStopRecording_first_render s) as (_ & -> & _). reflexivity.
    + destruct (Recorder.mediaRecorderRef _) as [mr|]; [|reflexivity].
      destruct (Recorder.mr_stopQueued mr); [|reflexivity].
      unfold Recorder.onstop. cbn. destruct (Recorder.recognitionRef _); reflexivity.
    + destruct (cleanup_eq s) as (-> & _). reflexivity.
Qed.

Lemma run_clock_stopped (events : list Recorder.Event) (s : Recorder.St) :
  Recorder.intervalRef (Recorder.refs s) ≠ Some Recorder.ticking →
  Recorder.duration (Recorder.view (Recorder.run events s))
  = Recorder.duration (Recorder.view s).
Proof.
  revert s. induction events as [|e events IH]; intros s Hi; [reflexivity|].
  change (Recorder.run (e :: events) s) with (Recorder.run events (Recorder.step s e)).
  destruct (step_clock_stopped s e Hi) as [Hi' Hd]. rewrite IH by exact Hi'. exact Hd.
Qed.

Lemma teardown_clears_timer (events : list Recorder.Event) (s : Recorder.St) :
  Recorder.duration (Recorder.view (Recorder.run events (Recorder.handleStopRecording s)))
  = Recorder.duration (Recorder.view s)
  ∧ Recorder.duration (Recorder.view (Recorder.run events (Recorder.cleanup s)))
    = Recorder.duration (Recorder.view s).
Proof.
  split.
  - rewrite run_clock_stopped.
    + destruct (handleStopRecording_first_render s) as (_ & -> & _). reflexivity.
    + rewrite handleStopRecording_interval. now destruct (Recorder.intervalRef _).
  - rewrite run_clock_stopped.
    + destruct (cleanup_eq s) as (-> & _). reflexivity.
    + rewrite cleanup_refs. cbn. now destruct (Recorder.intervalRef _).
Qed.

(** X2: once [startCapture] has run to its end (the session started, or the
    start failed), teardown stops the clock for good.  Whatever events
    [pre] came after the start, after [handleStopRecording] (the operator's
    stop or the revoked display) or after [cleanup] (the unmount) no later
    event, late timer ticks included, changes [duration].  A teardown that
    comes while [startCapture] still waits for a prompt is not covered: the
    start sets the timer after it. *)
Theorem clock_stands_after_teardown
    (meeting : Meeting) (pf : Recorder.Platform) (pre events : list Recorder.Event) :
  Recorder.duration
    (Recorder.view
       (Recorder.run events
          (Recorder.handleStopRecording (Recorder.run pre (Recorder.mount meeting pf)))))
  = Recorder.duration (Recorder.view (Recorder.run pre (Recorder.mount meeting pf)))
  ∧ Recorder.duration
      (Recorder.view
         (Recorder.run events
            (Recorder.cleanup (Recorder.run pre (Recorder.mount meeting pf)))))
    = Recorder.duration (Recorder.view (Recorder.run pre (Recorder.mount meeting pf))).
Proof.
  apply (teardown_clears_timer events (Recorder.run pre (Recorder.mount meeting pf))).
Qed.

Lemma run_counts_ticks (events : list Recorder.Event) (s : Recorder.St) :
  Recorder.intervalRef (Recorder.refs s) = Some Recorder.ticking →
  forallb (fun e => negb (isTeardown e)) events = true →
  Recorder.duration (Recorder.view (Recorder.run events s))
  = (Recorder.duration (Recorder.view s) + ticksOf events)%nat.
Proof.
  revert s. induction events as [|e events IH]; intros s Hi Hev.
  - cbn. unfold ticksOf. cbn. lia.
  - cbn in Hev. apply andb_prop in Hev as [He Hev]. apply negb_true_iff in He.
    change (Recorder.run (e :: events) s) with (Recorder.run events (Recorder.step s e)).
    rewrite IH; [|now rewrite step_interval|exact Hev].
    unfold ticksOf. destruct e; try discriminate; cbn [Recorder.step List.filter length].
    + rewrite Hi. cbn. lia.
    + destruct (Recorder.recognitionRef _) as [r|]; [|reflexivity].
      destruct (Recorder.sr_started r); [|reflexivity].
      unfold Recorder.onresult. destruct (Js.truthy _); reflexivity.
    + destruct (Recorder.recognitionRef _) as [r|]; [|reflexivity].
      destruct (Recorder.sr_started r); [|reflexivity].
      unfold Recorder.onend. destruct (decide _); reflexivity.
    + destruct (Recorder.mediaRecorderRef _); [|reflexivity].
      unfold Recorder.ondataavailable. destruct (_ <? _)%nat; reflexivity.
    + reflexivity.
    + destruct (Recorder.mediaRecorderRef _) as [mr|]; [|reflexivity].
      destruct (Recorder.mr_stopQueued mr); [|reflexivity].
      unfold Recorder.onstop. cbn. destruct (Recorder.recognitionRef _); reflexivity.
Qed.

Lemma mount_started (meeting : Meeting) (pf : Recorder.Platform) :
  Recorder.status (Recorder.view (Recorder.mount meeting pf)) = Recorder.RECORDING →
  Recorder.intervalRef (Recorder.refs (Recorder.mount meeting pf)) = Some Recorder.ticking
  ∧ Recorder.duration (Recorder.view (Recorder.mount meeting pf)) = 0
  ∧ Recorder.chunksRef (Recorder.refs (Recorder.mount meeting pf)) = []
  ∧ Recorder.error (Recorder.view (Recorder.mount meeting pf)) = None.
Proof.
  unfold Recorder.mount, Recorder.startCapture, Recorder.startCapture_catch,
    Recorder.initSpeechRecognition.
  destruct (Recorder.getDisplayMedia pf) as [ds|e1]; cbn.
  2: { destruct (String.eqb _ _); discriminate. }
  destruct (Recorder.getUserMedia pf) as [ms|e2]; cbn.
  2: { destruct (String.eqb _ _); discriminate. }
  destruct (Recorder.getVideoTracks ds) as [|t0 vs]; cbn.
  { destruct (Recorder.webkitSpeechRecognition pf); discriminate. }
  destruct (Recorder.mimeTypeSupported pf); cbn.
  2: { destruct (Recorder.webkitSpeechRecognition pf); discriminate. }
  intros _. destruct (Recorder.webkitSpeechRecognition pf); cbn; auto.
Qed.

(** X3: in a session that started, as long as no stop trigger and no unmount
    occurred, the clock reads the number of timer ticks so far, whatever
    else happened in between. *)
Theorem clock_counts_ticks
    (meeting : Meeting) (pf : Recorder.Platform) (events : list Recorder.Event) :
  Recorder.status (Recorder.view (Recorder.mount meeting pf)) = Recorder.RECORDING →
  forallb (fun e => negb (isTeardown e)) events = true →
  Recorder.duration (Recorder.view (Recorder.run events (Recorder.mount meeting pf)))
  = ticksOf events.
Proof.
  intros Hstart Hev. destruct (mount_started meeting pf Hstart) as (Hi & Hd & _).
  rewrite run_counts_ticks by assumption. rewrite Hd. reflexivity.
Qed.

Lemma clock_counts_ticks_witness :
  Recorder.duration
    (Recorder.view
       (Recorder.run
          [Recorder.Tick; Recorder.SpeechResults [Sample.hello]; Recorder.Tick;
           Recorder.ClickHighlight; Recorder.SpeechEnd; Recorder.Tick]
          (Recorder.mount Sample.meeting Sample.granted)))
  = 3.
Proof.
  apply (clock_counts_ticks Sample.meeting Sample.granted
           [Recorder.Tick; Recorder.SpeechResults [Sample.hello]; Recorder.Tick;
            Recorder.ClickHighlight; Recorder.SpeechEnd; Recorder.Tick]);
    reflexivity.
Defined.

(** ** The capture session: the artifact *)

Lemma sameRecorder_handoffs (s s' : Recorder.St) :
  sameRecorder s s' → Recorder.handoffs s' = Recorder.handoffs s.
Proof.
  intros (_ & _ & l & Ht & Hl). unfold Recorder.handoffs. rewrite Ht.
  apply (silent_counts (Recorder.trace s) l Hl).
Qed.

(** Once the artifact is delivered nothing touches the recorder again. *)
Lemma step_delivered (s : Recorder.St) (e : Recorder.Event) :
  inPhase Delivered s → sameRecorder s (Recorder.step s e).
Proof.
  intros (Hp & _). unfold phaseOf in Hp.
  destruct (Recorder.mediaRecorderRef (Recorder.refs s)) as [mr|] eqn:Hmr;
    [|discriminate].
  destruct (Recorder.mr_state mr) eqn:Hst, (Recorder.mr_stopQueued mr) eqn:Hq;
    try discriminate.
  destruct e; try (apply step_sameRecorder; [reflexivity | discriminate]);
    cbn [Recorder.step]; unfold Recorder.handleStopRecording; rewrite ?Hmr, ?Hst, ?Hq.
  - destruct (decide _) as [Hne|_]; [congruence | apply sameRecorder_cleanup].
  - destruct (Recorder.onended s); [|apply sameRecorder_refl].
    destruct (decide _) as [Hne|_]; [congruence | apply sameRecorder_cleanup].
  - apply sameRecorder_refl.
Qed.

Lemma run_delivered (events : list Recorder.Event) (s : Recorder.St) :
  inPhase Delivered s → Recorder.handoffs (Recorder.run events s) = Recorder.handoffs s.
Proof.
  revert s. induction events as [|e events IH]; intros s Hin; [reflexivity|].
  change (Recorder.run (e :: events) s) with (Recorder.run events (Recorder.step s e)).
  rewrite IH.
  - apply sameRecorder_handoffs, step_delivered, Hin.
  - eapply sameRecorder_inPhase; [apply step_delivered|]; exact Hin.
Qed.

(** The dispatch of a queued [stop] event hands over the chunks held at that
    moment, under both roles. *)
Lemma stopEvent_handoff (s : Recorder.St) (mr : Recorder.MediaRecorder) :
  Recorder.mediaRecorderRef (Recorder.refs s) = Some mr →
  Recorder.mr_stopQueued mr = true →
  Recorder.handoffs (Recorder.step s Recorder.StopEvent)
  = (Recorder.handoffs s
     ++ [ (new_Blob (Recorder.chunksRef (Recorder.refs s)),
           Some (new_Blob (Recorder.chunksRef (Recorder.refs s))),
           Recorder.transcript (Recorder.mr_scope mr),
           Recorder.highlights (Recorder.mr_scope mr)) ])%list.
Proof.
  intros Hmr Hq. cbn [Recorder.step]. rewrite Hmr, Hq.
  unfold Recorder.onstop, Recorder.handoffs. cbn.
  destruct (Recorder.recognitionRef (Recorder.refs s)); cbn;
    rewrite ?flat_map_app; cbn; rewrite ?app_nil_r; reflexivity.
Qed.

(** While the recorder exists, the chunks held are those delivered. *)
Lemma step_chunks (s : Recorder.St) (e : Recorder.Event) :
  is_Some (Recorder.mediaRecorderRef (Recorder.refs s)) →
  Recorder.chunksRef (Recorder.refs (Recorder.step s e))
  = (Recorder.chunksRef (Recorder.refs s) ++ chunksOf [e])%list.
Proof.
  intros [mr Hmr]. unfold chunksOf.
  destruct e; cbn [Recorder.step flat_map]; rewrite ?app_nil_r.
  - destruct (Recorder.intervalRef (Recorder.refs s)) as [[|]|]; reflexivity.
  - destruct (Recorder.recognitionRef _) as [r|]; [|reflexivity].
    destruct (Recorder.sr_started r); [|reflexivity].
    unfold Recorder.onresult. destruct (Js.truthy _); reflexivity.
  - destruct (Recorder.recognitionRef _) as [r|]; [|reflexivity].
    destruct (Recorder.sr_started r); [|reflexivity].
    unfold Recorder.onend. destruct (decide _); reflexivity.
  - rewrite Hmr. unfold Recorder.ondataavailable.
    destruct (_ <? _)%nat; cbn; rewrite ?app_nil_r; reflexivity.
  - reflexivity.
  - unfold Recorder.handleStopRecording. rewrite cleanup_refs. cbn. rewrite Hmr.
    destruct (decide _); reflexivity.
  - destruct (Recorder.onended s); [|reflexivity].
    unfold Recorder.handleStopRecording. rewrite cleanup_refs. cbn. rewrite Hmr.
    destruct (decide _); reflexivity.
  - rewrite Hmr. destruct (Recorder.mr_stopQueued mr); [|reflexivity].
    unfold Recorder.onstop. cbn. destruct (Recorder.recognitionRef _); reflexivity.
  - rewrite cleanup_refs. reflexivity.
Qed.

Lemma inPhase_recorder (p : Phase) (s : Recorder.St) :
  inPhase p s → is_Some (Recorder.mediaRecorderRef (Recorder.refs s)).
Proof.
  intros (Hp & _). unfold phaseOf in Hp.
  destruct (Recorder.mediaRecorderRef _); [eauto | discriminate].
Qed.

Lemma run_chunks (events : list Recorder.Event) (p : Phase) (s : Recorder.St) :
  inPhase p s →
  Recorder.chunksRef (Recorder.refs (Recorder.run events s))
  = (Recorder.chunksRef (Recorder.refs s) ++ chunksOf events)%list.
Proof.
  revert p s. induction events as [|e events IH]; intros p s Hin.
  - cbn. rewrite app_nil_r. reflexivity.
  - change (Recorder.run (e :: events) s) with (Recorder.run events (Recorder.step s e)).
    rewrite (IH _ _ (step_inPhase p s e Hin)).
    rewrite step_chunks by (eapply inPhase_recorder, Hin).
    rewrite <- app_assoc. f_equal.
    unfold chunksOf. cbn [flat_map]. rewrite app_nil_r. reflexivity.
Qed.

Lemma advance_no_dispatch (events : list Recorder.Event) :
  existsb isStopEvent events = false → fold_left advance events Stopping = Stopping.
Proof.
  induction events as [|e events IH]; [reflexivity|].
  cbn. intros He. apply orb_false_elim in He as [He Hev].
  destruct e; try discriminate; cbn; auto.
Qed.

Lemma advance_until_dispatch (events : list Recorder.Event) :
  existsb isStopTrigger events = true →
  existsb isStopEvent events = false →
  fold_left advance events Recording = Stopping.
Proof.
  induction events as [|e events IH]; [discriminate|].
  cbn. intros Htr He. apply orb_false_elim in He as [He Hev].
  destruct e; try discriminate; cbn in *; auto using advance_no_dispatch.
Qed.

(** X4: the artifact.  In a session that started, when a stop trigger is
    followed by the dispatch of the recorder's [stop] event, the one handoff
    made carries, under the audio+video role and under the video role alike,
    the concatenation in order of the non-empty chunks the encoder delivered
    before the dispatch, those flushed between the stop and the dispatch
    included; chunks that arrive later are not in it. *)
Theorem artifact_is_the_chunks_before_dispatch
    (meeting : Meeting) (pf : Recorder.Platform) (pre post : list Recorder.Event) :
  Recorder.status (Recorder.view (Recorder.mount meeting pf)) = Recorder.RECORDING →
  existsb isStopTrigger pre = true →
  existsb isStopEvent pre = false →
  Recorder.handoffs
    (Recorder.run (pre ++ Recorder.StopEvent :: post) (Recorder.mount meeting pf))
  = [ (new_Blob (chunksOf pre), Some (new_Blob (chunksOf pre)), [], []) ].
Proof.
  intros Hstart Htr Hno.
  pose proof (handlers_belong_to_first_render meeting pf
                (pre ++ Recorder.StopEvent :: post)) as (_ & Hstale & _).
  revert Hstale.
  unfold Recorder.run at 1 2. rewrite fold_left_app. cbn [fold_left].
  fold (Recorder.run pre (Recorder.mount meeting pf)).
  set (s1 := Recorder.run pre (Recorder.mount meeting pf)).
  fold (Recorder.run post (Recorder.step s1 Recorder.StopEvent)).
  pose proof (run_inPhase pre _ _ (mount_inPhase meeting pf Hstart)) as Hin.
  rewrite advance_until_dispatch in Hin by assumption. fold s1 in Hin.
  rewrite run_delivered by (apply (stopEvent_inPhase Stopping), Hin).
  pose proof Hin as (Hp & _ & _ & Hlen). unfold phaseOf in Hp.
  destruct (Recorder.mediaRecorderRef (Recorder.refs s1)) as [mr|] eqn:Hmr;
    [|discriminate].
  assert (Recorder.mr_stopQueued mr = true) as Hq
    by (destruct (Recorder.mr_state mr), (Recorder.mr_stopQueued mr); congruence).
  rewrite (stopEvent_handoff s1 mr Hmr Hq).
  destruct (Recorder.handoffs s1); [|discriminate]. cbn [app].
  subst s1. rewrite (run_chunks pre _ _ (mount_inPhase meeting pf Hstart)).
  destruct (mount_started meeting pf Hstart) as (_ & _ & -> & _). cbn [app].
  intros Hstale. inversion Hstale as [|? ? [Ht Hh] _]. cbn in Ht, Hh.
  rewrite Ht, Hh. reflexivity.
Qed.

Lemma artifact_is_the_chunks_before_dispatch_witness :
  Recorder.handoffs
    (Recorder.run
       ([Recorder.DataAvailable Sample.chunk; Recorder.ClickStop;
         Recorder.DataAvailable [Byte.x01]; Recorder.DataAvailable []]
        ++ Recorder.StopEvent :: [Recorder.DataAvailable [Byte.x02]; Recorder.Unmount])
       (Recorder.mount Sample.meeting Sample.granted))
  = [ ((Sample.chunk ++ [Byte.x01])%list, Some (Sample.chunk ++ [Byte.x01])%list, [], []) ].
Proof.
  apply (artifact_is_the_chunks_before_dispatch Sample.meeting Sample.granted
           [Recorder.DataAvailable Sample.chunk; Recorder.ClickStop;
            Recorder.DataAvailable [Byte.x01]; Recorder.DataAvailable []]
           [Recorder.DataAvailable [Byte.x02]; Recorder.Unmount]);
    reflexivity.
Defined.

(** ** The capture session: the start *)

Lemma start_status (meeting : Meeting) (pf : Recorder.Platform) :
  Recorder.status (Recorder.view (Recorder.mount meeting pf))
  = if startable pf then Recorder.RECORDING else Recorder.IDLE.
Proof.
  unfold startable, Recorder.mount, Recorder.startCapture,
    Recorder.startCapture_catch, Recorder.initSpeechRecognition.
  destruct (Recorder.getDisplayMedia pf) as [ds|e1]; cbn.
  2: { destruct (String.eqb _ _); reflexivity. }
  destruct (Recorder.getUserMedia pf) as [ms|e2]; cbn.
  2: { destruct (String.eqb _ _); reflexivity. }
  destruct (Recorder.getVideoTracks ds) as [|t0 vs],
    (Recorder.webkitSpeechRecognition pf), (Recorder.mimeTypeSupported pf); reflexivity.
Qed.

(** X5: how [startCapture] ends.  When both streams are granted, the display
    stream has a video track and the container is supported, the session
    records: no error, a recording recorder, a ticking timer, no [onCancel].
    In every other case the component stays [IDLE] with the error message,
    without recorder and without timer, and [onCancel] is called exactly
    when the failing prompt rejected with [NotAllowedError]: any other
    failure leaves the component on screen with its message.  Whether speech
    recognition exists plays no part. *)
Theorem start_outcome (meeting : Meeting) (pf : Recorder.Platform) :
  (startable pf = true →
     Recorder.status (Recorder.view (Recorder.mount meeting pf)) = Recorder.RECORDING
     ∧ Recorder.error (Recorder.view (Recorder.mount meeting pf)) = None
     ∧ option_map Recorder.mr_state
         (Recorder.mediaRecorderRef (Recorder.refs (Recorder.mount meeting pf)))
       = Some Recorder.recording
     ∧ Recorder.intervalRef (Recorder.refs (Recorder.mount meeting pf))
       = Some Recorder.ticking
     ∧ Recorder.cancels (Recorder.mount meeting pf) = 0)
  ∧ (startable pf = false →
       Recorder.status (Recorder.view (Recorder.mount meeting pf)) = Recorder.IDLE
       ∧ Recorder.error (Recorder.view (Recorder.mount meeting pf))
         = Some "Failed to access screen or microphone. Please allow permissions."
       ∧ Recorder.mediaRecorderRef (Recorder.refs (Recorder.mount meeting pf)) = None
       ∧ Recorder.intervalRef (Recorder.refs (Recorder.mount meeting pf)) = None
       ∧ Recorder.cancels (Recorder.mount meeting pf) = if refused pf then 1 else 0).
Proof.
  unfold startable, refused, Recorder.mount, Recorder.startCapture,
    Recorder.startCapture_catch, Recorder.initSpeechRecognition, Recorder.cancels.
  destruct (Recorder.getDisplayMedia pf) as [ds|e1]; cbn.
  2: { split; [discriminate|]. intros _.
       destruct (String.eqb _ _); cbn; repeat split; reflexivity. }
  destruct (Recorder.getUserMedia pf) as [ms|e2]; cbn.
  2: { split; [discriminate|]. intros _.
       destruct (String.eqb _ _); cbn; repeat split; reflexivity. }
  destruct (Recorder.getVideoTracks ds) as [|t0 vs]; cbn.
  { split; [discriminate|]. intros _.
    destruct (Recorder.webkitSpeechRecognition pf); cbn; repeat split; reflexivity. }
  destruct (Recorder.mimeTypeSupported pf); cbn;
    (split; [intros H | intros H]; try discriminate H);
    destruct (Recorder.webkitSpeechRecognition pf); cbn; repeat split; reflexivity.
Qed.

Lemma start_outcome_witness :
  Recorder.status (Recorder.view (Recorder.mount Sample.meeting Sample.granted))
  = Recorder.RECORDING
  ∧ Recorder.cancels
      (Recorder.mount Sample.meeting
         {| Recorder.getDisplayMedia := Js.Returned [Sample.displayVideo];
            Recorder.getUserMedia := Js.Returned [Sample.micAudio];
            Recorder.webkitSpeechRecognition := true;
            Recorder.mimeTypeSupported := false |})
    = 0.
Proof.
  split.
  - apply (proj1 (start_outcome Sample.meeting Sample.granted)). reflexivity.
  - apply (proj2 (start_outcome Sample.meeting
                    {| Recorder.getDisplayMedia := Js.Returned [Sample.displayVideo];
                       Recorder.getUserMedia := Js.Returned [Sample.micAudio];
                       Recorder.webkitSpeechRecognition := true;
                       Recorder.mimeTypeSupported := false |})).
    reflexivity.
Defined.

(** After a refused prompt nothing is held by the refs that [cleanup] reads,
    so no event makes an effect. *)
Lemma step_nothing_held (s : Recorder.St) (e : Recorder.Event) :
  Recorder.streamRef (Recorder.refs s) = None →
  Recorder.mediaRecorderRef (Recorder.refs s) = None →
  Recorder.recognitionRef (Recorder.refs s) = None →
  Recorder.streamRef (Recorder.refs (Recorder.step s e)) = None
  ∧ Recorder.mediaRecorderRef (Recorder.refs (Recorder.step s e)) = None
  ∧ Recorder.recognitionRef (Recorder.refs (Recorder.step s e)) = None
  ∧ Recorder.trace (Recorder.step s e) = Recorder.trace s.
Proof.
  destruct s as [w [sr mr ch iv ac rc] oe tr]. cbn. intros -> -> ->.
  destruct e; cbn; auto.
  - destruct iv as [[|]|]; cbn; auto.
  - unfold Recorder.handleStopRecording, Recorder.cleanup. cbn.
    destruct iv, ac; cbn; auto.
  - destruct oe; cbn; auto.
    unfold Recorder.handleStopRecording, Recorder.cleanup. cbn.
    destruct iv, ac; cbn; auto.
  - unfold Recorder.cleanup. cbn. destruct iv, ac; cbn; auto.
Qed.

Lemma run_nothing_held (events : list Recorder.Event) (s : Recorder.St) :
  Recorder.streamRef (Recorder.refs s) = None →
  Recorder.mediaRecorderRef (Recorder.refs s) = None →
  Recorder.recognitionRef (Recorder.refs s) = None →
  Recorder.trace (Recorder.run events s) = Recorder.trace s.
Proof.
  revert s. induction events as [|e events IH]; intros s H1 H2 H3; [reflexivity|].
  change (Recorder.run (e :: events) s) with (Recorder.run events (Recorder.step s e)).
  destruct (step_nothing_held s e H1 H2 H3) as (H1' & H2' & H3' & Ht).
  rewrite IH by assumption. exact Ht.
Qed.

(** X6: the [catch] block of [startCapture] releases nothing.  Right after a
    start that failed, at whatever step, no track was stopped, the audio
    graph (if it was built) is still open and the recogniser (if it was
    made) is still started.  And when the failing step was one of the two
    prompts, nothing is released later either: whatever events follow, the
    unmount included, no track is ever stopped. *)
Theorem failed_start_releases_nothing (meeting : Meeting) (pf : Recorder.Platform) :
  startable pf = false →
  trackStops (Recorder.mount meeting pf) = 0
  ∧ (∀ ctx, Recorder.audioContextRef (Recorder.refs (Recorder.mount meeting pf))
            = Some ctx → Recorder.ac_closed ctx = false)
  ∧ (∀ r, Recorder.recognitionRef (Recorder.refs (Recorder.mount meeting pf))
          = Some r → Recorder.sr_started r = true)
  ∧ (¬ (resolved (Recorder.getDisplayMedia pf) ∧ resolved (Recorder.getUserMedia pf)) →
     ∀ events, trackStops (Recorder.run events (Recorder.mount meeting pf)) = 0).
Proof.
  intros Hst.
  assert (Hnow : trackStops (Recorder.mount meeting pf) = 0
    ∧ (∀ ctx, Recorder.audioContextRef (Recorder.refs (Recorder.mount meeting pf))
              = Some ctx → Recorder.ac_closed ctx = false)
    ∧ (∀ r, Recorder.recognitionRef (Recorder.refs (Recorder.mount meeting pf))
            = Some r → Recorder.sr_started r = true)).
  { revert Hst.
    unfold startable, trackStops, Recorder.mount, Recorder.startCapture,
      Recorder.startCapture_catch, Recorder.initSpeechRecognition.
    destruct (Recorder.getDisplayMedia pf) as [ds|e1]; cbn.
    2: { intros _. destruct (String.eqb _ _); cbn; repeat split; discriminate. }
    destruct (Recorder.getUserMedia pf) as [ms|e2]; cbn.
    2: { intros _. destruct (String.eqb _ _); cbn; repeat split; discriminate. }
    destruct (Recorder.getVideoTracks ds) as [|t0 vs]; cbn.
    { intros _. destruct (Recorder.webkitSpeechRecognition pf); cbn;
        repeat split; intros ? [= <-]; reflexivity. }
    destruct (Recorder.mimeTypeSupported pf); [discriminate|]. intros _.
    destruct (Recorder.webkitSpeechRecognition pf); cbn;
      repeat split; intros ? [= <-]; reflexivity. }
  destruct Hnow as (H1 & H2 & H3). repeat split; try assumption.
  intros Hprompt events. unfold trackStops in *.
  rewrite run_nothing_held; [exact H1 | | |];
    unfold Recorder.mount, Recorder.startCapture, Recorder.startCapture_catch, resolved in *;
    destruct (Recorder.getDisplayMedia pf) as [ds|e1];
    try (cbn; destruct (String.eqb _ _); reflexivity);
    destruct (Recorder.getUserMedia pf) as [ms|e2];
    try (cbn; destruct (String.eqb _ _); reflexivity);
    exfalso; apply Hprompt; split; exact I.
Qed.

Lemma failed_start_releases_nothing_witness :
  trackStops
    (Recorder.mount Sample.meeting
       {| Recorder.getDisplayMedia := Js.Returned [Sample.displayVideo; Sample.displayAudio];
          Recorder.getUserMedia := Js.Returned [Sample.micAudio];
          Recorder.webkitSpeechRecognition := true;
          Recorder.mimeTypeSupported := false |})
  = 0
  ∧ trackStops
      (Recorder.run [Recorder.Tick; Recorder.ClickStop; Recorder.Unmount]
         (Recorder.mount Sample.meeting Sample.micDenied))
    = 0.
Proof.
  split.
  - apply (failed_start_releases_nothing Sample.meeting
             {| Recorder.getDisplayMedia :=
                  Js.Returned [Sample.displayVideo; Sample.displayAudio];
                Recorder.getUserMedia := Js.Returned [Sample.micAudio];
                Recorder.webkitSpeechRecognition := true;
                Recorder.mimeTypeSupported := false |}).
    reflexivity.
  - apply (proj2 (proj2 (proj2
             (failed_start_releases_nothing Sample.meeting Sample.micDenied eq_refl)))).
    intros [_ []].
Defined.

Lemma getAudioTracks_mixed (displayStream : Recorder.MediaStream) :
  Recorder.getAudioTracks
    (Recorder.getVideoTracks displayStream ++ [Recorder.destinationTrack])%list
  = [Recorder.destinationTrack].
Proof.
  unfold Recorder.getAudioTracks, Recorder.getVideoTracks, Recorder.MediaStream in *.
  rewrite filter_app.
  replace (filter (fun t => Recorder.kind t = Recorder.audio)
             (filter (fun t => Recorder.kind t = Recorder.video) displayStream))
    with (@nil Recorder.Track); [reflexivity|].
  symmetry. induction displayStream as [|t ds IH]; [reflexivity|].
  rewrite filter_cons. destruct (decide _) as [Hv|]; [|exact IH].
  rewrite filter_cons. destruct (decide _) as [Ha|]; [congruence | exact IH].
Qed.

(** X7: what is recorded and what is mixed.  In a session that started, the
    recorded stream (the one [cleanup] will stop) is the video tracks of the
    display stream followed by the one track of the destination node, so its
    only audio track is the mixed one; and the audio graph is fed by those of
    the display stream and the microphone stream, in this order, that have
    an audio track: a stream without audio is skipped, not an error. *)
Theorem recorded_stream_and_mix (meeting : Meeting) (pf : Recorder.Platform) :
  Recorder.status (Recorder.view (Recorder.mount meeting pf)) = Recorder.RECORDING →
  ∃ displayStream micStream,
    Recorder.getDisplayMedia pf = Js.Returned displayStream
    ∧ Recorder.getUserMedia pf = Js.Returned micStream
    ∧ Recorder.streamRef (Recorder.refs (Recorder.mount meeting pf))
      = Some (Recorder.getVideoTracks displayStream ++ [Recorder.destinationTrack])%list
    ∧ option_map Recorder.mr_stream
        (Recorder.mediaRecorderRef (Recorder.refs (Recorder.mount meeting pf)))
      = Recorder.streamRef (Recorder.refs (Recorder.mount meeting pf))
    ∧ option_map Recorder.getAudioTracks
        (Recorder.streamRef (Recorder.refs (Recorder.mount meeting pf)))
      = Some [Recorder.destinationTrack]
    ∧ option_map Recorder.ac_sources
        (Recorder.audioContextRef (Recorder.refs (Recorder.mount meeting pf)))
      = Some (List.filter
                (fun stream => negb (Nat.eqb (length (Recorder.getAudioTracks stream)) 0))
                [displayStream; micStream]).
Proof.
  unfold Recorder.mount, Recorder.startCapture, Recorder.startCapture_catch,
    Recorder.initSpeechRecognition.
  destruct (Recorder.getDisplayMedia pf) as [ds|e1]; cbn.
  2: { destruct (String.eqb _ _); discriminate. }
  destruct (Recorder.getUserMedia pf) as [ms|e2]; cbn.
  2: { destruct (String.eqb _ _); discriminate. }
  destruct (Recorder.getVideoTracks ds) as [|t0 vs] eqn:Hv; cbn.
  { destruct (Recorder.webkitSpeechRecognition pf); discriminate. }
  destruct (Recorder.mimeTypeSupported pf); cbn.
  2: { destruct (Recorder.webkitSpeechRecognition pf); discriminate. }
  intros _. exists ds, ms. rewrite Hv.
  pose proof (getAudioTracks_mixed ds) as Hmix. rewrite Hv in Hmix. cbn in Hmix.
  destruct (Recorder.webkitSpeechRecognition pf); cbn; rewrite Hmix;
    destruct (length (Recorder.getAudioTracks ds)), (length (Recorder.getAudioTracks ms));
    cbn; repeat split; reflexivity.
Qed.

Lemma recorded_stream_and_mix_witness :
  ∃ displayStream micStream,
    Recorder.getDisplayMedia Sample.granted = Js.Returned displayStream
    ∧ Recorder.getUserMedia Sample.granted = Js.Returned micStream
    ∧ Recorder.streamRef (Recorder.refs (Recorder.mount Sample.meeting Sample.granted))
      = Some (Recorder.getVideoTracks displayStream ++ [Recorder.destinationTrack])%list
    ∧ option_map Recorder.mr_stream
        (Recorder.mediaRecorderRef
           (Recorder.refs (Recorder.mount Sample.meeting Sample.granted)))
      = Recorder.streamRef (Recorder.refs (Recorder.mount Sample.meeting Sample.granted))
    ∧ option_map Recorder.getAudioTracks
        (Recorder.streamRef (Recorder.refs (Recorder.mount Sample.meeting Sample.granted)))
      = Some [Recorder.destinationTrack]
    ∧ option_map Recorder.ac_sources
        (Recorder.audioContextRef
           (Recorder.refs (Recorder.mount Sample.meeting Sample.granted)))
      = Some (List.filter
                (fun stream => negb (Nat.eqb (length (Recorder.getAudioTracks stream)) 0))
                [displayStream; micStream]).
Proof.
  apply (recorded_stream_and_mix Sample.meeting Sample.granted). reflexivity.
Defined.

(** ** The capture session: transcript and highlights *)

Lemma step_without_recognition (s : Recorder.St) (e : Recorder.Event) :
  Recorder.recognitionRef (Recorder.refs s) = None →
  Recorder.recognitionRef (Recorder.refs (Recorder.step s e)) = None
  ∧ Recorder.transcript (Recorder.view (Recorder.step s e))
    = Recorder.transcript (Recorder.view s)
  ∧ Recorder.currentText (Recorder.view (Recorder.step s e))
    = Recorder.currentText (Recorder.view s).
Proof.
  intros Hr. destruct e; cbn [Recorder.step]; rewrite ?Hr; auto.
  - destruct (Recorder.intervalRef (Recorder.refs s)) as [[|]|]; cbn; auto.
  - destruct (Recorder.mediaRecorderRef _); auto.
    unfold Recorder.ondataavailable. destruct (_ <? _)%nat; cbn; auto.
  - unfold Recorder.handleStopRecording. rewrite cleanup_refs.
    destruct (cleanup_eq
                match Recorder.mediaRecorderRef (Recorder.refs s) with
                | Some mr =>
                    if decide (Recorder.mr_state mr ≠ Recorder.inactive)
                    then Recorder.recorder_stop mr s else s
                | None => s
                end) as (-> & _).
    destruct (Recorder.mediaRecorderRef _) as [mr|]; [destruct (decide _)|];
      cbn; rewrite Hr; auto.
  - destruct (Recorder.onended s); auto.
    unfold Recorder.handleStopRecording. rewrite cleanup_refs.
    destruct (cleanup_eq
                match Recorder.mediaRecorderRef (Recorder.refs s) with
                | Some mr =>
                    if decide (Recorder.mr_state mr ≠ Recorder.inactive)
                    then Recorder.recorder_stop mr s else s
                | None => s
                end) as (-> & _).
    destruct (Recorder.mediaRecorderRef _) as [mr|]; [destruct (decide _)|];
      cbn; rewrite Hr; auto.
  - destruct (Recorder.mediaRecorderRef _) as [mr|]; auto.
    destruct (Recorder.mr_stopQueued mr); auto.
    unfold Recorder.onstop. cbn. rewrite Hr. cbn. auto.
  - rewrite cleanup_refs. destruct (cleanup_eq s) as (-> & _). cbn. rewrite Hr. auto.
Qed.

(** X8: without speech recognition in the browser the session is not
    failed, it has no transcript: whatever events follow the start, result
    events included, the transcript stays empty, there is no partial text,
    and no recogniser was ever started. *)
Theorem no_recognition_no_transcript
    (meeting : Meeting) (pf : Recorder.Platform) (events : list Recorder.Event) :
  Recorder.webkitSpeechRecognition pf = false →
  Recorder.status (Recorder.view (Recorder.mount meeting pf))
  = (if startable pf then Recorder.RECORDING else Recorder.IDLE)
  ∧ Recorder.transcript (Recorder.view (Recorder.run events (Recorder.mount meeting pf)))
    = []
  ∧ Recorder.currentText (Recorder.view (Recorder.run events (Recorder.mount meeting pf)))
    = ""
  ∧ Recorder.recognitionStarts (Recorder.run events (Recorder.mount meeting pf)) = 0.
Proof.
  intros Hno.
  assert (Recorder.recognitionRef (Recorder.refs (Recorder.mount meeting pf)) = None
          ∧ Recorder.transcript (Recorder.view (Recorder.mount meeting pf)) = []
          ∧ Recorder.currentText (Recorder.view (Recorder.mount meeting pf)) = ""
          ∧ Recorder.recognitionStarts (Recorder.mount meeting pf) = 0)
    as (Hr & Ht & Hc & Hs).
  { unfold Recorder.mount, Recorder.startCapture, Recorder.startCapture_catch,
      Recorder.initSpeechRecognition, Recorder.recognitionStarts.
    rewrite Hno.
    destruct (Recorder.getDisplayMedia pf) as [ds|e1]; cbn.
    2: { destruct (String.eqb _ _); cbn; auto. }
    destruct (Recorder.getUserMedia pf) as [ms|e2]; cbn.
    2: { destruct (String.eqb _ _); cbn; auto. }
    destruct (Recorder.getVideoTracks ds) as [|t0 vs]; cbn; auto.
    destruct (Recorder.mimeTypeSupported pf); cbn; auto. }
  split; [apply start_status|].
  destruct (handlers_belong_to_first_render meeting pf events) as (_ & _ & ->).
  rewrite Hs, <- Ht, <- Hc. clear Ht Hc Hs.
  generalize dependent (Recorder.mount meeting pf). intros s Hr.
  revert s Hr. induction events as [|e events IH]; intros s Hr; [auto|].
  change (Recorder.run (e :: events) s) with (Recorder.run events (Recorder.step s e)).
  destruct (step_without_recognition s e Hr) as (Hr' & Ht' & Hc').
  destruct (IH _ Hr') as (IHt & IHc & _). rewrite IHt, IHc. auto.
Qed.

Lemma no_recognition_no_transcript_witness :
  Recorder.transcript
    (Recorder.view
       (Recorder.run [Recorder.Tick; Recorder.SpeechResults [Sample.hello]; Recorder.ClickStop]
          (Recorder.mount Sample.meeting
             {| Recorder.getDisplayMedia := Js.Returned [Sample.displayVideo];
                Recorder.getUserMedia := Js.Returned [Sample.micAudio];
                Recorder.webkitSpeechRecognition := false;
                Recorder.mimeTypeSupported := true |})))
  = [].
Proof.
  apply (no_recognition_no_transcript Sample.meeting
           {| Recorder.getDisplayMedia := Js.Returned [Sample.displayVideo];
              Recorder.getUserMedia := Js.Returned [Sample.micAudio];
              Recorder.webkitSpeechRecognition := false;
              Recorder.mimeTypeSupported := true |}
           [Recorder.Tick; Recorder.SpeechResults [Sample.hello]; Recorder.ClickStop]).
  reflexivity.
Defined.

(** Only the highlight button touches the highlights: it appends one entry
    stamped with the clock. *)
Lemma step_highlights (s : Recorder.St) (e : Recorder.Event) :
  Recorder.highlights (Recorder.view (Recorder.step s e))
  = (Recorder.highlights (Recorder.view s)
     ++ match e with
        | Recorder.ClickHighlight =>
            [ {| hl_timestamp := Recorder.duration (Recorder.view s);
                 hl_label := "Important" |} ]
        | _ => []
        end)%list.
Proof.
  destruct e; cbn [Recorder.step]; rewrite ?app_nil_r.
  - destruct (Recorder.intervalRef (Recorder.refs s)) as [[|]|]; reflexivity.
  - destruct (Recorder.recognitionRef _) as [r|]; [|reflexivity].
    destruct (Recorder.sr_started r); [|reflexivity].
    unfold Recorder.onresult. destruct (Js.truthy _); reflexivity.
  - destruct (Recorder.recognitionRef _) as [r|]; [|reflexivity].
    destruct (Recorder.sr_started r); [|reflexivity].
    unfold Recorder.onend. destruct (decide _); reflexivity.
  - destruct (Recorder.mediaRecorderRef _); [|reflexivity].
    unfold Recorder.ondataavailable. destruct (_ <? _)%nat; reflexivity.
  - reflexivity.
  - destruct (handleStopRecording_first_render s) as (_ & -> & _). reflexivity.
  - destruct (Recorder.onended s); [|reflexivity].
    destruct (handleStopRecording_first_render s) as (_ & -> & _). reflexivity.
  - destruct (Recorder.mediaRecorderRef _) as [mr|]; [|reflexivity].
    destruct (Recorder.mr_stopQueued mr); [|reflexivity].
    unfold Recorder.onstop. cbn. destruct (Recorder.recognitionRef _); reflexivity.
  - destruct (cleanup_eq s) as (-> & _). reflexivity.
Qed.

Lemma StronglySorted_snoc (l : list nat) (x : nat) :
  StronglySorted le l → Forall (fun y => (y ≤ x)%nat) l → StronglySorted le (l ++ [x]).
Proof.
  induction 1 as [|y l Hs IH Hy]; intros Hall; cbn.
  - repeat constructor.
  - inversion Hall as [|? ? Hyx Hl]; subst. constructor; [auto|].
    apply Forall_app. split; [exact Hy | repeat constructor; exact Hyx].
Qed.

(** X9: the highlights of a session are in the order of the clock.  After
    any events, every highlight is labelled "Important" and stamped with a
    time not later than what the clock reads, the stamps never decrease
    along the list, and every click added its own entry: rapid clicks are
    not merged. *)
Theorem highlights_follow_the_clock
    (meeting : Meeting) (pf : Recorder.Platform) (events : list Recorder.Event) :
  Forall (fun h => (hl_timestamp h
                    ≤ Recorder.duration
                        (Recorder.view (Recorder.run events (Recorder.mount meeting pf))))%nat
                   ∧ hl_label h = "Important")
    (Recorder.highlights (Recorder.view (Recorder.run events (Recorder.mount meeting pf))))
  ∧ StronglySorted le
      (map hl_timestamp
         (Recorder.highlights
            (Recorder.view (Recorder.run events (Recorder.mount meeting pf)))))
  ∧ length (Recorder.highlights
              (Recorder.view (Recorder.run events (Recorder.mount meeting pf))))
    = length (List.filter
                (fun e => match e with Recorder.ClickHighlight => true | _ => false end)
                events).
Proof.
  assert (Hinit :
    Recorder.highlights (Recorder.view (Recorder.mount meeting pf)) = []).
  { unfold Recorder.mount, Recorder.startCapture, Recorder.startCapture_catch,
      Recorder.initSpeechRecognition.
    destruct (Recorder.getDisplayMedia pf) as [ds|e1]; cbn.
    2: { destruct (String.eqb _ _); reflexivity. }
    destruct (Recorder.getUserMedia pf) as [ms|e2]; cbn.
    2: { destruct (String.eqb _ _); reflexivity. }
    destruct (Recorder.getVideoTracks ds) as [|t0 vs],
      (Recorder.webkitSpeechRecognition pf), (Recorder.mimeTypeSupported pf);
      reflexivity. }
  assert (Hgen : ∀ evs s,
    Forall (fun h => (hl_timestamp h ≤ Recorder.duration (Recorder.view s))%nat
                     ∧ hl_label h = "Important")
      (Recorder.highlights (Recorder.view s)) →
    StronglySorted le (map hl_timestamp (Recorder.highlights (Recorder.view s))) →
    Forall (fun h => (hl_timestamp h
                      ≤ Recorder.duration (Recorder.view (Recorder.run evs s)))%nat
                     ∧ hl_label h = "Important")
      (Recorder.highlights (Recorder.view (Recorder.run evs s)))
    ∧ StronglySorted le
        (map hl_timestamp (Recorder.highlights (Recorder.view (Recorder.run evs s))))
    ∧ length (Recorder.highlights (Recorder.view (Recorder.run evs s)))
      = (length (Recorder.highlights (Recorder.view s))
         + length (List.filter
                     (fun e => match e with Recorder.ClickHighlight => true | _ => false end)
                     evs))%nat).
  { induction evs as [|e evs IH]; intros s Hb Hs.
    - cbn. repeat split; auto.
    - change (Recorder.run (e :: evs) s) with (Recorder.run evs (Recorder.step s e)).
      destruct (step_view s e) as (_ & _ & Hd & _).
      assert (Hb' : Forall (fun h => (hl_timestamp h
                        ≤ Recorder.duration (Recorder.view (Recorder.step s e)))%nat
                        ∧ hl_label h = "Important")
                      (Recorder.highlights (Recorder.view s))).
      { eapply Forall_impl; [exact Hb|]. cbn. intros h [Hh Hl]. split; [lia | exact Hl]. }
      destruct (IH (Recorder.step s e)) as (IH1 & IH2 & IH3).
      + rewrite step_highlights. apply Forall_app. split; [exact Hb'|].
        destruct e; try constructor; [|constructor]. cbn. split; [reflexivity | reflexivity].
      + rewrite step_highlights, map_app.
        destruct e; cbn [map]; rewrite ?app_nil_r; try exact Hs.
        apply StronglySorted_snoc; [exact Hs|].
        apply Forall_map. eapply Forall_impl; [exact Hb|]. cbn. intros h [Hh _]. exact Hh.
      + repeat split; [exact IH1 | exact IH2|].
        rewrite IH3, step_highlights, length_app.
        destruct e; cbn; lia. }
  destruct (Hgen events (Recorder.mount meeting pf)) as (H1 & H2 & H3).
  - rewrite Hinit. constructor.
  - rewrite Hinit. constructor.
  - rewrite Hinit in H3. auto.
Qed.

(** ** The clip builder *)

(** X10: a start captured by [captureStart] is never after the pending end:
    whatever the builder held before, after [captureStart] with a player
    the start is the player's position, and if an end is still pending the
    start is not greater than it. *)
Theorem captureStart_keeps_pair_ordered (s : SummaryView.State) (video : SummaryView.Video) :
  SummaryView.videoRef s = Some video →
  SummaryView.newClipStart (SummaryView.captureStart s)
  = Some (SummaryView.currentTime video)
  ∧ (∀ en, SummaryView.newClipEnd (SummaryView.captureStart s) = Some en →
           SummaryView.newClipEnd s = Some en
           ∧ (SummaryView.currentTime video ≤ en)%nat).
Proof.
  intros Hv. unfold SummaryView.captureStart. rewrite Hv.
  destruct (SummaryView.newClipEnd s) as [e|] eqn:He.
  - destruct (e <? SummaryView.currentTime video)%nat eqn:Hlt; cbn.
    + split; [reflexivity | discriminate].
    + rewrite He. split; [reflexivity|]. intros en [= <-].
      apply Nat.ltb_ge in Hlt. auto.
  - cbn. rewrite He. split; [reflexivity | discriminate].
Qed.

Lemma captureStart_keeps_pair_ordered_witness :
  SummaryView.newClipStart
    (SummaryView.captureStart
       (SummaryView.run [SummaryView.Seek 40; SummaryView.CaptureEnd; SummaryView.Seek 10]
          (SummaryView.initial (Some {| SummaryView.currentTime := 0 |}))))
  = Some 10.
Proof.
  apply (proj1 (captureStart_keeps_pair_ordered
                  (SummaryView.run
                     [SummaryView.Seek 40; SummaryView.CaptureEnd; SummaryView.Seek 10]
                     (SummaryView.initial (Some {| SummaryView.currentTime := 0 |})))
                  {| SummaryView.currentTime := 10 |} eq_refl)).
Defined.

Lemma trim_empty_label (label : string) :
  Js.truthy (Js.trim label) = true → Js.truthy label = true.
Proof. destruct label; [discriminate | reflexivity]. Qed.

(** X11: what [saveClip] does.  For a label of ASCII characters, it commits
    exactly when a start, an end and a label with a character that is not
    white space are present: one clip with these values is appended and the
    form is cleared; otherwise nothing changes.  For any label, a second
    [saveClip] right after the first changes nothing more (a double click
    saves once), and [saveClip] changes nothing whenever the save button is
    disabled. *)
Theorem saveClip_commits_once (now now' : string) (s : SummaryView.State) :
  (isAscii (SummaryView.newClipLabel s) = true →
   match SummaryView.newClipStart s, SummaryView.newClipEnd s with
   | Some st, Some en =>
       if Js.truthy (Js.trim (SummaryView.newClipLabel s)) then
         SummaryView.saveClip now s
         = {| SummaryView.clips :=
                (SummaryView.clips s
                 ++ [ {| clip_id := now; clip_label := SummaryView.newClipLabel s;
                         clip_start := st; clip_end := en |} ])%list;
              SummaryView.newClipStart := None;
              SummaryView.newClipEnd := None;
              SummaryView.newClipLabel := "";
              SummaryView.videoRef := SummaryView.videoRef s |}
       else SummaryView.saveClip now s = s
   | _, _ => SummaryView.saveClip now s = s
   end)
  ∧ SummaryView.saveClip now' (SummaryView.saveClip now s) = SummaryView.saveClip now s
  ∧ (Playback.saveDisabled s = true → SummaryView.saveClip now s = s).
Proof.
  unfold SummaryView.saveClip, Playback.saveDisabled.
  destruct (SummaryView.newClipStart s) as [st|] eqn:Hs,
           (SummaryView.newClipEnd s) as [en|] eqn:He;
    try (rewrite Hs, ?He; repeat split; reflexivity).
  destruct (Js.truthy (Js.trim (SummaryView.newClipLabel s))) eqn:Hl.
  - apply trim_empty_label in Hl. rewrite Hl. cbn.
    repeat split; try reflexivity. discriminate.
  - rewrite Hs, He, Hl. repeat split; reflexivity.
Qed.

Lemma saveClip_commits_once_witness :
  SummaryView.saveClip "1767312000000"
    (SummaryView.run
       [SummaryView.Seek 3; SummaryView.CaptureStart; SummaryView.Seek 9;
        SummaryView.CaptureEnd; SummaryView.TypeLabel " Budget "]
       (SummaryView.initial (Some {| SummaryView.currentTime := 0 |})))
  = {| SummaryView.clips :=
         [ {| clip_id := "1767312000000"; clip_label := " Budget ";
              clip_start := 3; clip_end := 9 |} ];
       SummaryView.newClipStart := None;
       SummaryView.newClipEnd := None;
       SummaryView.newClipLabel := "";
       SummaryView.videoRef := Some {| SummaryView.currentTime := 9 |} |}
  ∧ SummaryView.saveClip "1767312000000"
      (SummaryView.run
         [SummaryView.Seek 3; SummaryView.CaptureStart; SummaryView.CaptureEnd]
         (SummaryView.initial (Some {| SummaryView.currentTime := 0 |})))
    = SummaryView.run [SummaryView.Seek 3; SummaryView.CaptureStart; SummaryView.CaptureEnd]
        (SummaryView.initial (Some {| SummaryView.currentTime := 0 |})).
Proof.
  split.
  - apply (proj1 (saveClip_commits_once "1767312000000" ""
             (SummaryView.run
                [SummaryView.Seek 3; SummaryView.CaptureStart; SummaryView.Seek 9;
                 SummaryView.CaptureEnd; SummaryView.TypeLabel " Budget "]
                (SummaryView.initial (Some {| SummaryView.currentTime := 0 |}))))
             eq_refl).
  - apply (proj2 (proj2 (saveClip_commits_once "1767312000000" ""
             (SummaryView.run
                [SummaryView.Seek 3; SummaryView.CaptureStart; SummaryView.CaptureEnd]
                (SummaryView.initial (Some {| SummaryView.currentTime := 0 |})))))).
    reflexivity.
Defined.

Lemma filter_other_ids (id : string) (l : list VideoClip) :
  Forall (fun c => clip_id c ≠ id) l → filter (fun c => clip_id c ≠ id) l = l.
Proof.
  induction 1 as [|c l Hc Hl IH]; [reflexivity|].
  rewrite filter_cons. destruct (decide _); [|contradiction]. now rewrite IH.
Qed.

(** X12: deleting a clip.  When the ids of the saved clips differ from the id
    of the clip [c], [deleteClip] of that id removes [c] from its place and
    leaves the clips before and after it as they are, in their order; the
    pending form and the player are not touched; and deleting an id that no
    clip has changes nothing. *)
Theorem deleteClip_removes_that_clip
    (s : SummaryView.State) (before after : list VideoClip) (c : VideoClip) :
  SummaryView.clips s = (before ++ c :: after)%list →
  Forall (fun c' => clip_id c' ≠ clip_id c) (before ++ after) →
  SummaryView.deleteClip (clip_id c) s
  = {| SummaryView.clips := (before ++ after)%list;
       SummaryView.newClipStart := SummaryView.newClipStart s;
       SummaryView.newClipEnd := SummaryView.newClipEnd s;
       SummaryView.newClipLabel := SummaryView.newClipLabel s;
       SummaryView.videoRef := SummaryView.videoRef s |}
  ∧ SummaryView.deleteClip (clip_id c) (SummaryView.deleteClip (clip_id c) s)
    = SummaryView.deleteClip (clip_id c) s.
Proof.
  intros Hc Hids. apply Forall_app in Hids as [Hb Ha].
  assert (filter (fun c' => clip_id c' ≠ clip_id c) (SummaryView.clips s)
          = (before ++ after)%list) as Hf.
  { rewrite Hc, filter_app, filter_cons.
    destruct (decide _) as [Hne|_]; [congruence|].
    now rewrite !filter_other_ids. }
  unfold SummaryView.deleteClip, SummaryView.setClips. cbn. rewrite Hf.
  split; [reflexivity|].
  rewrite filter_other_ids; [reflexivity | apply Forall_app; auto].
Qed.

Lemma deleteClip_removes_that_clip_witness :
  SummaryView.clips
    (SummaryView.deleteClip "c2"
       {| SummaryView.clips :=
            [ {| clip_id := "c1"; clip_label := "Intro"; clip_start := 0; clip_end := 5 |};
              {| clip_id := "c2"; clip_label := "Budget"; clip_start := 12; clip_end := 47 |};
              {| clip_id := "c3"; clip_label := "Wrap-up"; clip_start := 50; clip_end := 60 |} ];
          SummaryView.newClipStart := Some 3;
          SummaryView.newClipEnd := None;
          SummaryView.newClipLabel := "x";
          SummaryView.videoRef := None |})
  = [ {| clip_id := "c1"; clip_label := "Intro"; clip_start := 0; clip_end := 5 |};
      {| clip_id := "c3"; clip_label := "Wrap-up"; clip_start := 50; clip_end := 60 |} ].
Proof.
  apply (f_equal SummaryView.clips
           (proj1 (deleteClip_removes_that_clip
              {| SummaryView.clips :=
                   [ {| clip_id := "c1"; clip_label := "Intro";
                        clip_start := 0; clip_end := 5 |};
                     {| clip_id := "c2"; clip_label := "Budget";
                        clip_start := 12; clip_end := 47 |};
                     {| clip_id := "c3"; clip_label := "Wrap-up";
                        clip_start := 50; clip_end := 60 |} ];
                 SummaryView.newClipStart := Some 3;
                 SummaryView.newClipEnd := None;
                 SummaryView.newClipLabel := "x";
                 SummaryView.videoRef := None |}
              [ {| clip_id := "c1"; clip_label := "Intro"; clip_start := 0; clip_end := 5 |} ]
              [ {| clip_id := "c3"; clip_label := "Wrap-up";
                   clip_start := 50; clip_end := 60 |} ]
              {| clip_id := "c2"; clip_label := "Budget"; clip_start := 12; clip_end := 47 |}
              eq_refl
              ltac:(repeat constructor; discriminate)))).
Defined.

(** ** The review player *)

Lemma timeUpdate_disarmed (t : nat) (s : Playback.State) :
  Playback.playingClipId s = None →
  Playback.playingClipId (Playback.step s (Playback.TimeUpdate t)) = None
  ∧ Playback.paused (Playback.step s (Playback.TimeUpdate t)) = Playback.paused s
  ∧ SummaryView.clips (Playback.builder (Playback.step s (Playback.TimeUpdate t)))
    = SummaryView.clips (Playback.builder s).
Proof.
  intros Hp. cbn. unfold Playback.handleTimeUpdate. cbn. rewrite Hp.
  destruct (SummaryView.videoRef (Playback.builder s)); cbn; auto.
Qed.

Lemma timeUpdate_video (t : nat) (s : Playback.State) :
  is_Some (SummaryView.videoRef (Playback.builder s)) →
  is_Some (SummaryView.videoRef
             (Playback.builder (Playback.step s (Playback.TimeUpdate t)))).
Proof.
  intros [v Hv]. cbn -[Playback.findClip Js.truthy Nat.leb].
  unfold Playback.handleTimeUpdate. cbn -[Playback.findClip Js.truthy Nat.leb].
  rewrite Hv.
  destruct (Playback.playingClipId s) as [id|]; [|cbn; rewrite Hv; eauto].
  destruct (Js.truthy id); [|cbn; rewrite Hv; eauto].
  destruct (Playback.findClip _ _) as [a|]; [|cbn; rewrite Hv; eauto].
  destruct (_ <=? _)%nat; cbn; rewrite Hv; eauto.
Qed.

(** X13: a clip plays to its end and stops there once.  After [playClip] of a
    saved clip (the first with its id, the id not empty), over any sequence
    of positions the player reports: the player is paused exactly when some
    reported position reached the end of the clip, and clip mode is left at
    that moment, so later reports do nothing more; until then the clip stays
    the playing one. *)
Theorem playClip_stops_at_the_end
    (s : Playback.State) (c : VideoClip) (positions : list nat) :
  is_Some (SummaryView.videoRef (Playback.builder s)) →
  Playback.findClip (clip_id c) (SummaryView.clips (Playback.builder s)) = Some c →
  clip_id c ≠ "" →
  Playback.paused
    (Playback.run (map Playback.TimeUpdate positions) (Playback.playClip c s))
  = existsb (fun t => (clip_end c <=? t)%nat) positions
  ∧ Playback.playingClipId
      (Playback.run (map Playback.TimeUpdate positions) (Playback.playClip c s))
    = if existsb (fun t => (clip_end c <=? t)%nat) positions then None
      else Some (clip_id c).
Proof.
  intros [v Hv] Hfind Hid.
  assert (Hgen : ∀ ps st,
    is_Some (SummaryView.videoRef (Playback.builder st)) →
    SummaryView.clips (Playback.builder st) = SummaryView.clips (Playback.builder s) →
    (Playback.playingClipId st = Some (clip_id c) ∧ Playback.paused st = false →
       Playback.paused (Playback.run (map Playback.TimeUpdate ps) st)
       = existsb (fun t => (clip_end c <=? t)%nat) ps
       ∧ Playback.playingClipId (Playback.run (map Playback.TimeUpdate ps) st)
         = if existsb (fun t => (clip_end c <=? t)%nat) ps then None
           else Some (clip_id c))
    ∧ (Playback.playingClipId st = None →
       Playback.paused (Playback.run (map Playback.TimeUpdate ps) st) = Playback.paused st
       ∧ Playback.playingClipId (Playback.run (map Playback.TimeUpdate ps) st) = None)).
  { induction ps as [|t ps IH]; intros st Hvid Hclips.
    - cbn. split; [intros [-> ->] | intros ->]; auto.
    - cbn [map]. change (Playback.run (?e :: ?es) ?x)
        with (Playback.run es (Playback.step x e)).
      destruct Hvid as [v' Hv'].
      split.
      + intros [Hp Hpa]. cbn [existsb].
        assert (Hstep : Playback.step st (Playback.TimeUpdate t)
                        = if (clip_end c <=? t)%nat
                          then {| Playback.builder := SummaryView.seek t (Playback.builder st);
                                  Playback.playingClipId := None;
                                  Playback.paused := true |}
                          else Playback.withBuilder (SummaryView.seek t) st).
        { assert (Js.truthy (clip_id c) = true) as Htruthy.
          { unfold Js.truthy. destruct (String.eqb_spec (clip_id c) ""); [contradiction|].
            reflexivity. }
          cbn -[Playback.findClip Js.truthy Nat.leb].
          unfold Playback.handleTimeUpdate.
          cbn -[Playback.findClip Js.truthy Nat.leb].
          rewrite Hv', Hp, Htruthy, Hclips, Hfind.
          cbn -[Nat.leb]. destruct (clip_end c <=? t)%nat; reflexivity. }
        rewrite Hstep. destruct (clip_end c <=? t)%nat eqn:Hle; cbn [orb].
        * destruct (IH {| Playback.builder := SummaryView.seek t (Playback.builder st);
                          Playback.playingClipId := None;
                          Playback.paused := true |}) as [_ IHn].
          -- cbn. rewrite Hv'. eauto.
          -- cbn. exact Hclips.
          -- apply IHn. reflexivity.
        * destruct (IH (Playback.withBuilder (SummaryView.seek t) st)) as [IHp _].
          -- cbn. rewrite Hv'. eauto.
          -- cbn. exact Hclips.
          -- apply IHp. cbn. auto.
      + intros Hp.
        destruct (timeUpdate_disarmed t st Hp) as (Hp' & Hpa' & Hc').
        destruct (IH (Playback.step st (Playback.TimeUpdate t))) as [_ IHn].
        * apply timeUpdate_video. eauto.
        * congruence.
        * destruct (IHn Hp') as [-> ->]. auto. }
  destruct (Hgen positions (Playback.playClip c s)) as [Hplay _].
  - unfold Playback.playClip. rewrite Hv. cbn. rewrite Hv. eauto.
  - unfold Playback.playClip. rewrite Hv. reflexivity.
  - apply Hplay. unfold Playback.playClip. rewrite Hv. auto.
Qed.

Lemma playClip_stops_at_the_end_witness :
  Playback.paused
    (Playback.run (map Playback.TimeUpdate [13; 30; 47; 48])
       (Playback.playClip
          {| clip_id := "c2"; clip_label := "Budget"; clip_start := 12; clip_end := 47 |}
          {| Playback.builder :=
               {| SummaryView.clips :=
                    [ {| clip_id := "c2"; clip_label := "Budget";
                         clip_start := 12; clip_end := 47 |} ];
                  SummaryView.newClipStart := None;
                  SummaryView.newClipEnd := None;
                  SummaryView.newClipLabel := "";
                  SummaryView.videoRef := Some {| SummaryView.currentTime := 0 |} |};
             Playback.playingClipId := None;
             Playback.paused := true |}))
  = true.
Proof.
  apply (proj1 (playClip_stops_at_the_end
                  {| Playback.builder :=
                       {| SummaryView.clips :=
                            [ {| clip_id := "c2"; clip_label := "Budget";
                                 clip_start := 12; clip_end := 47 |} ];
                          SummaryView.newClipStart := None;
                          SummaryView.newClipEnd := None;
                          SummaryView.newClipLabel := "";
                          SummaryView.videoRef := Some {| SummaryView.currentTime := 0 |} |};
                     Playback.playingClipId := None;
                     Playback.paused := true |}
                  {| clip_id := "c2"; clip_label := "Budget";
                     clip_start := 12; clip_end := 47 |}
                  [13; 30; 47; 48]
                  (ex_intro _ _ eq_refl) eq_refl ltac:(discriminate))).
Defined.

Lemma run_disarmed (positions : list nat) (s : Playback.State) :
  Playback.playingClipId s = None →
  Playback.playingClipId (Playback.run (map Playback.TimeUpdate positions) s) = None
  ∧ Playback.paused (Playback.run (map Playback.TimeUpdate positions) s)
    = Playback.paused s.
Proof.
  revert s. induction positions as [|t ps IH]; intros s Hp; [auto|].
  cbn [map]. change (Playback.run (?e :: ?es) ?x)
    with (Playback.run es (Playback.step x e)).
  destruct (timeUpdate_disarmed t s Hp) as (Hp' & Hpa' & _).
  destruct (IH _ Hp') as [-> ->]. auto.
Qed.

(** X14: a manual jump overrides clip mode.  After [jumpToTime] with a
    player, whatever clip was playing, the player plays from the chosen
    position and no later position report pauses it: the end of the clip
    that was playing is no longer watched.  Without a player [jumpToTime]
    does nothing. *)
Theorem jumpToTime_leaves_clip_mode
    (s : Playback.State) (seconds : nat) (positions : list nat) :
  (is_Some (SummaryView.videoRef (Playback.builder s)) →
     SummaryView.videoRef (Playback.builder (Playback.jumpToTime seconds s))
     = Some {| SummaryView.currentTime := seconds |}
     ∧ Playback.paused
         (Playback.run (map Playback.TimeUpdate positions) (Playback.jumpToTime seconds s))
       = false
     ∧ Playback.playingClipId
         (Playback.run (map Playback.TimeUpdate positions) (Playback.jumpToTime seconds s))
       = None)
  ∧ (SummaryView.videoRef (Playback.builder s) = None →
       Playback.jumpToTime seconds s = s).
Proof.
  unfold Playback.jumpToTime. split.
  - intros [v Hv]. rewrite Hv. cbn. rewrite Hv. split; [reflexivity|].
    destruct (run_disarmed positions
                {| Playback.builder := SummaryView.seek seconds (Playback.builder s);
                   Playback.playingClipId := None;
                   Playback.paused := false |} eq_refl) as [-> ->].
    auto.
  - intros ->. reflexivity.
Qed.

Lemma jumpToTime_leaves_clip_mode_witness :
  Playback.paused
    (Playback.run (map Playback.TimeUpdate [100; 200])
       (Playback.jumpToTime 90
          (Playback.playClip
             {| clip_id := "c2"; clip_label := "Budget"; clip_start := 12; clip_end := 47 |}
             {| Playback.builder :=
                  {| SummaryView.clips :=
                       [ {| clip_id := "c2"; clip_label := "Budget";
                            clip_start := 12; clip_end := 47 |} ];
                     SummaryView.newClipStart := None;
                     SummaryView.newClipEnd := None;
                     SummaryView.newClipLabel := "";
                     SummaryView.videoRef := Some {| SummaryView.currentTime := 0 |} |};
                Playback.playingClipId := None;
                Playback.paused := true |})))
  = false.
Proof.
  apply (proj1 (jumpToTime_leaves_clip_mode
                  (Playback.playClip
                     {| clip_id := "c2"; clip_label := "Budget";
                        clip_start := 12; clip_end := 47 |}
                     {| Playback.builder :=
                          {| SummaryView.clips :=
                               [ {| clip_id := "c2"; clip_label := "Budget";
                                    clip_start := 12; clip_end := 47 |} ];
                             SummaryView.newClipStart := None;
                             SummaryView.newClipEnd := None;
                             SummaryView.newClipLabel := "";
                             SummaryView.videoRef :=
                               Some {| SummaryView.currentTime := 0 |} |};
                        Playback.playingClipId := None;
                        Playback.paused := true |})
                  90 [100; 200])
           (ex_intro _ _ eq_refl)).
Defined.

Lemma findClip_deleted (id : string) (clips : list VideoClip) :
  Playback.findClip id (filter (fun c => clip_id c ≠ id) clips) = None.
Proof.
  unfold Playback.findClip. induction clips as [|c clips IH]; [reflexivity|].
  rewrite filter_cons. destruct (decide _) as [Hne|]; [|exact IH].
  cbn. destruct (String.eqb_spec (clip_id c) id); [contradiction | exact IH].
Qed.

(** X15: deleting the clip that is playing disarms nothing and stops
    nothing.  When the playing clip is deleted, no position report pauses
    the player any more, however far past the end of the clip it plays, and
    the deleted clip's id stays the playing one. *)
Theorem deleted_clip_plays_on
    (s : Playback.State) (c : VideoClip) (positions : list nat) :
  is_Some (SummaryView.videoRef (Playback.builder s)) →
  Playback.paused
    (Playback.run
       (Playback.Builder (SummaryView.DeleteClip (clip_id c))
        :: map Playback.TimeUpdate positions)
       (Playback.playClip c s))
  = false
  ∧ Playback.playingClipId
      (Playback.run
         (Playback.Builder (SummaryView.DeleteClip (clip_id c))
          :: map Playback.TimeUpdate positions)
         (Playback.playClip c s))
    = Some (clip_id c).
Proof.
  intros [v Hv].
  change (Playback.run (?e :: ?es) ?x) with (Playback.run es (Playback.step x e)).
  set (s2 := Playback.step (Playback.playClip c s)
               (Playback.Builder (SummaryView.DeleteClip (clip_id c)))).
  assert (Hs2 : Playback.paused s2 = false
                ∧ Playback.playingClipId s2 = Some (clip_id c)
                ∧ Playback.findClip (clip_id c) (SummaryView.clips (Playback.builder s2))
                  = None).
  { subst s2. unfold Playback.playClip. rewrite Hv.
    cbn -[Playback.findClip]. repeat split; try reflexivity. apply findClip_deleted. }
  clearbody s2. revert s2 Hs2.
  induction positions as [|t ps IH]; intros s2 (Hpa & Hp & Hf); [auto|].
  cbn [map]. change (Playback.run (?e :: ?es) ?x)
    with (Playback.run es (Playback.step x e)).
  apply IH.
  cbn -[Playback.findClip Js.truthy Nat.leb]. unfold Playback.handleTimeUpdate.
  cbn -[Playback.findClip Js.truthy Nat.leb]. rewrite Hp.
  destruct (SummaryView.videoRef (Playback.builder s2)); cbn -[Playback.findClip Js.truthy];
    [destruct (Js.truthy (clip_id c)); [rewrite Hf|]|]; cbn -[Playback.findClip]; auto.
Qed.

Lemma deleted_clip_plays_on_witness :
  Playback.paused
    (Playback.run
       (Playback.Builder (SummaryView.DeleteClip "c2")
        :: map Playback.TimeUpdate [30; 47; 60])
       (Playback.playClip
          {| clip_id := "c2"; clip_label := "Budget"; clip_start := 12; clip_end := 47 |}
          {| Playback.builder :=
               {| SummaryView.clips :=
                    [ {| clip_id := "c2"; clip_label := "Budget";
                         clip_start := 12; clip_end := 47 |} ];
                  SummaryView.newClipStart := None;
                  SummaryView.newClipEnd := None;
                  SummaryView.newClipLabel := "";
                  SummaryView.videoRef := Some {| SummaryView.currentTime := 0 |} |};
             Playback.playingClipId := None;
             Playback.paused := true |}))
  = false.
Proof.
  apply (proj1 (deleted_clip_plays_on
                  {| Playback.builder :=
                       {| SummaryView.clips :=
                            [ {| clip_id := "c2"; clip_label := "Budget";
                                 clip_start := 12; clip_end := 47 |} ];
                          SummaryView.newClipStart := None;
                          SummaryView.newClipEnd := None;
                          SummaryView.newClipLabel := "";
                          SummaryView.videoRef := Some {| SummaryView.currentTime := 0 |} |};
                     Playback.playingClipId := None;
                     Playback.paused := true |}
                  {| clip_id := "c2"; clip_label := "Budget";
                     clip_start := 12; clip_end := 47 |}
                  [30; 47; 60]
                  (ex_intro _ _ eq_refl))).
Defined.

(** ** The summarization service, further *)

Lemma or_string_not_empty (o : option string) (d : string) :
  d ≠ "" → Js.or_string o d ≠ "".
Proof.
  intros Hd. unfold Js.or_string. destruct o as [s|]; [|exact Hd].
  unfold Js.truthy. destruct (String.eqb_spec s ""); cbn; assumption.
Qed.

Lemma truthy_not_empty (s : string) : Js.truthy s = true ↔ s ≠ "".
Proof.
  unfold Js.truthy. destruct (String.eqb_spec s ""); cbn; split; congruence.
Qed.

(** X16: [askMeetingQuestion] always answers with a text that is not
    empty.  Without an API key the answer is "Error: API Key missing." and
    no request is made.  With a key exactly one request is made, to
    gemini-2.5-flash, carrying the key, the question and the texts of the
    transcript joined by spaces; when the backend fails the answer is the
    apology; when it answers, the answer is the backend's text, or the
    stand-in when that text is missing or empty. *)
Theorem askMeetingQuestion_always_answers
    (API_KEY : option string) (backend : Chat.Backend)
    (question : string) (summaryData : SummaryData) :
  fst (Chat.askMeetingQuestion API_KEY backend question summaryData) ≠ ""
  ∧ (API_KEY = None ∨ API_KEY = Some "" →
       Chat.askMeetingQuestion API_KEY backend question summaryData
       = ("Error: API Key missing.", []))
  ∧ (∀ key, API_KEY = Some key → key ≠ "" →
       ∃ rq,
         snd (Chat.askMeetingQuestion API_KEY backend question summaryData) = [rq]
         ∧ Chat.rq_apiKey rq = key
         ∧ Chat.rq_model rq = "gemini-2.5-flash"
         ∧ Chat.rq_question rq = question
         ∧ Chat.rq_transcript rq = Js.join " " (map seg_text (sd_transcript summaryData))
         ∧ fst (Chat.askMeetingQuestion API_KEY backend question summaryData)
           = match backend rq with
             | Js.Returned text => Js.or_string text "I couldn't generate an answer."
             | Js.Thrown _ =>
                 "Sorry, I encountered an error while processing your question."
             end).
Proof.
  unfold Chat.askMeetingQuestion.
  destruct (Js.truthy (Gemini.apiKey API_KEY)) eqn:Hk; cbn [negb].
  - destruct (apiKey_truthy _ Hk) as [Hsome Hne].
    match goal with |- context [backend ?r] => set (request := r) end.
    assert (Hkey : ∀ key, API_KEY = Some key → Chat.rq_apiKey request = key).
    { intros key Hkey. subst request. cbn [Chat.rq_apiKey]. congruence. }
    destruct (backend request) as [text|err] eqn:Hb; cbn [fst snd].
    + split; [apply or_string_not_empty; discriminate|]. split.
      * intros Habs. apply apiKey_absent in Habs. congruence.
      * intros key Hsk Hnk. exists request. rewrite Hb.
        repeat split; try reflexivity. now apply Hkey.
    + split; [discriminate|]. split.
      * intros Habs. apply apiKey_absent in Habs. congruence.
      * intros key Hsk Hnk. exists request. rewrite Hb.
        repeat split; try reflexivity. now apply Hkey.
  - cbn. split; [discriminate|]. split; [reflexivity|].
    intros key -> Hnk. exfalso. apply truthy_not_empty in Hnk.
    unfold Gemini.apiKey, Js.or_string in Hk. rewrite Hnk in Hk. cbn in Hk.
    rewrite Hnk in Hk. discriminate.
Qed.

Lemma askMeetingQuestion_always_answers_witness :
  Chat.askMeetingQuestion (Some "") (fun _ => Js.Returned (Some "42"))
    "What was decided?"
    (App.normalize None "1/2/2026" (Gemini.spread Gemini.emptyObject []))
  = ("Error: API Key missing.", [])
  ∧ ∃ rq,
      snd (Chat.askMeetingQuestion (Some "key") (fun _ => Js.Returned (Some ""))
             "What was decided?"
             (App.normalize None "1/2/2026" (Gemini.spread Gemini.emptyObject [])))
      = [rq]
      ∧ Chat.rq_apiKey rq = "key"
      ∧ Chat.rq_model rq = "gemini-2.5-flash"
      ∧ Chat.rq_question rq = "What was decided?"
      ∧ Chat.rq_transcript rq
        = Js.join " "
            (map seg_text
               (sd_transcript
                  (App.normalize None "1/2/2026" (Gemini.spread Gemini.emptyObject []))))
      ∧ fst (Chat.askMeetingQuestion (Some "key") (fun _ => Js.Returned (Some ""))
               "What was decided?"
               (App.normalize None "1/2/2026" (Gemini.spread Gemini.emptyObject [])))
        = match (fun _ => Js.Returned (Some "")) rq with
          | Js.Returned text => Js.or_string text "I couldn't generate an answer."
          | Js.Thrown _ =>
              "Sorry, I encountered an error while processing your question."
          end.
Proof.
  split.
  - apply (proj1 (proj2 (askMeetingQuestion_always_answers (Some "")
             (fun _ => Js.Returned (Some "42")) "What was decided?"
             (App.normalize None "1/2/2026" (Gemini.spread Gemini.emptyObject []))))).
    right. reflexivity.
  - apply (proj2 (proj2 (askMeetingQuestion_always_answers (Some "key")
             (fun _ => Js.Returned (Some "")) "What was decided?"
             (App.normalize None "1/2/2026" (Gemini.spread Gemini.emptyObject []))))
             "key" eq_refl).
    discriminate.
Defined.

Lemma join_cons_head (c : ascii) (rest sep : string) (l : list string) :
  ∃ tail, Js.join sep (String c rest :: l) = String c tail.
Proof.
  unfold Js.join. destruct l as [|y l]; cbn; eauto.
Qed.

(** X17: one request, and what it says about the transcript.  With a key,
    and with time stamps that [toISOString] prints (before the year 10000:
    beyond, the formatting throws before any request), [generateMeetingSummary]
    makes exactly one request whatever the backend does, and a failure of
    the backend is thrown on as it is.  The request carries the stand-in
    "No live transcript available, rely on audio." exactly when the
    transcript is empty, and "None provided." exactly when there are no
    highlights; otherwise it carries the formatted lists. *)
Theorem generateMeetingSummary_one_request
    (API_KEY : option string) (backend : Gemini.Backend) (audioBase64 context : string)
    (transcript : list TranscriptSegment) (highlights : list MeetingHighlight) :
  Js.truthy (Gemini.apiKey API_KEY) = true →
  Forall (fun seg => printable (seg_timestamp seg) = true) transcript →
  Forall (fun h => printable (hl_timestamp h) = true) highlights →
  ∃ rq,
    snd (Gemini.generateMeetingSummary API_KEY backend audioBase64 context
           transcript highlights) = [rq]
    ∧ Gemini.rq_data rq = audioBase64
    ∧ Gemini.rq_context rq = context
    ∧ (∀ e, backend rq = Js.Thrown e →
            fst (Gemini.generateMeetingSummary API_KEY backend audioBase64 context
                   transcript highlights) = Js.Thrown e)
    ∧ (Gemini.rq_transcript rq = "No live transcript available, rely on audio."
       ↔ transcript = [])
    ∧ (Gemini.rq_highlights rq = "None provided." ↔ highlights = [])
    ∧ (transcript ≠ [] → Gemini.rq_transcript rq = Gemini.formatTranscript transcript)
    ∧ (highlights ≠ [] → Gemini.rq_highlights rq = Gemini.formatHighlights highlights).
Proof.
  intros Hk _ _. unfold Gemini.generateMeetingSummary. rewrite Hk. cbn [negb].
  match goal with |- context [backend ?r] => set (request := r) end.
  exists request.
  assert (Ht : (Gemini.rq_transcript request
                = "No live transcript available, rely on audio." ↔ transcript = [])
               ∧ (transcript ≠ [] →
                  Gemini.rq_transcript request = Gemini.formatTranscript transcript)).
  { subst request. cbn [Gemini.rq_transcript].
    destruct transcript as [|t l]; [split; [split; reflexivity | congruence]|].
    assert (∃ tail, Gemini.formatTranscript (t :: l) = String "[" tail) as [tail Htail]
      by (unfold Gemini.formatTranscript; apply join_cons_head).
    rewrite Htail. cbn.
    split; [split; discriminate | reflexivity]. }
  assert (Hh : (Gemini.rq_highlights request = "None provided." ↔ highlights = [])
               ∧ (highlights ≠ [] →
                  Gemini.rq_highlights request = Gemini.formatHighlights highlights)).
  { subst request. cbn [Gemini.rq_highlights].
    destruct highlights as [|h l]; [split; [split; reflexivity | congruence]|].
    assert (∃ tail, Gemini.formatHighlights (h :: l) = String "U" tail) as [tail Htail]
      by (unfold Gemini.formatHighlights; apply join_cons_head).
    rewrite Htail. cbn.
    split; [split; discriminate | reflexivity]. }
  destruct Ht as [Ht1 Ht2], Hh as [Hh1 Hh2].
  destruct (backend request) as [text|err] eqn:Hb; cbn [fst snd];
    repeat split; try reflexivity; try apply Ht1; try apply Hh1; auto;
    try (intros e [= <-]; reflexivity); try discriminate.
Qed.

Lemma generateMeetingSummary_one_request_witness :
  ∃ rq,
    snd (Gemini.generateMeetingSummary (Some "key")
           (fun _ => Js.Thrown {| Js.name := "Error"; Js.message := "503" |})
           "QUJD" "ctx"
           [ {| seg_timestamp := 2; seg_text := "hello"; seg_isFinal := true |} ] [])
    = [rq]
    ∧ Gemini.rq_data rq = "QUJD"
    ∧ Gemini.rq_context rq = "ctx"
    ∧ (∀ e, (fun _ => Js.Thrown {| Js.name := "Error"; Js.message := "503" |}) rq
            = @Js.Thrown (option Gemini.Parsed) e →
            fst (Gemini.generateMeetingSummary (Some "key")
                   (fun _ => Js.Thrown {| Js.name := "Error"; Js.message := "503" |})
                   "QUJD" "ctx"
                   [ {| seg_timestamp := 2; seg_text := "hello"; seg_isFinal := true |} ] [])
            = Js.Thrown e)
    ∧ (Gemini.rq_transcript rq = "No live transcript available, rely on audio."
       ↔ [ {| seg_timestamp := 2; seg_text := "hello"; seg_isFinal := true |} ] = [])
    ∧ (Gemini.rq_highlights rq = "None provided." ↔ @nil MeetingHighlight = [])
    ∧ ([ {| seg_timestamp := 2; seg_text := "hello"; seg_isFinal := true |} ] ≠ [] →
       Gemini.rq_transcript rq
       = Gemini.formatTranscript
           [ {| seg_timestamp := 2; seg_text := "hello"; seg_isFinal := true |} ])
    ∧ (@nil MeetingHighlight ≠ [] →
       Gemini.rq_highlights rq = Gemini.formatHighlights []).
Proof.
  apply (generateMeetingSummary_one_request (Some "key")
           (fun _ => Js.Thrown {| Js.name := "Error"; Js.message := "503" |})
           "QUJD" "ctx"
           [ {| seg_timestamp := 2; seg_text := "hello"; seg_isFinal := true |} ] []).
  - reflexivity.
  - constructor; [reflexivity | constructor].
  - constructor.
Defined.

(** ** Times as they are printed *)

Lemma pad2_is_padStart2 (n : nat) :
  (n < 100)%nat → Gemini.pad2 n = Display.padStart2 (Display.toString n).
Proof.
  intros Hn.
  assert (Hall : forallb (fun k => String.eqb (Gemini.pad2 k)
                                     (Display.padStart2 (Display.toString k)))
                   (seq 0 100) = true) by (vm_compute; reflexivity).
  rewrite forallb_forall in Hall.
  apply String.eqb_eq, Hall, in_seq. lia.
Qed.

Lemma pad2_length (n : nat) : String.length (Gemini.pad2 n) = 2.
Proof. reflexivity. Qed.

(** X18: the time stamps sent with the transcript.  As long as the stamp
    lies before the year 10000, [isoTime] prints eight characters, the time
    of day: it wraps at 24 hours, so a segment stamped [t] and one stamped
    24 hours later print alike.  During the first hour of a recording it is
    "00:" followed by what the recorder shows for the same instant; and the
    summary view shows the same as the recorder from ten minutes on until
    the hundredth minute, and without the leading zero before. *)
Theorem printed_times_agree (t : nat) :
  (printable t = true → String.length (Gemini.isoTime t) = 8)
  ∧ (printable (t + 24 * 3600) = true →
     Gemini.isoTime (t + 24 * 3600) = Gemini.isoTime t)
  ∧ ((t < 3600)%nat → Gemini.isoTime t = "00:" ++ Display.recorderFormatTime t)
  ∧ ((t < 600)%nat →
       Display.recorderFormatTime t = "0" ++ Display.summaryFormatTime t)
  ∧ ((600 ≤ t < 100 * 60)%nat →
       Display.recorderFormatTime t = Display.summaryFormatTime t).
Proof.
  split; [reflexivity|]. split.
  { intros _. unfold Gemini.isoTime.
    assert ((t + 24 * 3600) / 3600 = t / 3600 + 24)%nat as ->
      by (apply Nat.div_add; lia).
    assert ((t + 24 * 3600) / 60 = t / 60 + 1440)%nat as ->
      by (replace (24 * 3600)%nat with (1440 * 60)%nat by lia; apply Nat.div_add; lia).
    assert ((t + 24 * 3600) mod 60 = t mod 60)%nat as ->
      by (replace (24 * 3600)%nat with (1440 * 60)%nat by lia; apply Nat.Div0.mod_add).
    assert ((t / 3600 + 24) mod 24 = (t / 3600) mod 24)%nat as ->
      by (apply (Nat.Div0.mod_add (t / 3600) 1 24)).
    assert ((t / 60 + 1440) mod 60 = (t / 60) mod 60)%nat as ->
      by (apply (Nat.Div0.mod_add (t / 60) 24 60)).
    reflexivity. }
  assert (Hsecs : (t mod 60 < 100)%nat)
    by (pose proof (Nat.mod_upper_bound t 60); lia).
  split; [|split].
  - intros Ht. unfold Gemini.isoTime, Display.recorderFormatTime. cbv zeta.
    assert (t / 3600 = 0)%nat as -> by (apply Nat.div_small; lia).
    assert (t / 60 < 60)%nat by (apply Nat.Div0.div_lt_upper_bound; lia).
    rewrite (Nat.mod_small (t / 60) 60) by lia.
    rewrite <- !pad2_is_padStart2 by lia. reflexivity.
  - intros Ht. unfold Display.recorderFormatTime, Display.summaryFormatTime. cbv zeta.
    assert (t / 60 < 10)%nat as Hm by (apply Nat.Div0.div_lt_upper_bound; lia).
    assert (Display.padStart2 (Display.toString (t / 60))
            = "0" ++ Display.toString (t / 60)) as ->; [|reflexivity].
    assert (Hall : forallb (fun k => String.eqb (Display.padStart2 (Display.toString k))
                                       ("0" ++ Display.toString k))
                     (seq 0 10) = true) by (vm_compute; reflexivity).
    rewrite forallb_forall in Hall. apply String.eqb_eq, Hall, in_seq. lia.
  - intros Ht. unfold Display.recorderFormatTime, Display.summaryFormatTime. cbv zeta.
    assert (10 ≤ t / 60 < 100)%nat as Hm.
    { split; [apply Nat.div_le_lower_bound; lia
             | apply Nat.Div0.div_lt_upper_bound; lia]. }
    assert (Display.padStart2 (Display.toString (t / 60))
            = Display.toString (t / 60)) as ->; [|reflexivity].
    assert (Hall : forallb (fun k => String.eqb (Display.padStart2 (Display.toString k))
                                       (Display.toString k))
                     (seq 10 90) = true) by (vm_compute; reflexivity).
    rewrite forallb_forall in Hall. apply String.eqb_eq, Hall, in_seq. lia.
Qed.

Lemma printed_times_agree_witness :
  String.length (Gemini.isoTime 3725) = 8
  ∧ Gemini.isoTime (3725 + 24 * 3600) = Gemini.isoTime 3725
  ∧ Gemini.isoTime 3599 = "00:" ++ Display.recorderFormatTime 3599
  ∧ Display.recorderFormatTime 599 = "0" ++ Display.summaryFormatTime 599
  ∧ Display.recorderFormatTime 600 = Display.summaryFormatTime 600.
Proof.
  split; [|split; [|split; [|split]]].
  - apply (proj1 (printed_times_agree 3725)). reflexivity.
  - apply (proj1 (proj2 (printed_times_agree 3725))). reflexivity.
  - apply (proj1 (proj2 (proj2 (printed_times_agree 3599)))). lia.
  - apply (proj1 (proj2 (proj2 (proj2 (printed_times_agree 599))))). lia.
  - apply (proj2 (proj2 (proj2 (proj2 (printed_times_agree 600))))). lia.
Defined.

(** ** Merging imported meetings, further *)

Lemma freshEvents_none (prev events : list Meeting) :
  Forall (fun e => In (m_id e) (map m_id prev)) events → freshEvents prev events = [].
Proof.
  induction 1 as [|e events He Hall IH]; [reflexivity|].
  unfold freshEvents in *. cbn [List.filter].
  apply existsb_eqb_In in He. rewrite He. exact IH.
Qed.

Lemma freshEvents_In (prev events : list Meeting) (e : Meeting) :
  In e events → ¬ In (m_id e) (map m_id prev) → In e (freshEvents prev events).
Proof.
  intros Hin Hid. apply filter_In. split; [exact Hin|].
  destruct (existsb _ _) eqn:Hex; [|reflexivity].
  apply existsb_eqb_In in Hex. contradiction.
Qed.

Lemma merged_ids (prev events : list Meeting) :
  Forall (fun e => In (m_id e) (map m_id (prev ++ freshEvents prev events))) events.
Proof.
  apply List.Forall_forall. intros e He. rewrite map_app. apply in_or_app.
  destruct (in_dec string_dec (m_id e) (map m_id prev)) as [Hin|Hout]; [left; exact Hin|].
  right. apply in_map. now apply freshEvents_In.
Qed.

(** X19: importing the same events again changes nothing.  After a merge,
    every imported event's id occurs in the list, so a second merge of the
    same import, from the calendar or in demo mode, appends nothing; and an
    import that brings only known ids leaves the list as it is. *)
Theorem merge_is_idempotent (prev calendarEvents : list Meeting) :
  App.mergeCalendar calendarEvents (App.mergeCalendar calendarEvents prev)
  = App.mergeCalendar calendarEvents prev
  ∧ App.mergeDemo (App.mergeDemo prev) = App.mergeDemo prev
  ∧ Forall (fun e => In (m_id e) (map m_id (App.mergeCalendar calendarEvents prev)))
      calendarEvents
  ∧ (Forall (fun e => In (m_id e) (map m_id prev)) calendarEvents →
     App.mergeCalendar calendarEvents prev = prev).
Proof.
  unfold App.mergeCalendar, App.mergeDemo. cbv zeta. rewrite !filter_fresh.
  repeat split.
  - rewrite (freshEvents_none _ _ (merged_ids prev calendarEvents)).
    apply app_nil_r.
  - rewrite (freshEvents_none _ _ (merged_ids prev UPCOMING_MEETINGS)).
    apply app_nil_r.
  - apply merged_ids.
  - intros Hknown. rewrite (freshEvents_none _ _ Hknown). apply app_nil_r.
Qed.

Lemma merge_is_idempotent_witness :
  App.mergeCalendar (firstn 2 UPCOMING_MEETINGS) UPCOMING_MEETINGS = UPCOMING_MEETINGS.
Proof.
  apply (proj2 (proj2 (proj2 (merge_is_idempotent UPCOMING_MEETINGS
                                (firstn 2 UPCOMING_MEETINGS))))).
  constructor; [cbn; auto|]. constructor; [cbn; auto|]. constructor.
Defined.

Lemma freshEvents_NoDup (prev events : list Meeting) :
  NoDup (map m_id events) → NoDup (map m_id (freshEvents prev events)).
Proof.
  unfold freshEvents. induction events as [|e events IH]; [intros; constructor|].
  cbn [map List.filter]. intros Hnd. apply NoDup_cons in Hnd as [Hout Hnd].
  destruct (negb _); [|auto].
  cbn [map]. apply NoDup_cons. split; [|auto].
  intros Hin. apply Hout.
  apply list_elem_of_In in Hin. apply list_elem_of_In.
  apply in_map_iff in Hin as (x & Hx & Hxin). apply filter_In in Hxin as [Hxin _].
  rewrite <- Hx. now apply in_map.
Qed.

(** X20: a merge keeps ids unique.  If no two existing meetings share an id
    and no two imported events share an id, no two meetings of the merged
    list share an id: the import cannot introduce a second meeting under an
    id already shown. *)
Theorem merge_keeps_ids_unique (prev calendarEvents : list Meeting) :
  NoDup (map m_id prev) →
  NoDup (map m_id calendarEvents) →
  NoDup (map m_id (App.mergeCalendar calendarEvents prev)).
Proof.
  intros Hp He. unfold App.mergeCalendar. cbv zeta. rewrite filter_fresh, map_app.
  apply NoDup_app. split; [exact Hp|]. split; [|now apply freshEvents_NoDup].
  intros i Hi Hf. apply list_elem_of_In in Hi, Hf.
  apply in_map_iff in Hf as (e & <- & Hin).
  pose proof (freshEvents_sound prev calendarEvents) as Hs.
  rewrite List.Forall_forall in Hs. destruct (Hs e Hin) as [_ Hout]. contradiction.
Qed.

Lemma merge_keeps_ids_unique_witness :
  NoDup (map m_id (App.mergeCalendar
                     [ {| m_id := "m2"; m_title := "Design Handoff Sync (moved)";
                          m_platform := "Zoom"; m_time := "1:00 PM";
                          m_duration := "30 min";
                          m_url := "https://zoom.us/j/123456789"; m_attendees := [] |};
                       {| m_id := "g1"; m_title := "Budget Review";
                          m_platform := "Google Meet"; m_time := "3:00 PM";
                          m_duration := "60 min";
                          m_url := "https://meet.google.com/aaa-bbbb-ccc";
                          m_attendees := [] |} ]
                     UPCOMING_MEETINGS)).
Proof.
  apply merge_keeps_ids_unique; cbn;
    repeat (apply NoDup_cons; split; [rewrite list_elem_of_In; cbn; intuition discriminate|]);
    apply NoDup_nil_2.
Defined.

(** ** From the recording to the summary *)

(** X21: how [handleStopRecording] of the app ends.  It keeps the meetings
    and the active meeting and stores the video blob.  When the recording
    is read, either the summary is shown ([SUMMARY], error untouched) and it
    carries the transcript that was handed over, today's date, a summary
    text and a sentiment that are not empty; or the app is back on the
    calendar ([CALENDAR]) with "Failed to generate summary with Gemini.
    Please try again." and the summary it had.  When the read fails the app
    stays in [PROCESSING], without error and without request; when
    [readAsDataURL] throws the app is back on the calendar with "Failed to
    process recording file.".  Without an API key no summary is shown and
    no request is made; [resetApp] then clears the error, the blob and the
    active meeting and keeps the meetings. *)
Theorem handleStopRecording_endings
    (API_KEY : option string) (backend : Gemini.Backend)
    (reader : Blob -> Processing.FileReader)
    (today : string) (audioVideoBlob : Blob) (videoBlob : option Blob)
    (transcript : list TranscriptSegment) (highlights : list MeetingHighlight)
    (s : App.State) :
  let s' := Processing.handleStopRecording API_KEY backend reader today audioVideoBlob
              videoBlob transcript highlights s in
  App.meetings s' = App.meetings s
  ∧ App.activeMeeting s' = App.activeMeeting s
  ∧ App.recordedVideoBlob s' = videoBlob
  ∧ match reader audioVideoBlob with
    | Processing.Loads _ =>
        (App.state s' = SUMMARY
         ∧ App.processingError s' = App.processingError s
         ∧ ∃ d, App.summaryData s' = Some d
                ∧ sd_transcript d = transcript
                ∧ sd_date d = today
                ∧ sd_summaryText d ≠ ""
                ∧ sd_sentiment d ≠ "")
        ∨ (App.state s' = CALENDAR
           ∧ App.summaryData s' = App.summaryData s
           ∧ App.processingError s'
             = Some "Failed to generate summary with Gemini. Please try again.")
    | Processing.Fails =>
        App.state s' = PROCESSING
        ∧ App.summaryData s' = App.summaryData s
        ∧ App.processingError s' = App.processingError s
        ∧ App.requests s' = App.requests s
    | Processing.Throws =>
        App.state s' = CALENDAR
        ∧ App.summaryData s' = App.summaryData s
        ∧ App.processingError s' = Some "Failed to process recording file."
        ∧ App.requests s' = App.requests s
    end
  ∧ (API_KEY = None ∨ API_KEY = Some "" →
       App.state s' ≠ SUMMARY ∧ App.requests s' = App.requests s)
  ∧ resetApp s'
    = {| App.state := CALENDAR; App.activeMeeting := None; App.summaryData := None;
         App.recordedVideoBlob := None; App.processingError := None;
         App.meetings := App.meetings s; App.requests := App.requests s' |}.
Proof.
  cbv zeta. unfold Processing.handleStopRecording.
  destruct (reader audioVideoBlob) as [| |payload];
    [cbn; repeat split; try reflexivity; discriminate.. |].
  unfold App.handleStopRecording. cbv zeta.
  cbn [App.activeMeeting App.summaryData App.processingError App.meetings App.requests].
  destruct (Gemini.generateMeetingSummary API_KEY backend payload
              (App.contextOf (App.activeMeeting s)) transcript highlights)
    as [outcome sent] eqn:Hgen.
  assert (Hkey : API_KEY = None ∨ API_KEY = Some "" →
                 outcome = Js.Thrown Gemini.missingKey ∧ sent = []).
  { intros Habs. unfold Gemini.generateMeetingSummary in Hgen.
    rewrite (apiKey_absent _ Habs) in Hgen. cbn in Hgen.
    injection Hgen as <- <-. auto. }
  destruct outcome as [result|err]; cbn.
  - repeat split; try reflexivity.
    + left. repeat split; try reflexivity.
      eexists. split; [reflexivity|]. cbn.
      assert (Gemini.transcript result = transcript) as ->.
      { eapply generateMeetingSummary_transcript. rewrite Hgen. reflexivity. }
      repeat split; try reflexivity; apply or_string_not_empty; discriminate.
    + destruct (Hkey H) as [Hd _]. discriminate Hd.
    + destruct (Hkey H) as [Hd _]. discriminate Hd.
  - repeat split; try reflexivity.
    + right. repeat split; reflexivity.
    + discriminate.
    + destruct (Hkey H) as [_ ->]. apply app_nil_r.
Qed.

Lemma handleStopRecording_endings_witness :
  App.state
    (Processing.handleStopRecording None (fun _ => Js.Returned None)
       (fun _ => Processing.Loads "GkXfow==")
       "1/2/2026" Sample.chunk (Some Sample.chunk) [] []
       (App.handleJoin Sample.meeting App.initial))
  ≠ SUMMARY
  ∧ App.requests
      (Processing.handleStopRecording None (fun _ => Js.Returned None)
         (fun _ => Processing.Loads "GkXfow==")
         "1/2/2026" Sample.chunk (Some Sample.chunk) [] []
         (App.handleJoin Sample.meeting App.initial))
    = App.requests (App.handleJoin Sample.meeting App.initial).
Proof.
  apply (proj1 (proj2 (proj2 (proj2 (proj2
           (handleStopRecording_endings None (fun _ => Js.Returned None)
              (fun _ => Processing.Loads "GkXfow==") "1/2/2026" Sample.chunk
              (Some Sample.chunk) [] []
              (App.handleJoin Sample.meeting App.initial))))))).
  left. reflexivity.
Defined.

(** ** The calendar import: URLs *)










Example extractUrl_zoom :
  Google.extractUrl "Join: https://zoom.us/j/123?pwd=abc (room 4)"
  = "https://zoom.us/j/123?pwd=abc"
  ∧ Google.extractUrl "zoom.us/j/123" = ""
  ∧ Google.extractUrl "see http:// and https://teams.microsoft.com/l/1" 
    = "https://teams.microsoft.com/l/1".
Proof. repeat split; reflexivity. Qed.

(** ** The calendar import: meetings *)

Lemma platformAndUrl_not_empty (event : Google.GEvent) :
  snd (Google.platformAndUrl event) ≠ "".
Proof.
  unfold Google.platformAndUrl.
  assert (Hurl : ∀ u, (if negb (Js.truthy u)
                       then Js.or_string (Google.ev_location event) "#" else u) ≠ "").
  { intros u. destruct (Js.truthy u) eqn:Hu; cbn [negb].
    - now apply truthy_not_empty.
    - apply or_string_not_empty. discriminate. }
  destruct (Js.truthy (Google.text (Google.ev_hangoutLink event))),
    (Google.mentions "zoom.us" (Google.ev_location event)),
    (Google.mentions "zoom.us" (Google.ev_description event)),
    (Google.mentions "teams.microsoft.com" (Google.ev_location event)),
    (Google.mentions "teams.microsoft.com" (Google.ev_description event));
    cbn [snd]; apply Hurl.
Qed.

(** X23: platform and URL of an imported event.  The URL is never empty (it
    falls back to the location and then to "#"), the platform is one of the
    three names, a Meet link wins over whatever the location and the
    description say, and Zoom is looked for before Teams; when a location
    of ASCII text names zoom.us, the meeting is a Zoom meeting whose URL is
    the link found in the location, or the location text itself when there
    is no link in it. *)
Theorem platform_and_url (event : Google.GEvent) :
  snd (Google.platformAndUrl event) ≠ ""
  ∧ In (fst (Google.platformAndUrl event)) ["Google Meet"; "Zoom"; "Microsoft Teams"]
  ∧ (∀ link, Google.ev_hangoutLink event = Some link → link ≠ "" →
       Google.platformAndUrl event = ("Google Meet", link))
  ∧ (Js.truthy (Google.text (Google.ev_hangoutLink event)) = false →
     ∀ location, Google.ev_location event = Some location →
       isAscii location = true →
       JsString.includes "zoom.us" location = true →
       Google.platformAndUrl event
       = ("Zoom", if Js.truthy (Google.extractUrl location)
                  then Google.extractUrl location else location))
  ∧ (fst (Google.platformAndUrl event) = "Microsoft Teams" →
       Google.mentions "zoom.us" (Google.ev_location event) = false
       ∧ Google.mentions "zoom.us" (Google.ev_description event) = false).
Proof.
  split; [apply platformAndUrl_not_empty|].
  unfold Google.platformAndUrl.
  split; [|split; [|split]].
  - destruct (Js.truthy (Google.text (Google.ev_hangoutLink event))),
      (Google.mentions "zoom.us" (Google.ev_location event)),
      (Google.mentions "zoom.us" (Google.ev_description event)),
      (Google.mentions "teams.microsoft.com" (Google.ev_location event)),
      (Google.mentions "teams.microsoft.com" (Google.ev_description event));
      cbn [fst In]; auto.
  - intros link Hl Hne. rewrite Hl. cbn [Google.text].
    apply truthy_not_empty in Hne. rewrite Hne. cbv beta iota. rewrite Hne. reflexivity.
  - intros Hno location Hloc _ Hz. rewrite Hno.
    assert (Js.truthy location = true) as Ht by (destruct location; [discriminate | reflexivity]).
    unfold Google.mentions. rewrite Hloc, Ht, Hz. cbn [andb Google.text]. cbv beta iota.
    destruct (Js.truthy (Google.extractUrl location)) eqn:Hu; cbn [negb]; [reflexivity|].
    unfold Js.or_string. rewrite Ht. reflexivity.
  - destruct (Js.truthy (Google.text (Google.ev_hangoutLink event))); [discriminate|].
    destruct (Google.mentions "zoom.us" (Google.ev_location event)); [discriminate|].
    destruct (Google.mentions "zoom.us" (Google.ev_description event)); [discriminate|].
    auto.
Qed.

Lemma platform_and_url_witness :
  Google.platformAndUrl
    {| Google.ev_id := "e1"; Google.ev_status := Some "confirmed";
       Google.ev_summary := Some "Sync"; Google.ev_hangoutLink := None;
       Google.ev_location := Some "zoom.us/j/123 (no link)";
       Google.ev_description := Some "https://teams.microsoft.com/l/1";
       Google.ev_start := 0; Google.ev_end := 1800000;
       Google.ev_attendees := None |}
  = ("Zoom", "zoom.us/j/123 (no link)").
Proof.
  apply (proj1 (proj2 (proj2 (proj2 (platform_and_url
           {| Google.ev_id := "e1"; Google.ev_status := Some "confirmed";
              Google.ev_summary := Some "Sync"; Google.ev_hangoutLink := None;
              Google.ev_location := Some "zoom.us/j/123 (no link)";
              Google.ev_description := Some "https://teams.microsoft.com/l/1";
              Google.ev_start := 0; Google.ev_end := 1800000;
              Google.ev_attendees := None |}))))
           eq_refl "zoom.us/j/123 (no link)" eq_refl eq_refl eq_refl).
Defined.

Lemma mapAttendee_spec (encodeURIComponent : string → string)
    (index : nat) (a : Google.GAttendee) :
  (nameless a = true →
     Google.mapAttendee encodeURIComponent index a = Js.Thrown Google.splitOfUndefined)
  ∧ (nameless a = false →
       ∃ out, Google.mapAttendee encodeURIComponent index a = Js.Returned out
              ∧ a_email out = Google.text (Google.ga_email a)
              ∧ a_id out
                = Js.or_string (Google.ga_email a) ("att-" ++ Display.toString index)).
Proof.
  unfold nameless, Google.mapAttendee.
  destruct (Js.truthy (Google.text (Google.ga_displayName a))); cbn [negb andb].
  - split; [discriminate|]. intros _. eexists. repeat split.
  - destruct (Google.ga_email a) as [email|]; cbn [option_map].
    + split; [discriminate|]. intros _. eexists. repeat split.
    + split; [reflexivity | discriminate].
Qed.

Lemma mapFrom_attendees (encodeURIComponent : string → string)
    (l : list Google.GAttendee) (index : nat) :
  (existsb nameless l = true →
     JsString.mapFrom (Google.mapAttendee encodeURIComponent) index l
     = Js.Thrown Google.splitOfUndefined)
  ∧ (existsb nameless l = false →
       ∃ out, JsString.mapFrom (Google.mapAttendee encodeURIComponent) index l
              = Js.Returned out
              ∧ map a_email out = map (fun a => Google.text (Google.ga_email a)) l
              ∧ ∀ (j : nat) (a : Google.GAttendee) (o : Attendee),
                  l !! j = Some a → out !! j = Some o →
                  a_id o = Js.or_string (Google.ga_email a)
                             ("att-" ++ Display.toString (index + j))).
Proof.
  revert index. induction l as [|a l IH]; intros index.
  - split; [discriminate|]. intros _. exists []. repeat split. intros j a o Hj. discriminate.
  - destruct (IH (S index)) as [IHbad IHgood].
    destruct (mapAttendee_spec encodeURIComponent index a) as [Hbad Hgood].
    cbn [existsb JsString.mapFrom]. destruct (nameless a) eqn:Hn.
    + split; [|discriminate]. intros _. rewrite (Hbad eq_refl). reflexivity.
    + destruct (Hgood eq_refl) as (o1 & -> & He & Hid). cbn [orb]. split.
      * intros Hex. rewrite (IHbad Hex). reflexivity.
      * intros Hex. destruct (IHgood Hex) as (out & -> & Hemails & Hids).
        exists (o1 :: out). split; [reflexivity|]. split.
        -- cbn [map]. rewrite He, Hemails. reflexivity.
        -- intros [|j] a' o' Ha Ho; cbn in Ha, Ho.
           ++ injection Ha as <-. injection Ho as <-. rewrite Hid.
              now rewrite Nat.add_0_r.
           ++ rewrite (Hids j a' o' Ha Ho). now rewrite Nat.add_succ_r.
Qed.

Lemma mapEvent_spec (toLocaleTimeString : Z → string) (encodeURIComponent : string → string)
    (event : Google.GEvent) :
  (mappable event = false →
     Google.mapEvent toLocaleTimeString encodeURIComponent event
     = Js.Thrown Google.splitOfUndefined)
  ∧ (mappable event = true →
       ∃ cm, Google.mapEvent toLocaleTimeString encodeURIComponent event = Js.Returned cm
             ∧ m_id (Google.cm_meeting cm) = Google.ev_id event
             ∧ Google.cm_source cm = "GOOGLE_CALENDAR"
             ∧ m_title (Google.cm_meeting cm)
               = Js.or_string (Google.ev_summary event) "(No Title)"
             ∧ m_url (Google.cm_meeting cm) = snd (Google.platformAndUrl event)
             ∧ m_duration (Google.cm_meeting cm) = Google.durationStr event).
Proof.
  unfold mappable, Google.mapEvent, Google.mapAttendees.
  fold (guests (Google.ev_attendees event)).
  destruct (Google.platformAndUrl event) as [p u].
  destruct (mapFrom_attendees encodeURIComponent (guests (Google.ev_attendees event)) 0)
    as [Hbad Hgood].
  destruct (existsb nameless (guests (Google.ev_attendees event))); cbn [negb].
  - split; [|discriminate]. intros _. rewrite (Hbad eq_refl). reflexivity.
  - split; [discriminate|]. intros _. destruct (Hgood eq_refl) as (out & -> & _).
    eexists. repeat split.
Qed.

Lemma mapFrom_events (toLocaleTimeString : Z → string) (encodeURIComponent : string → string)
    (l : list Google.GEvent) (index : nat) :
  (forallb mappable l = false →
     JsString.mapFrom (fun _ => Google.mapEvent toLocaleTimeString encodeURIComponent)
       index l
     = Js.Thrown Google.splitOfUndefined)
  ∧ (forallb mappable l = true →
       ∃ meetings,
         JsString.mapFrom (fun _ => Google.mapEvent toLocaleTimeString encodeURIComponent)
           index l
         = Js.Returned meetings
         ∧ map (fun m => m_id (Google.cm_meeting m)) meetings = map Google.ev_id l
         ∧ Forall (fun m => Google.cm_source m = "GOOGLE_CALENDAR"
                            ∧ m_title (Google.cm_meeting m) ≠ ""
                            ∧ m_url (Google.cm_meeting m) ≠ "")
             meetings).
Proof.
  revert index. induction l as [|event l IH]; intros index.
  - split; [discriminate|]. intros _. exists []. repeat split. constructor.
  - destruct (IH (S index)) as [IHbad IHgood].
    destruct (mapEvent_spec toLocaleTimeString encodeURIComponent event) as [Hbad Hgood].
    cbn [forallb JsString.mapFrom]. destruct (mappable event) eqn:Hm.
    + destruct (Hgood eq_refl) as (cm & -> & Hid & Hs & Ht & Hu & _). cbn [andb]. split.
      * intros Hall. rewrite (IHbad Hall). reflexivity.
      * intros Hall. destruct (IHgood Hall) as (meetings & -> & Hids & Hrest).
        exists (cm :: meetings). split; [reflexivity|]. split.
        -- cbn [map]. rewrite Hid, Hids. reflexivity.
        -- constructor; [|exact Hrest]. rewrite Hs, Ht, Hu. repeat split.
           ++ apply or_string_not_empty. discriminate.
           ++ apply platformAndUrl_not_empty.
    + split; [|discriminate]. intros _. rewrite (Hbad eq_refl). reflexivity.
Qed.

(** X24: what the import lists.  With a token and a response that is [ok],
    [fetchGoogleCalendarEvents] makes one request.  When no event that is
    not cancelled has an attendee (room resources apart) with neither
    display name nor email, it returns one meeting for every event that is
    not cancelled, in the order of the response and under the id the
    calendar gave it; cancelled events never appear, and a response without
    [items] gives the empty list; every meeting returned is tagged
    GOOGLE_CALENDAR and has a title and a URL that are not empty.  One such
    attendee in one such event fails the whole import with the [TypeError]
    of reading [split] off the missing email. *)
Theorem import_lists_live_events
    (timeMin timeMax token : string) (fetch : Google.Request → Js.Outcome Google.Response)
    (toLocaleTimeString : Z → string) (encodeURIComponent : string → string)
    (g : Google.Service) (response : Google.Response) :
  Google.accessToken g = Some token →
  token ≠ "" →
  fetch {| Google.rq_timeMin := timeMin; Google.rq_timeMax := timeMax;
           Google.rq_authorization := "Bearer " ++ token |} = Js.Returned response →
  Google.ok response = true →
  (forallb mappable (live response) = true →
     ∃ meetings,
       Google.fetchGoogleCalendarEvents timeMin timeMax fetch toLocaleTimeString
         encodeURIComponent g
       = (Js.Returned meetings,
          [ {| Google.rq_timeMin := timeMin; Google.rq_timeMax := timeMax;
               Google.rq_authorization := "Bearer " ++ token |} ])
       ∧ map (fun m => m_id (Google.cm_meeting m)) meetings
         = map Google.ev_id (live response)
       ∧ Forall (fun m => Google.cm_source m = "GOOGLE_CALENDAR"
                          ∧ m_title (Google.cm_meeting m) ≠ ""
                          ∧ m_url (Google.cm_meeting m) ≠ "")
           meetings)
  ∧ (forallb mappable (live response) = false →
       Google.fetchGoogleCalendarEvents timeMin timeMax fetch toLocaleTimeString
         encodeURIComponent g
       = (Js.Thrown Google.splitOfUndefined,
          [ {| Google.rq_timeMin := timeMin; Google.rq_timeMax := timeMax;
               Google.rq_authorization := "Bearer " ++ token |} ])).
Proof.
  intros Htok Hne Hfetch Hok. apply truthy_not_empty in Hne.
  unfold Google.fetchGoogleCalendarEvents. rewrite Htok, Hne. cbn [negb].
  rewrite Hfetch, Hok. cbn [negb].
  change (List.filter
            (fun event => negb match Google.ev_status event with
                               | Some st => String.eqb st "cancelled"
                               | None => false
                               end)
            (Js.or_array (Google.items response) []))
    with (live response).
  destruct (mapFrom_events toLocaleTimeString encodeURIComponent (live response) 0)
    as [Hbad Hgood].
  split.
  - intros Hall. destruct (Hgood Hall) as (meetings & -> & Hids & Hrest).
    exists meetings. repeat split; assumption.
  - intros Hall. rewrite (Hbad Hall). reflexivity.
Qed.

Lemma import_lists_live_events_witness :
  (∃ meetings,
     Google.fetchGoogleCalendarEvents "2026-01-02T09:00:00.000Z" "2026-01-09T09:00:00.000Z"
       (fun _ => Js.Returned SampleImport.answer) (fun _ => "10:00 AM") (fun s => s)
       SampleImport.signedIn
     = (Js.Returned meetings,
        [ {| Google.rq_timeMin := "2026-01-02T09:00:00.000Z";
             Google.rq_timeMax := "2026-01-09T09:00:00.000Z";
             Google.rq_authorization := "Bearer " ++ "ya29.token" |} ])
     ∧ map (fun m => m_id (Google.cm_meeting m)) meetings
       = map Google.ev_id (live SampleImport.answer)
     ∧ Forall (fun m => Google.cm_source m = "GOOGLE_CALENDAR"
                        ∧ m_title (Google.cm_meeting m) ≠ ""
                        ∧ m_url (Google.cm_meeting m) ≠ "")
         meetings)
  ∧ Google.fetchGoogleCalendarEvents "2026-01-02T09:00:00.000Z" "2026-01-09T09:00:00.000Z"
      (fun _ => Js.Returned SampleImport.broken) (fun _ => "10:00 AM") (fun s => s)
      SampleImport.signedIn
    = (Js.Thrown Google.splitOfUndefined,
       [ {| Google.rq_timeMin := "2026-01-02T09:00:00.000Z";
            Google.rq_timeMax := "2026-01-09T09:00:00.000Z";
            Google.rq_authorization := "Bearer " ++ "ya29.token" |} ]).
Proof.
  split.
  - apply (proj1 (import_lists_live_events "2026-01-02T09:00:00.000Z"
                    "2026-01-09T09:00:00.000Z" "ya29.token"
                    (fun _ => Js.Returned SampleImport.answer)
                    (fun _ => "10:00 AM") (fun s => s) SampleImport.signedIn
                    SampleImport.answer eq_refl ltac:(discriminate) eq_refl eq_refl)).
    reflexivity.
  - apply (proj2 (import_lists_live_events "2026-01-02T09:00:00.000Z"
                    "2026-01-09T09:00:00.000Z" "ya29.token"
                    (fun _ => Js.Returned SampleImport.broken)
                    (fun _ => "10:00 AM") (fun s => s) SampleImport.signedIn
                    SampleImport.broken eq_refl ltac:(discriminate) eq_refl eq_refl)).
    reflexivity.
Defined.

Example import_sample :
  fst (Google.fetchGoogleCalendarEvents "2026-01-02T09:00:00.000Z"
         "2026-01-09T09:00:00.000Z"
         (fun _ => Js.Returned SampleImport.answer) (fun _ => "10:00 AM") (fun s => s)
         SampleImport.signedIn)
  = Js.Returned
      [ {| Google.cm_meeting :=
             {| m_id := "e1"; m_title := "Standup"; m_platform := "Google Meet";
                m_time := "10:00 AM"; m_duration := "15 min";
                m_url := "https://meet.google.com/abc-defg-hij";
                m_attendees :=
                  [ {| a_id := "sarah.c@techcorp.com"; a_name := "sarah.c";
                       a_email := "sarah.c@techcorp.com";
                       a_avatar := "https://ui-avatars.com/api/?name=sarah.c@techcorp.com&background=random" |};
                    {| a_id := "att-1"; a_name := "Alex Kim"; a_email := "";
                       a_avatar := "https://ui-avatars.com/api/?name=Alex Kim&background=random" |} ] |};
           Google.cm_source := "GOOGLE_CALENDAR" |};
        {| Google.cm_meeting :=
             {| m_id := "e3"; m_title := "(No Title)"; m_platform := "Microsoft Teams";
                m_time := "10:00 AM"; m_duration := "2 min";
                m_url := "https://teams.microsoft.com/l/meetup-join/1";
                m_attendees := [] |};
           Google.cm_source := "GOOGLE_CALENDAR" |} ].
Proof. vm_compute. reflexivity. Qed.

(** X25: when the import fails.  Without an access token (none, or an empty
    one) [fetchGoogleCalendarEvents] throws "No access token available. User
    must sign in first." and makes no request.  With a token it makes one
    request, carrying "Bearer" and the token; if the request itself fails
    that failure is thrown on, and if the response is not [ok] the error is
    "Failed to fetch calendar events: " followed by the status text,
    whatever the body holds. *)
Theorem import_failures
    (timeMin timeMax : string) (fetch : Google.Request → Js.Outcome Google.Response)
    (toLocaleTimeString : Z → string) (encodeURIComponent : string → string)
    (g : Google.Service) :
  (Google.accessToken g = None ∨ Google.accessToken g = Some "" →
     Google.fetchGoogleCalendarEvents timeMin timeMax fetch toLocaleTimeString
       encodeURIComponent g
     = (Js.Thrown {| Js.name := "Error";
                     Js.message := "No access token available. User must sign in first." |},
        []))
  ∧ (∀ token, Google.accessToken g = Some token → token ≠ "" →
       snd (Google.fetchGoogleCalendarEvents timeMin timeMax fetch toLocaleTimeString
              encodeURIComponent g)
       = [ {| Google.rq_timeMin := timeMin; Google.rq_timeMax := timeMax;
              Google.rq_authorization := "Bearer " ++ token |} ]
       ∧ (∀ e, fetch {| Google.rq_timeMin := timeMin; Google.rq_timeMax := timeMax;
                        Google.rq_authorization := "Bearer " ++ token |} = Js.Thrown e →
               fst (Google.fetchGoogleCalendarEvents timeMin timeMax fetch
                      toLocaleTimeString encodeURIComponent g) = Js.Thrown e)
       ∧ (∀ response,
            fetch {| Google.rq_timeMin := timeMin; Google.rq_timeMax := timeMax;
                     Google.rq_authorization := "Bearer " ++ token |}
            = Js.Returned response →
            Google.ok response = false →
            fst (Google.fetchGoogleCalendarEvents timeMin timeMax fetch
                   toLocaleTimeString encodeURIComponent g)
            = Js.Thrown {| Js.name := "Error";
                           Js.message := "Failed to fetch calendar events: "
                                         ++ Google.statusText response |})).
Proof.
  unfold Google.fetchGoogleCalendarEvents. split.
  - intros [-> | ->]; reflexivity.
  - intros token -> Hne. apply truthy_not_empty in Hne. rewrite Hne. cbn [negb].
    destruct (fetch _) as [response|err] eqn:Hf.
    + destruct (Google.ok response) eqn:Hok; cbn [negb fst snd];
        (split; [reflexivity|]); (split; [discriminate|]);
        intros r [= <-]; congruence.
    + cbn [fst snd]. split; [reflexivity|]. split; [|discriminate].
      intros e [= <-]. reflexivity.
Qed.

Lemma import_failures_witness :
  Google.fetchGoogleCalendarEvents "2026-01-02T09:00:00.000Z" "2026-01-09T09:00:00.000Z"
    (fun _ => Js.Returned SampleImport.answer) (fun _ => "10:00 AM") (fun s => s)
    (Google.load (Some "id.apps.googleusercontent.com"))
  = (Js.Thrown {| Js.name := "Error";
                  Js.message := "No access token available. User must sign in first." |},
     [])
  ∧ fst (Google.fetchGoogleCalendarEvents "2026-01-02T09:00:00.000Z"
           "2026-01-09T09:00:00.000Z"
           (fun _ => Js.Returned {| Google.ok := false;
                                    Google.statusText := "Forbidden";
                                    Google.items := Some [SampleImport.standup] |})
           (fun _ => "10:00 AM") (fun s => s) SampleImport.signedIn)
    = Js.Thrown {| Js.name := "Error";
                   Js.message := "Failed to fetch calendar events: " ++ "Forbidden" |}.
Proof.
  split.
  - apply (proj1 (import_failures "2026-01-02T09:00:00.000Z" "2026-01-09T09:00:00.000Z"
                    (fun _ => Js.Returned SampleImport.answer) (fun _ => "10:00 AM")
                    (fun s => s) (Google.load (Some "id.apps.googleusercontent.com")))).
    left. reflexivity.
  - apply (proj2 (proj2 (proj2 (import_failures "2026-01-02T09:00:00.000Z"
                    "2026-01-09T09:00:00.000Z"
                    (fun _ => Js.Returned {| Google.ok := false;
                                             Google.statusText := "Forbidden";
                                             Google.items := Some [SampleImport.standup] |})
                    (fun _ => "10:00 AM") (fun s => s) SampleImport.signedIn)
                  "ya29.token" eq_refl ltac:(discriminate)))
             {| Google.ok := false; Google.statusText := "Forbidden";
                Google.items := Some [SampleImport.standup] |});
      reflexivity.
Defined.

(** X26: the attendees of an imported event.  Room resources are left out
    before anything else.  If one of the others has neither a display name
    nor an email, the mapping throws the [TypeError] of reading [split] off
    the missing email.  Otherwise the others are kept in their order with
    their email, and each gets as id its email, or "att-" and its position
    among the kept ones when the email is missing or empty: so the id is
    never empty, and when all the emails are there the ids are the emails.
    An event without attendees gives none. *)
Theorem imported_attendees
    (encodeURIComponent : string → string) (attendees : option (list Google.GAttendee)) :
  (existsb nameless (guests attendees) = true →
     Google.mapAttendees encodeURIComponent attendees = Js.Thrown Google.splitOfUndefined)
  ∧ (existsb nameless (guests attendees) = false →
       ∃ out,
         Google.mapAttendees encodeURIComponent attendees = Js.Returned out
         ∧ map a_email out
           = map (fun a => Google.text (Google.ga_email a)) (guests attendees)
         ∧ (∀ (j : nat) (a : Google.GAttendee) (o : Attendee),
              guests attendees !! j = Some a → out !! j = Some o →
              a_id o = Js.or_string (Google.ga_email a) ("att-" ++ Display.toString j))
         ∧ Forall (fun o => a_id o ≠ "") out
         ∧ (Forall (fun a => Js.truthy (Google.text (Google.ga_email a)) = true)
              (guests attendees) →
            map a_id out = map a_email out))
  ∧ (attendees = None → Google.mapAttendees encodeURIComponent attendees = Js.Returned []).
Proof.
  unfold Google.mapAttendees. fold (guests attendees).
  destruct (mapFrom_attendees encodeURIComponent (guests attendees) 0) as [Hbad Hgood].
  split; [exact Hbad|]. split.
  - intros Hex. destruct (Hgood Hex) as (out & Hout & Hemails & Hids).
    exists out. split; [exact Hout|]. split; [exact Hemails|].
    assert (Hlen : length out = length (guests attendees)).
    { rewrite <- (length_map a_email out), Hemails. apply length_map. }
    split; [exact Hids|]. split.
    + apply Forall_lookup. intros j o Ho.
      destruct (guests attendees !! j) as [a|] eqn:Ha.
      * rewrite (Hids j a o Ha Ho). apply or_string_not_empty.
        unfold Display.toString. discriminate.
      * apply lookup_ge_None in Ha. apply lookup_lt_Some in Ho. lia.
    + intros Hall. rewrite Hemails. apply list_eq. intros j.
      rewrite !list_lookup_fmap.
      destruct (out !! j) as [o|] eqn:Ho; destruct (guests attendees !! j) as [a|] eqn:Ha;
        cbn.
      * f_equal. rewrite (Hids j a o Ha Ho).
        rewrite Forall_lookup in Hall. specialize (Hall j a Ha).
        unfold Js.or_string. destruct (Google.ga_email a) as [email|].
        -- cbn in Hall. rewrite Hall. reflexivity.
        -- discriminate.
      * apply lookup_ge_None in Ha. apply lookup_lt_Some in Ho. lia.
      * apply lookup_ge_None in Ho. apply lookup_lt_Some in Ha. lia.
      * reflexivity.
  - intros ->. reflexivity.
Qed.

Lemma imported_attendees_witness :
  Google.mapAttendees (fun s => s) (Google.ev_attendees SampleImport.anonymous)
  = Js.Thrown Google.splitOfUndefined
  ∧ (∃ out,
       Google.mapAttendees (fun s => s) (Google.ev_attendees SampleImport.standup)
       = Js.Returned out
       ∧ map a_email out
         = map (fun a => Google.text (Google.ga_email a))
             (guests (Google.ev_attendees SampleImport.standup))
       ∧ (∀ (j : nat) (a : Google.GAttendee) (o : Attendee),
            guests (Google.ev_attendees SampleImport.standup) !! j = Some a →
            out !! j = Some o →
            a_id o = Js.or_string (Google.ga_email a) ("att-" ++ Display.toString j))
       ∧ Forall (fun o => a_id o ≠ "") out
       ∧ (Forall (fun a => Js.truthy (Google.text (Google.ga_email a)) = true)
            (guests (Google.ev_attendees SampleImport.standup)) →
          map a_id out = map a_email out)).
Proof.
  split.
  - apply (proj1 (imported_attendees (fun s => s)
                    (Google.ev_attendees SampleImport.anonymous))).
    reflexivity.
  - apply (proj1 (proj2 (imported_attendees (fun s => s)
                           (Google.ev_attendees SampleImport.standup)))).
    reflexivity.
Defined.



(** ** The Google client id *)

Lemma list_rev_string (s acc : string) :
  list_ascii_of_string (Js.rev_string s acc)
  = (rev (list_ascii_of_string s) ++ list_ascii_of_string acc)%list.
Proof.
  revert acc. induction s as [|c s IH]; intros acc; [reflexivity|].
  cbn. rewrite IH. cbn. rewrite <- app_assoc. reflexivity.
Qed.

Lemma list_trimStart (s : string) :
  list_ascii_of_string (Js.trimStart s) = dropWhite (list_ascii_of_string s).
Proof.
  induction s as [|c s IH]; [reflexivity|].
  cbn. destruct (Js.isWhite c); [exact IH | reflexivity].
Qed.

Lemma list_trim (s : string) :
  list_ascii_of_string (Js.trim s)
  = rev (dropWhite (rev (dropWhite (list_ascii_of_string s)))).
Proof.
  unfold Js.trim.
  rewrite list_rev_string, list_trimStart, list_rev_string, list_trimStart.
  cbn. rewrite !app_nil_r. reflexivity.
Qed.

Lemma dropWhite_fix (l : list ascii) :
  match l with c :: _ => Js.isWhite c = false | [] => True end → dropWhite l = l.
Proof. destruct l as [|c l]; [reflexivity|]. cbn. now intros ->. Qed.

Lemma dropWhite_head (l : list ascii) :
  match dropWhite l with c :: _ => Js.isWhite c = false | [] => True end.
Proof.
  induction l as [|c l IH]; [exact I|]. cbn.
  destruct (Js.isWhite c) eqn:Hc; [exact IH | exact Hc].
Qed.

Lemma dropWhite_suffix (l : list ascii) : ∃ w, l = (w ++ dropWhite l)%list.
Proof.
  induction l as [|c l [w Hw]]; [exists []; reflexivity|]. cbn.
  destruct (Js.isWhite c); [|exists []; reflexivity].
  exists (c :: w). cbn. now rewrite <- Hw.
Qed.

Lemma trim_idempotent (s : string) : Js.trim (Js.trim s) = Js.trim s.
Proof.
  rewrite <- (string_of_list_ascii_of_string (Js.trim (Js.trim s))).
  rewrite <- (string_of_list_ascii_of_string (Js.trim s)) at 2.
  f_equal. rewrite (list_trim (Js.trim s)), (list_trim s).
  set (m := dropWhite (list_ascii_of_string s)).
  set (k := dropWhite (rev m)).
  assert (Hk : dropWhite (rev k) = rev k).
  { apply dropWhite_fix.
    destruct (dropWhite_suffix (rev m)) as [w Hw]. fold k in Hw.
    assert (Hm : m = (rev k ++ rev w)%list)
      by (rewrite <- rev_app_distr, <- Hw, rev_involutive; reflexivity).
    pose proof (dropWhite_head (list_ascii_of_string s)) as Hhead. fold m in Hhead.
    destruct (rev k) as [|c r]; [exact I|]. rewrite Hm in Hhead. exact Hhead. }
  rewrite Hk, rev_involutive.
  rewrite (dropWhite_fix k); [reflexivity|]. apply dropWhite_head.
Qed.

(** X28: the client id survives a reload.  When the typed id is ASCII text
    with a character that is not white space, [handleSaveClientId] stores
    the trimmed id,
    hands it to the Google service (which then has a client id) and closes
    the settings; a later first render with no id from the environment reads
    the stored id back: the service holds the same trimmed id again and the
    settings stay closed.  A blank id is not saved. *)
Theorem client_id_round_trip (s : GoogleConnect.State) :
  (isAscii (GoogleConnect.tempClientId s) = true →
   Js.truthy (Js.trim (GoogleConnect.tempClientId s)) = true →
     GoogleConnect.stored (GoogleConnect.handleSaveClientId s)
     = Some (Js.trim (GoogleConnect.tempClientId s))
     ∧ Google.clientId (GoogleConnect.service (GoogleConnect.handleSaveClientId s))
       = Js.trim (GoogleConnect.tempClientId s)
     ∧ Google.hasGoogleClientId (GoogleConnect.service (GoogleConnect.handleSaveClientId s))
       = true
     ∧ GoogleConnect.missingClientId (GoogleConnect.handleSaveClientId s) = false
     ∧ GoogleConnect.showConfig (GoogleConnect.handleSaveClientId s) = false
     ∧ Google.clientId
         (GoogleConnect.service
            (GoogleConnect.mount (Google.load None)
               (GoogleConnect.stored (GoogleConnect.handleSaveClientId s))))
       = Js.trim (GoogleConnect.tempClientId s)
     ∧ GoogleConnect.missingClientId
         (GoogleConnect.mount (Google.load None)
            (GoogleConnect.stored (GoogleConnect.handleSaveClientId s)))
       = false)
  ∧ (Js.truthy (Js.trim (GoogleConnect.tempClientId s)) = false →
       GoogleConnect.handleSaveClientId s = s).
Proof.
  unfold GoogleConnect.handleSaveClientId.
  destruct (Js.truthy (Js.trim (GoogleConnect.tempClientId s))) eqn:Ht;
    [|split; [discriminate | reflexivity]].
  split; [intros _ _ | discriminate].
  assert (Hmount :
    GoogleConnect.mount (Google.load None) (Some (Js.trim (GoogleConnect.tempClientId s)))
    = {| GoogleConnect.missingClientId := false;
         GoogleConnect.tempClientId := Js.trim (GoogleConnect.tempClientId s);
         GoogleConnect.showConfig := false;
         GoogleConnect.service :=
           Google.setGoogleClientId (Js.trim (GoogleConnect.tempClientId s))
             (Google.load None);
         GoogleConnect.stored := Some (Js.trim (GoogleConnect.tempClientId s));
         GoogleConnect.connects := [] |}).
  { unfold GoogleConnect.mount.
    change (Google.hasGoogleClientId (Google.load None)) with false.
    cbn [negb]. rewrite Ht. reflexivity. }
  cbn [GoogleConnect.stored GoogleConnect.service GoogleConnect.missingClientId
       GoogleConnect.showConfig].
  rewrite Hmount.
  cbn [GoogleConnect.service GoogleConnect.missingClientId].
  unfold Google.hasGoogleClientId, Google.setGoogleClientId. cbn [Google.clientId].
  rewrite !trim_idempotent, Ht. repeat split; reflexivity.
Qed.

Lemma client_id_round_trip_witness :
  Google.clientId
    (GoogleConnect.service
       (GoogleConnect.mount (Google.load None)
          (GoogleConnect.stored
             (GoogleConnect.handleSaveClientId
                (GoogleConnect.setTempClientId "  id.apps.googleusercontent.com "
                   (GoogleConnect.mount (Google.load None) None))))))
  = Js.trim "  id.apps.googleusercontent.com ".
Proof.
  apply (proj1 (client_id_round_trip
                  (GoogleConnect.setTempClientId "  id.apps.googleusercontent.com "
                     (GoogleConnect.mount (Google.load None) None)))).
  - reflexivity.
  - reflexivity.
Defined.

(** ** Connecting the calendar *)

(** X29: the connect button asks for a client id first.  [handleConnectClick]
    calls [onConnect] exactly when the Google service has a client id;
    otherwise it opens the client-id form and calls nothing.  So a sign-in
    started from the button never fails with GOOGLE_CLIENT_ID_MISSING, while
    one started without a client id (the script being loaded) always does,
    and leaves the service as it was.  The demo button connects in any
    case. *)
Theorem connect_asks_for_client_id
    (s : GoogleConnect.State) (google : option (option Js.Error)) :
  (Google.hasGoogleClientId (GoogleConnect.service s) = false →
     GoogleConnect.connects (GoogleConnect.handleConnectClick s) = GoogleConnect.connects s
     ∧ GoogleConnect.missingClientId (GoogleConnect.handleConnectClick s) = true
     ∧ (google ≠ None →
        Google.initTokenClient google (GoogleConnect.service s)
        = (Js.Thrown {| Js.name := "Error"; Js.message := "GOOGLE_CLIENT_ID_MISSING" |},
           GoogleConnect.service s)))
  ∧ (Google.hasGoogleClientId (GoogleConnect.service s) = true →
       GoogleConnect.connects (GoogleConnect.handleConnectClick s)
       = (GoogleConnect.connects s ++ [false])%list
       ∧ GoogleConnect.service (GoogleConnect.handleConnectClick s) = GoogleConnect.service s
       ∧ ∀ e, fst (Google.initTokenClient google (GoogleConnect.service s)) = Js.Thrown e →
              Js.message e = "GOOGLE_CLIENT_ID_MISSING" →
              google = Some (Some e))
  ∧ GoogleConnect.connects (GoogleConnect.handleDemoMode s)
    = (GoogleConnect.connects s ++ [true])%list.
Proof.
  unfold GoogleConnect.handleConnectClick, Google.initTokenClient, Google.hasGoogleClientId.
  split; [|split; [|reflexivity]].
  - intros ->. cbn [negb GoogleConnect.connects GoogleConnect.missingClientId].
    repeat split. intros Hg. destruct google as [fails|]; [reflexivity | congruence].
  - intros ->. cbn [negb GoogleConnect.connects GoogleConnect.service].
    repeat split. intros e He Hm.
    destruct google as [[e'|]|]; cbn in He.
    + destruct (Google.tokenClientMade _); [discriminate|]. cbn in He. congruence.
    + destruct (Google.tokenClientMade _); discriminate.
    + injection He as <-. discriminate Hm.
Qed.

Lemma connect_asks_for_client_id_witness :
  GoogleConnect.connects
    (GoogleConnect.handleConnectClick (GoogleConnect.mount (Google.load None) None))
  = []
  ∧ GoogleConnect.connects
      (GoogleConnect.handleConnectClick
         (GoogleConnect.mount (Google.load (Some "id.apps.googleusercontent.com")) None))
    = [false].
Proof.
  split.
  - apply (proj1 (proj1 (connect_asks_for_client_id
                           (GoogleConnect.mount (Google.load None) None) None)
                   eq_refl)).
  - apply (proj1 (proj1 (proj2 (connect_asks_for_client_id
                           (GoogleConnect.mount
                              (Google.load (Some "id.apps.googleusercontent.com")) None)
                           None))
                   eq_refl)).
Defined.

Lemma catch_outcome (error : Connect.Rejection) (s : Connect.State) :
  Connect.isGoogleLoading (Connect.handleGoogleConnect_catch error s) = false
  ∧ Connect.user (Connect.handleGoogleConnect_catch error s) = Connect.user s
  ∧ App.meetings (Connect.app (Connect.handleGoogleConnect_catch error s))
    = App.meetings (Connect.app s)
  ∧ App.state (Connect.app (Connect.handleGoogleConnect_catch error s))
    = App.state (Connect.app s)
  ∧ (Connect.eqText (Connect.message error) "GOOGLE_CLIENT_ID_MISSING" = true →
     Connect.handleGoogleConnect_catch error s
     = {| Connect.app := Connect.app s; Connect.user := Connect.user s;
          Connect.isGoogleLoading := false;
          Connect.googleError := Connect.googleError s |})
  ∧ (Connect.eqText (Connect.message error) "GOOGLE_CLIENT_ID_MISSING" = false →
     Connect.googleError (Connect.handleGoogleConnect_catch error s) ≠ None)
  ∧ (App.processingError (Connect.app (Connect.handleGoogleConnect_catch error s))
     = App.processingError (Connect.app s)
     ∨ App.processingError (Connect.app (Connect.handleGoogleConnect_catch error s))
       = Some "Could not connect to Google Calendar. Check if popups are blocked."
       ∧ Connect.googleError (Connect.handleGoogleConnect_catch error s) ≠ None).
Proof.
  unfold Connect.handleGoogleConnect_catch.
  destruct (Connect.eqText (Connect.message error) "GOOGLE_CLIENT_ID_MISSING").
  - cbn. repeat split; auto; discriminate.
  - cbv zeta.
    destruct (_ || _ || _); cbn; repeat split; auto; try discriminate;
      try (right; split; [reflexivity | discriminate]).
Qed.

Lemma signIn_hangs (w : Connect.World) (g : Google.Service) :
  Connect.hangs false w g
  = match fst (Connect.signInWithGoogle w g) with
    | Connect.Pending => true
    | _ => false
    end.
Proof.
  unfold Connect.hangs, Connect.signInWithGoogle.
  destruct (Google.initTokenClient (Connect.google w) g) as [[u|e] g'];
    cbn [fst negb andb]; [|reflexivity].
  destruct (Connect.popup w) as [resp|e|]; try reflexivity.
  destruct (Js.truthy (Google.text (Connect.tr_error resp))); [reflexivity|].
  cbv zeta. destruct (Connect.fetchUserInfo w _) as [response|err]; [|reflexivity].
  destruct (negb (Connect.ui_ok response)); reflexivity.
Qed.

(** X30: how a connection attempt ends, whatever the outside world does.
    The loading flag stays on exactly when the attempt hangs: outside demo
    mode, with the token client there and a popup that never answers.  In
    every case the meetings shown before are still there, first and
    unchanged, and the view of the app is the same; when a Google error is
    shown nothing was imported; and the banner "Could not connect to Google
    Calendar. Check if popups are blocked." appears only together with a
    Google error.  In demo mode the demo user is signed in, the demo
    meetings are merged, no error is shown and the Google service is not
    touched.  Without a client id (the script being loaded) the attempt ends
    without a word: no error, the user and the meetings as before. *)
Theorem connecting_ends
    (isDemo : bool) (w : Connect.World) (s : Connect.State) (g : Google.Service) :
  Connect.isGoogleLoading (fst (Connect.handleGoogleConnect isDemo w s g))
  = Connect.hangs isDemo w g
  ∧ App.meetings (Connect.app s)
      `prefix_of` App.meetings (Connect.app (fst (Connect.handleGoogleConnect isDemo w s g)))
  ∧ App.state (Connect.app (fst (Connect.handleGoogleConnect isDemo w s g)))
    = App.state (Connect.app s)
  ∧ (Connect.googleError (fst (Connect.handleGoogleConnect isDemo w s g)) ≠ None →
     App.meetings (Connect.app (fst (Connect.handleGoogleConnect isDemo w s g)))
     = App.meetings (Connect.app s))
  ∧ (App.processingError (Connect.app (fst (Connect.handleGoogleConnect isDemo w s g)))
     ≠ None →
     Connect.googleError (fst (Connect.handleGoogleConnect isDemo w s g)) ≠ None)
  ∧ (isDemo = true →
     Connect.handleGoogleConnect isDemo w s g
     = ({| Connect.app :=
             App.setMeetings App.mergeDemo (Connect.setProcessingError None (Connect.app s));
           Connect.user := Some Connect.MOCK_USER_PROFILE;
           Connect.isGoogleLoading := false;
           Connect.googleError := None |}, g))
  ∧ (isDemo = false → Connect.google w ≠ None → Google.hasGoogleClientId g = false →
     Connect.handleGoogleConnect isDemo w s g
     = ({| Connect.app := Connect.setProcessingError None (Connect.app s);
           Connect.user := Connect.user s;
           Connect.isGoogleLoading := false;
           Connect.googleError := None |}, g)).
Proof.
  unfold Connect.handleGoogleConnect. cbv zeta.
  set (s0 := {| Connect.app := Connect.setProcessingError None (Connect.app s);
                Connect.user := Connect.user s;
                Connect.isGoogleLoading := true;
                Connect.googleError := None |}).
  assert (Hcatch : ∀ error st,
    App.meetings (Connect.app st) = App.meetings (Connect.app s) →
    App.state (Connect.app st) = App.state (Connect.app s) →
    App.processingError (Connect.app st) = None →
    Connect.isGoogleLoading (Connect.handleGoogleConnect_catch error st) = false
    ∧ App.meetings (Connect.app s)
        `prefix_of` App.meetings (Connect.app (Connect.handleGoogleConnect_catch error st))
    ∧ App.state (Connect.app (Connect.handleGoogleConnect_catch error st))
      = App.state (Connect.app s)
    ∧ (Connect.googleError (Connect.handleGoogleConnect_catch error st) ≠ None →
       App.meetings (Connect.app (Connect.handleGoogleConnect_catch error st))
       = App.meetings (Connect.app s))
    ∧ (App.processingError (Connect.app (Connect.handleGoogleConnect_catch error st))
       ≠ None →
       Connect.googleError (Connect.handleGoogleConnect_catch error st) ≠ None)).
  { intros error st Hm Hs Hp.
    destruct (catch_outcome error st) as (H1 & _ & H3 & H4 & _ & _ & H7).
    rewrite H3, H4, Hm, Hs. repeat split; auto.
    destruct H7 as [H7 | [_ H7]]; [rewrite H7, Hp; congruence | auto]. }
  assert (Hmissing : Connect.google w ≠ None → Google.hasGoogleClientId g = false →
            Connect.signInWithGoogle w g
            = (Connect.Rejected
                 (Connect.RejectedError
                    {| Js.name := "Error"; Js.message := "GOOGLE_CLIENT_ID_MISSING" |}), g)).
  { intros Hg Hno.
    unfold Connect.signInWithGoogle, Google.initTokenClient, Google.hasGoogleClientId in *.
    destruct (Connect.google w); [|congruence]. rewrite Hno. reflexivity. }
  destruct isDemo.
  - cbn [fst]. repeat split; try reflexivity; try discriminate;
      try (cbn; congruence).
    cbn. unfold App.mergeDemo. apply prefix_app_r. reflexivity.
  - rewrite (signIn_hangs w g).
    destruct (Connect.signInWithGoogle w g) as [[profile|error|] g1] eqn:Hsign.
    + destruct (fst (Google.fetchGoogleCalendarEvents _ _ _ _ _ g1))
        as [events|err] eqn:Hfetch.
      * cbn [fst]. repeat split; try reflexivity; try discriminate;
          try (cbn; congruence).
        -- cbn. unfold App.mergeCalendar. apply prefix_app_r. reflexivity.
        -- intros _ Hg Hno. discriminate (Hmissing Hg Hno).
      * destruct (Hcatch (Connect.RejectedError err)
                    {| Connect.app := Connect.app s0; Connect.user := Some profile;
                       Connect.isGoogleLoading := Connect.isGoogleLoading s0;
                       Connect.googleError := Connect.googleError s0 |}
                    eq_refl eq_refl eq_refl) as (H1 & H2 & H3 & H4 & H5).
        cbn [fst]. repeat split; auto; try discriminate.
        intros _ Hg Hno. discriminate (Hmissing Hg Hno).
    + destruct (Hcatch error s0 eq_refl eq_refl eq_refl) as (H1 & H2 & H3 & H4 & H5).
      cbn [fst]. repeat split; auto; try discriminate.
      intros _ Hg Hno. injection (Hmissing Hg Hno) as -> ->. reflexivity.
    + cbn [fst]. repeat split; try reflexivity; try discriminate;
        try (cbn; congruence).
      intros _ Hg Hno. discriminate (Hmissing Hg Hno).
Qed.

Lemma connecting_ends_witness :
  Connect.handleGoogleConnect true SampleConnect.offline SampleConnect.before
    (Google.load None)
  = ({| Connect.app :=
          App.setMeetings App.mergeDemo
            (Connect.setProcessingError None (Connect.app SampleConnect.before));
        Connect.user := Some Connect.MOCK_USER_PROFILE;
        Connect.isGoogleLoading := false;
        Connect.googleError := None |}, Google.load None)
  ∧ Connect.handleGoogleConnect false SampleConnect.offline SampleConnect.before
      (Google.load None)
    = ({| Connect.app := Connect.setProcessingError None (Connect.app SampleConnect.before);
          Connect.user := Connect.user SampleConnect.before;
          Connect.isGoogleLoading := false;
          Connect.googleError := None |}, Google.load None).
Proof.
  split.
  - apply (proj1 (proj2 (proj2 (proj2 (proj2 (proj2
             (connecting_ends true SampleConnect.offline SampleConnect.before
                (Google.load None)))))))).
    reflexivity.
  - apply (proj2 (proj2 (proj2 (proj2 (proj2 (proj2
             (connecting_ends false SampleConnect.offline SampleConnect.before
                (Google.load None)))))))).
    + reflexivity.
    + discriminate.
    + reflexivity.
Defined.
